(** * transcribe.py: a shallow embedding and its verified properties

    The development follows the layout of [src/transcribe.py]:
    Python strings and their methods, the URL parser, the filename
    sanitizer, the cookie resolver, the audio downloader with its client
    fallback loop, the SRT timestamp formatter and the transcript writer. *)

From Stdlib Require Import ZArith NArith List Ascii String Bool Lia.
From Stdlib Require Import Floats.SpecFloat.
From stdpp Require Import base option list gmap.

Import ListNotations.
Local Open Scope Z_scope.
Local Open Scope list_scope.

(** ** Python strings

    A Python [str] is a sequence of Unicode code points; [len] counts code
    points, not bytes. *)

Module PyStr.

Definition char := N.
Definition pystr := list N.

(** Source literals are UTF-8 text; [py] decodes a literal into its code
    points, as the Python lexer does. *)
Fixpoint utf8_cont (n : nat) (acc : N) (bs : list N) : N * list N :=
  match n with
  | O => (acc, bs)
  | S n' =>
      match bs with
      | [] => (acc, [])
      | b :: bs' => utf8_cont n' (acc * 64 + N.land b 63)%N bs'
      end
  end.

Fixpoint utf8_decode (fuel : nat) (bs : list N) : pystr :=
  match fuel with
  | O => []
  | S fuel' =>
      match bs with
      | [] => []
      | b :: bs' =>
          let '(c, rest) :=
            if (b <? 128)%N then (b, bs')
            else if (b <? 224)%N then utf8_cont 1 (N.land b 31) bs'
            else if (b <? 240)%N then utf8_cont 2 (N.land b 15) bs'
            else utf8_cont 3 (N.land b 7) bs' in
          c :: utf8_decode fuel' rest
      end
  end.

Definition py (s : string) : pystr :=
  let bs := map N_of_ascii (list_ascii_of_string s) in
  utf8_decode (length bs) bs.

End PyStr.
Export PyStr.

(** ** String methods used by the program *)

Module PyStrOps.

(** [str.isspace] on one code point: the Unicode whitespace set that
    [str.strip()] removes. *)
Definition isspace (c : char) : bool :=
  ((9 <=? c) && (c <=? 13) || (28 <=? c) && (c <=? 32)
   || (c =? 133) || (c =? 160) || (c =? 5760)
   || (8192 <=? c) && (c <=? 8202)
   || (c =? 8232) || (c =? 8233) || (c =? 8239) || (c =? 8287)
   || (c =? 12288))%N.

Fixpoint lstrip (s : pystr) : pystr :=
  match s with
  | c :: s' => if isspace c then lstrip s' else s
  | [] => []
  end.

Definition rstrip (s : pystr) : pystr := rev (lstrip (rev s)).

(** [s.strip()] *)
Definition strip (s : pystr) : pystr := rstrip (lstrip s).

(** [c in s] for a one-character needle. *)
Definition contains_char (c : char) (s : pystr) : bool :=
  existsb (N.eqb c) s.

(** [s.split(sep, 1)] for a one-character separator that occurs in [s]:
    the text before the first separator and the text after it. *)
Fixpoint split1 (sep : char) (s : pystr) : pystr * pystr :=
  match s with
  | [] => ([], [])
  | c :: s' =>
      if (c =? sep)%N then ([], s')
      else let '(a, b) := split1 sep s' in (c :: a, b)
  end.

Fixpoint startswith (p s : pystr) : bool :=
  match p, s with
  | [], _ => true
  | _ :: _, [] => false
  | a :: p', b :: s' => (a =? b)%N && startswith p' s'
  end.

Definition endswith (suffix s : pystr) : bool :=
  startswith (rev suffix) (rev s).

(** [str(n)] for a non-negative integer: its decimal digits. *)
Fixpoint digits (fuel : nat) (n : N) (acc : pystr) : pystr :=
  match fuel with
  | O => acc
  | S fuel' =>
      let acc' := (48 + n mod 10)%N :: acc in
      if (n <? 10)%N then acc' else digits fuel' (n / 10)%N acc'
  end.

Definition str_nat (n : N) : pystr := digits (S (N.to_nat (N.log2 n))) n [].

(** [str(z)] for an integer. *)
Definition str_int (z : Z) : pystr :=
  if z <? 0 then py "-" ++ str_nat (Z.to_N (- z)) else str_nat (Z.to_N z).

(** The format specification [0<w>d] of an f-string: zero padding to a
    minimum width, the sign counting towards the width. *)
Definition format_0d (w : nat) (z : Z) : pystr :=
  let ds := str_nat (Z.to_N (Z.abs z)) in
  if z <? 0
  then py "-" ++ replicate (w - 1 - length ds) 48%N ++ ds
  else replicate (w - length ds) 48%N ++ ds.

End PyStrOps.
Export PyStrOps.

(** ** Filename sanitizer (transcribe.py, sanitize_filename) *)

(** The character class of [illegal_chars]: the nine characters
    less-than, greater-than, colon, double quote (code point 34), slash,
    backslash, bar, question mark and star. *)
Definition illegal_chars : pystr := py "<>:" ++ [34%N] ++ py "/\|?*".

Definition is_illegal (c : char) : bool := contains_char c illegal_chars.

(** [re.sub(cls, repl, s)] for a pattern that is one character class:
    every character of the class is replaced, all others are kept. *)
Definition re_sub_class (cls : char -> bool) (repl : pystr) (s : pystr) : pystr :=
  concat (map (fun c => if cls c then repl else [c]) s).

Definition sanitize_filename (filename : pystr) : pystr :=
  let sanitized := re_sub_class is_illegal (py "_") filename in
  if (200 <? length sanitized)%nat then take 200 sanitized else sanitized.


(** ** Regular expressions (the fragment of [re] the program uses)

    A backtracking matcher in continuation-passing style, as in Python's
    [re] module: alternatives are tried in priority order (a greedy
    optional item first with the item, then without it) and the first
    complete match wins.  One capturing group is tracked. *)

Module Re.

Inductive regex : Type :=
| REps                          (* the empty pattern *)
| RChar (c : char)              (* a literal character, escaped or not *)
| RClass (cls : char -> bool)   (* a bracketed character class *)
| RSeq (r1 r2 : regex)          (* concatenation *)
| ROpt (r : regex)              (* r? (greedy) *)
| RGroup (r : regex).           (* the capturing group (...) *)

(** A literal string. *)
Definition lit (s : pystr) : regex :=
  fold_right (fun c r => RSeq (RChar c) r) REps s.

(** Bounded repetition [r{n}]. *)
Fixpoint rrep (n : nat) (r : regex) : regex :=
  match n with
  | O => REps
  | S n' => RSeq r (rrep n' r)
  end.

(** [bt r s g k]: match [r] at the start of [s] with current capture [g],
    then continue with [k] on the remaining text; [None] when every
    alternative fails. *)
Fixpoint bt {A : Type} (r : regex) (s : pystr) (g : option pystr)
    (k : pystr -> option pystr -> option A) : option A :=
  match r with
  | REps => k s g
  | RChar c =>
      match s with
      | c' :: s' => if (c =? c')%N then k s' g else None
      | [] => None
      end
  | RClass cls =>
      match s with
      | c' :: s' => if cls c' then k s' g else None
      | [] => None
      end
  | RSeq r1 r2 => bt r1 s g (fun s' g' => bt r2 s' g' k)
  | ROpt r1 =>
      match bt r1 s g k with
      | Some x => Some x
      | None => k s g
      end
  | RGroup r1 =>
      bt r1 s g (fun s' _ => k s' (Some (take (length s - length s') s)))
  end.

(** A match object: the text after the match and [group(1)]. *)
Record match_obj : Type := MatchObj { m_rest : pystr; m_group1 : option pystr }.

(** [re.match(r, s)]: a match anchored at the start of [s]. *)
Definition re_match (r : regex) (s : pystr) : option match_obj :=
  bt r s None (fun s' g => Some (MatchObj s' g)).

(** [re.search(r, s)]: the match at the leftmost position that has one. *)
Fixpoint re_search (r : regex) (s : pystr) : option match_obj :=
  match re_match r s with
  | Some m => Some m
  | None =>
      match s with
      | [] => None
      | _ :: s' => re_search r s'
      end
  end.

End Re.
Export Re.

(** ** URL parser (transcribe.py, parse_youtube_url) *)

(** The class [[a-zA-Z0-9_-]]. *)
Definition id_char (c : char) : bool :=
  ((97 <=? c) && (c <=? 122) || (65 <=? c) && (c <=? 90)
   || (48 <=? c) && (c <=? 57) || (c =? 95) || (c =? 45))%N.

(** [(?:https?://)?] *)
Definition re_scheme : regex :=
  ROpt (RSeq (lit (py "http")) (RSeq (ROpt (RChar 115%N)) (lit (py "://")))).

(** [(?:www\.)?] *)
Definition re_www : regex := ROpt (lit (py "www.")).

(** [([a-zA-Z0-9_-]{11})] *)
Definition re_id : regex := RGroup (rrep 11 (RClass id_char)).

Definition patterns : list regex :=
  [ RSeq re_scheme (RSeq re_www (RSeq (lit (py "youtube.com/watch?v=")) re_id));
    RSeq re_scheme (RSeq re_www (RSeq (lit (py "youtube.com/embed/")) re_id));
    RSeq re_scheme (RSeq re_www (RSeq (lit (py "youtube.com/v/")) re_id));
    RSeq re_scheme (RSeq (lit (py "youtu.be/")) re_id) ].

(** The loop [for pattern in patterns], returning at the first match. *)
Fixpoint first_match (ps : list regex) (url : pystr) : option pystr :=
  match ps with
  | [] => None
  | pattern :: ps' =>
      match re_search pattern url with
      | Some m => m_group1 m
      | None => first_match ps' url
      end
  end.

Definition parse_youtube_url (url : pystr) : option pystr :=
  first_match patterns url.

(** ** Exceptions and results *)

Module PyExc.

(** The exception classes that occur in the program and its libraries.
    [KeyboardInterrupt] and [SystemExit] derive from [BaseException]
    only; every other class derives from [Exception]. *)
Inductive exc_class : Type :=
| Exception
| ValueError
| OverflowError
| ZeroDivisionError
| FileNotFoundError
| IsADirectoryError
| NotADirectoryError
| DownloadError
| KeyboardInterrupt
| SystemExit.

(** An exception object: its class and the text of [str(e)]. *)
Record exn : Type := Exn { exc_type : exc_class; exc_str : pystr }.

(** [isinstance(e, Exception)], the test of [except Exception]. *)
Definition is_Exception (e : exn) : bool :=
  match exc_type e with
  | KeyboardInterrupt | SystemExit => false
  | _ => true
  end.

Inductive result (A : Type) : Type :=
| Ok (a : A)
| Raise (e : exn).

Arguments Ok {A} a.
Arguments Raise {A} e.

Definition rbind {A B : Type} (r : result A) (f : A -> result B) : result B :=
  match r with
  | Ok a => f a
  | Raise e => Raise e
  end.

End PyExc.
Export PyExc.

(** ** Python numbers: [int] and [float] (IEEE 754 binary64) *)

Module PyNum.

Definition prec : Z := 53.
Definition emax : Z := 1024.

Definition float : Type := spec_float.

Definition fadd : float -> float -> float := SFadd prec emax.
Definition fsub : float -> float -> float := SFsub prec emax.
Definition fmul : float -> float -> float := SFmul prec emax.
Definition fdiv : float -> float -> float := SFdiv prec emax.
Definition fltb : float -> float -> bool := SFltb.

(** The float nearest to an integer (ties to even). *)
Definition float_of_Z (z : Z) : float := binary_normalize prec emax z 0 false.

Definition sign_bit (x : float) : bool :=
  match x with
  | S754_zero s | S754_infinity s | S754_finite s _ _ => s
  | S754_nan => false
  end.

(** Truth value of a C double: non-zero (NaN included). *)
Definition nonzero (x : float) : bool :=
  match x with
  | S754_zero _ => false
  | _ => true
  end.

(** C [fmod]: the exact remainder of the truncated division, with the
    sign of [x]; it is always representable. *)
Definition fmod (x y : float) : float :=
  match x, y with
  | S754_nan, _ | _, S754_nan => S754_nan
  | S754_infinity _, _ => S754_nan
  | _, S754_zero _ => S754_nan
  | S754_zero _, _ => x
  | _, S754_infinity _ => x
  | S754_finite sx mx ex, S754_finite _ my ey =>
      let e := Z.min ex ey in
      let X := Zpos mx * 2 ^ (ex - e) in
      let Y := Zpos my * 2 ^ (ey - e) in
      let R := X mod Y in
      binary_normalize prec emax (if sx then - R else R) e sx
  end.

(** C [floor]. *)
Definition ffloor (x : float) : float :=
  match x with
  | S754_finite s m e =>
      if 0 <=? e then x
      else binary_normalize prec emax ((if s then Zneg m else Zpos m) / 2 ^ (- e)) 0 s
  | _ => x
  end.

(** CPython's [_float_div_mod] (Objects/floatobject.c), for [wx] that is
    not zero: the pair (floor quotient, remainder). *)
Definition float_div_mod (vx wx : float) : float * float :=
  let mod0 := fmod vx wx in
  let div0 := fdiv (fsub vx mod0) wx in
  let '(mod1, div1) :=
    if nonzero mod0 then
      if negb (Bool.eqb (fltb wx (S754_zero false)) (fltb mod0 (S754_zero false)))
      then (fadd mod0 wx, fsub div0 (float_of_Z 1))
      else (mod0, div0)
    else (S754_zero (sign_bit wx), div0) in
  let floordiv :=
    if nonzero div1 then
      let fl := ffloor div1 in
      if fltb (fdiv (float_of_Z 1) (float_of_Z 2)) (fsub div1 fl)
      then fadd fl (float_of_Z 1) else fl
    else S754_zero (sign_bit (fdiv vx wx)) in
  (floordiv, mod1).

(** CPython's [float_rem]. *)
Definition float_rem (vx wx : float) : float :=
  let mod0 := fmod vx wx in
  if nonzero mod0 then
    if negb (Bool.eqb (fltb wx (S754_zero false)) (fltb mod0 (S754_zero false)))
    then fadd mod0 wx else mod0
  else S754_zero (sign_bit wx).

Inductive pynum : Type :=
| PyInt (z : Z)
| PyFloat (x : float).

(** Conversion of an [int] operand in mixed arithmetic. *)
Definition int_to_float (z : Z) : result float :=
  match float_of_Z z with
  | S754_infinity _ => Raise (Exn OverflowError (py "int too large to convert to float"))
  | x => Ok x
  end.

Definition as_float (a : pynum) : result float :=
  match a with
  | PyInt z => int_to_float z
  | PyFloat x => Ok x
  end.

(** [a // b] *)
Definition py_floordiv (a b : pynum) : result pynum :=
  match a, b with
  | PyInt x, PyInt y =>
      if y =? 0 then Raise (Exn ZeroDivisionError (py "integer division or modulo by zero"))
      else Ok (PyInt (x / y))
  | _, _ =>
      rbind (as_float a) (fun x =>
      rbind (as_float b) (fun y =>
      if nonzero y then Ok (PyFloat (fst (float_div_mod x y)))
      else Raise (Exn ZeroDivisionError (py "float floor division by zero"))))
  end.

(** [a % b] *)
Definition py_mod (a b : pynum) : result pynum :=
  match a, b with
  | PyInt x, PyInt y =>
      if y =? 0 then Raise (Exn ZeroDivisionError (py "integer division or modulo by zero"))
      else Ok (PyInt (x mod y))
  | _, _ =>
      rbind (as_float a) (fun x =>
      rbind (as_float b) (fun y =>
      if nonzero y then Ok (PyFloat (float_rem x y))
      else Raise (Exn ZeroDivisionError (py "float modulo"))))
  end.

(** [a * b] *)
Definition py_mul (a b : pynum) : result pynum :=
  match a, b with
  | PyInt x, PyInt y => Ok (PyInt (x * y))
  | _, _ =>
      rbind (as_float a) (fun x =>
      rbind (as_float b) (fun y => Ok (PyFloat (fmul x y))))
  end.

(** [int(a)]: truncation towards zero. *)
Definition py_int (a : pynum) : result Z :=
  match a with
  | PyInt z => Ok z
  | PyFloat (S754_zero _) => Ok 0
  | PyFloat (S754_finite s m e) =>
      let v := if 0 <=? e then Zpos m * 2 ^ e else Zpos m / 2 ^ (- e) in
      Ok (if s then - v else v)
  | PyFloat (S754_infinity _) =>
      Raise (Exn OverflowError (py "cannot convert float infinity to integer"))
  | PyFloat S754_nan =>
      Raise (Exn ValueError (py "cannot convert float NaN to integer"))
  end.

(** A decimal literal [n / 10^k] read as a float (correctly rounded
    whenever the quotient is; exact for the dyadic values used below). *)
Definition float_lit (n : Z) (k : Z) : float :=
  fdiv (float_of_Z n) (float_of_Z (10 ^ k)).

End PyNum.
Export PyNum.

(** ** SRT timestamps (transcribe.py, format_timestamp) *)

Definition format_timestamp (seconds : pynum) : result pystr :=
  rbind (rbind (py_floordiv seconds (PyInt 3600)) py_int) (fun hours =>
  rbind (rbind (rbind (py_mod seconds (PyInt 3600))
                      (fun r => py_floordiv r (PyInt 60))) py_int) (fun minutes =>
  rbind (rbind (py_mod seconds (PyInt 60)) py_int) (fun secs =>
  rbind (rbind (rbind (py_mod seconds (PyInt 1))
                      (fun r => py_mul r (PyInt 1000))) py_int) (fun millis =>
  Ok (format_0d 2 hours ++ py ":" ++ format_0d 2 minutes ++ py ":"
      ++ format_0d 2 secs ++ py "," ++ format_0d 3 millis))))).

(** ** Python values held in option dictionaries *)

Module PyVal.

Local Unset Elimination Schemes.

Inductive pyval : Type :=
| VNone
| VBool (b : bool)
| VStr (s : pystr)
| VList (l : list pyval)
| VTuple (l : list pyval)
| VSet (l : list pyval)
| VDict (d : gmap pystr pyval).

Local Set Elimination Schemes.

Abbreviation dict := (gmap pystr pyval).

(** Truth value, as tested by [if x:]. *)
Definition truthy (v : pyval) : bool :=
  match v with
  | VNone => false
  | VBool b => b
  | VStr s => negb (bool_decide (s = []))
  | VList l | VTuple l | VSet l => negb (bool_decide (length l = 0%nat))
  | VDict d => negb (bool_decide (size d = 0%nat))
  end.

(** [sep.join(l)] *)
Fixpoint join (sep : pystr) (l : list pystr) : pystr :=
  match l with
  | [] => []
  | [x] => x
  | x :: l' => x ++ sep ++ join sep l'
  end.

(** [repr(v)]; string literals are quoted without escapes, which is
    exact for the quote-free strings the program displays, and the items
    of a dictionary are listed in the order of the map. *)
Fixpoint py_repr (v : pyval) : pystr :=
  match v with
  | VNone => py "None"
  | VBool true => py "True"
  | VBool false => py "False"
  | VStr s => py "'" ++ s ++ py "'"
  | VList l => py "[" ++ join (py ", ") (map py_repr l) ++ py "]"
  | VTuple [x] => py "(" ++ py_repr x ++ py ",)"
  | VTuple l => py "(" ++ join (py ", ") (map py_repr l) ++ py ")"
  | VSet [] => py "set()"
  | VSet l => py "{" ++ join (py ", ") (map py_repr l) ++ py "}"
  | VDict d =>
      py "{" ++ join (py ", ")
        (map (fun kv => py "'" ++ fst kv ++ py "': " ++ snd kv)
             (map_to_list (py_repr <$> d))) ++ py "}"
  end.

(** [str(v)] *)
Definition py_str (v : pyval) : pystr :=
  match v with
  | VStr s => s
  | _ => py_repr v
  end.

End PyVal.
Export PyVal.

(** ** Paths ([pathlib.Path]) *)

Module PyPath.

(** A path is the list of its parts, outermost first. *)
Definition Path : Type := list pystr.

(** [p / name] for a name without separators. *)
Definition path_div (p : Path) (name : pystr) : Path := p ++ [name].

(** [p.name] *)
Definition path_name (p : Path) : pystr := List.last p [].

(** [p.parent] *)
Definition path_parent (p : Path) : Path := removelast p.

(** [str(p)] *)
Definition path_str (p : Path) : pystr :=
  match p with
  | [] => py "."
  | root :: rest =>
      if bool_decide (root = py "/") then root ++ join (py "/") rest
      else join (py "/") p
  end.

(** [s.rfind(c)]: the index of the last occurrence of [c]. *)
Fixpoint rfind (c : char) (s : pystr) : option nat :=
  match s with
  | [] => None
  | c' :: s' =>
      match rfind c s' with
      | Some i => Some (S i)
      | None => if (c' =? c)%N then Some O else None
      end
  end.

(** [PurePath.suffix] computed on the name. *)
Definition name_suffix (name : pystr) : pystr :=
  match rfind 46%N name with
  | Some i =>
      if ((0 <? i) && (i <? length name - 1))%nat then drop i name else []
  | None => []
  end.

(** [p.with_suffix(suffix)] for a well-formed suffix (a dot followed by
    text without separators): fails on a path whose name is empty. *)
Definition with_suffix (p : Path) (suffix : pystr) : result Path :=
  let name := path_name p in
  if bool_decide (name = []) then
    Raise (Exn ValueError (py "PosixPath('" ++ path_str p ++ py "') has an empty name"))
  else
    let old_suffix := name_suffix name in
    let name' :=
      if bool_decide (old_suffix = []) then name ++ suffix
      else take (length name - length old_suffix) name ++ suffix in
    Ok (path_div (path_parent p) name').

End PyPath.
Export PyPath.

(** ** The file system *)

Module FileSys.

(** A directory entry: directory flag, contents of a regular file and
    [st_mtime] (as a fixed-point number). *)
Record inode : Type := Inode { i_dir : bool; i_data : pystr; i_mtime : Z }.

(** The entries in the order in which the operating system enumerates
    them (the first entry for a path is the file, later ones are dead),
    the symbolic links whose target is missing, and the time that is
    stamped on a file when it is written.  A directory listing shows
    such a link, [os.stat] does not find it; it counts as long as no
    entry exists for its path.  The empty path stands for the current
    directory. *)
Record file_system : Type := MkFS {
  fs_entries : list (Path * inode);
  fs_links : list Path;
  fs_clock : Z
}.

(** A file system without dangling links. *)
Definition FS (entries : list (Path * inode)) (clock : Z) : file_system :=
  MkFS entries [] clock.

Fixpoint lookup_entry (p : Path) (es : list (Path * inode)) : option inode :=
  match es with
  | [] => None
  | (q, i) :: es' => if bool_decide (q = p) then Some i else lookup_entry p es'
  end.

(** [os.stat(p)] *)
Definition fs_stat (fs : file_system) (p : Path) : option inode :=
  lookup_entry p (fs_entries fs).

(** [p.exists()] *)
Definition fs_exists (fs : file_system) (p : Path) : bool :=
  bool_decide (is_Some (fs_stat fs p)).

(** The live entries, each path once, in enumeration order. *)
Fixpoint live_entries (es : list (Path * inode)) : list (Path * inode) :=
  match es with
  | [] => []
  | (p, i) :: es' =>
      (p, i) :: filter (fun e => fst e <> p) (live_entries es')
  end.

(** The entries directly inside [d], with what [os.stat] finds there. *)
Definition fs_scandir (fs : file_system) (d : Path) : list (Path * inode) :=
  filter (fun e => fst e <> [] /\ path_parent (fst e) = d)
         (live_entries (fs_entries fs)).

(** The dangling links directly inside [d]. *)
Definition fs_dangling (fs : file_system) (d : Path) : list Path :=
  filter (fun p => p <> [] /\ path_parent p = d /\ fs_stat fs p = None) (fs_links fs).

(** The names that a listing of [d] shows: its entries, then its
    dangling links. *)
Definition fs_listdir (fs : file_system) (d : Path) : list Path :=
  map fst (fs_scandir fs d) ++ fs_dangling fs d.

(** [d.glob("*" + suffix)]: the listed paths of [d] whose name ends
    with the suffix, a dangling link included (names are compared
    case-sensitively, as on POSIX). *)
Definition fs_glob_suffix (fs : file_system) (d : Path) (suffix : pystr)
    : list Path :=
  filter (fun p => endswith suffix (path_name p) = true) (fs_listdir fs d).

(** [p.stat().st_mtime] *)
Definition st_mtime (fs : file_system) (p : Path) : result Z :=
  match fs_stat fs p with
  | Some i => Ok (i_mtime i)
  | None =>
      Raise (Exn FileNotFoundError
               (py "[Errno 2] No such file or directory: '" ++ path_str p ++ py "'"))
  end.

Fixpoint replace_entry (p : Path) (i : inode) (es : list (Path * inode))
    : list (Path * inode) :=
  match es with
  | [] => [(p, i)]
  | (q, j) :: es' =>
      if bool_decide (q = p) then (p, i) :: es' else (q, j) :: replace_entry p i es'
  end.

(** Store [data] as the contents of the regular file [p]. *)
Definition fs_put (fs : file_system) (p : Path) (data : pystr) : file_system :=
  MkFS (replace_entry p (Inode false data (fs_clock fs)) (fs_entries fs))
    (fs_links fs) (fs_clock fs).

Definition is_dir (fs : file_system) (p : Path) : bool :=
  match fs_stat fs p with
  | Some i => i_dir i
  | None => false
  end.

(** [open(p, 'w')]: the file is created or truncated; fails when the
    parent is not an existing directory or [p] is a directory. *)
Definition fs_open_w (fs : file_system) (p : Path) : result file_system :=
  if is_dir fs p then
    Raise (Exn IsADirectoryError (py "[Errno 21] Is a directory: '" ++ path_str p ++ py "'"))
  else if negb (fs_exists fs (path_parent p)) then
    Raise (Exn FileNotFoundError
             (py "[Errno 2] No such file or directory: '" ++ path_str p ++ py "'"))
  else if negb (is_dir fs (path_parent p)) then
    Raise (Exn NotADirectoryError (py "[Errno 20] Not a directory: '" ++ path_str p ++ py "'"))
  else Ok (fs_put fs p []).

(** [f.write(s)] on a file opened for writing: [s] is appended. *)
Definition fs_append (fs : file_system) (p : Path) (s : pystr) : file_system :=
  match fs_stat fs p with
  | Some i => fs_put fs p (i_data i ++ s)
  | None => fs_put fs p s
  end.

(** The contents read back from a regular file. *)
Definition fs_read (fs : file_system) (p : Path) : option pystr :=
  match fs_stat fs p with
  | Some i => if i_dir i then None else Some (i_data i)
  | None => None
  end.

End FileSys.
Export FileSys.

(** ** The world the program runs in, and its monad *)

Module World.

(** A call into the extraction library: the only network activity of the
    program. *)
Inductive ydl_call : Type :=
| CallExtractInfo (opts : dict) (url : pystr)       (* extract_info(url, download=False) *)
| CallDownload (opts : dict) (urls : list pystr).   (* download([url]) *)

(** The two fields read from the metadata dictionary ([None] when the
    key is absent). *)
Record info_dict : Type := Info { info_title : option pystr; info_id : option pystr }.

(** The state: file system, standard output (one item per [print]), the
    log of library calls, and the state [ext] of everything outside the
    process (network, remote servers). *)
Record world (ext : Type) : Type := World {
  w_fs : file_system;
  w_stdout : list pystr;
  w_calls : list ydl_call;
  w_ext : ext
}.

Arguments World {ext} _ _ _ _.
Arguments w_fs {ext} _.
Arguments w_stdout {ext} _.
Arguments w_calls {ext} _.
Arguments w_ext {ext} _.

(** The extraction library [yt_dlp]: a [YoutubeDL(opts)] object used for
    one metadata extraction or one download.  Each may change the file
    system and the outside state, and may raise. *)
Class YoutubeDL (ext : Type) : Type := {
  ydl_extract_info : dict -> pystr -> file_system -> ext -> file_system * ext * result info_dict;
  ydl_download : dict -> list pystr -> file_system -> ext -> file_system * ext * result unit
}.

(** What the process inherits from its platform: the meaning of
    [Path(s).expanduser().resolve()] and the directory of the script
    ([Path(__file__).resolve().parent]). *)
Class Platform : Type := {
  expanduser_resolve : pystr -> Path;
  script_dir : Path
}.

Section Monad.
Context {ext : Type}.

Definition M (A : Type) : Type := world ext -> world ext * result A.

Definition ret {A : Type} (a : A) : M A := fun w => (w, Ok a).

Definition bind {A B : Type} (m : M A) (f : A -> M B) : M B :=
  fun w =>
    match m w with
    | (w', Ok a) => f a w'
    | (w', Raise e) => (w', Raise e)
    end.

(** [raise e] *)
Definition raise {A : Type} (e : exn) : M A := fun w => (w, Raise e).

(** A pure computation that may raise. *)
Definition lift {A : Type} (r : result A) : M A := fun w => (w, r).

(** [try: body  except Exception as e: handler(e)] *)
Definition try_except {A : Type} (body : M A) (handler : exn -> M A) : M A :=
  fun w =>
    match body w with
    | (w', Ok a) => (w', Ok a)
    | (w', Raise e) => if is_Exception e then handler e w' else (w', Raise e)
    end.

(** [print(s)] *)
Definition print (s : pystr) : M unit :=
  fun w => (World (w_fs w) (w_stdout w ++ [s]) (w_calls w) (w_ext w), Ok tt).

Definition get_fs : M file_system := fun w => (w, Ok (w_fs w)).

Definition set_fs (fs : file_system) : M unit :=
  fun w => (World fs (w_stdout w) (w_calls w) (w_ext w), Ok tt).

(** [p.exists()] *)
Definition path_exists (p : Path) : M bool :=
  fun w => (w, Ok (fs_exists (w_fs w) p)).

(** [open(p, 'w')] *)
Definition open_w (p : Path) : M unit :=
  fun w =>
    match fs_open_w (w_fs w) p with
    | Ok fs' => (World fs' (w_stdout w) (w_calls w) (w_ext w), Ok tt)
    | Raise e => (w, Raise e)
    end.

(** [f.write(s)] *)
Definition write (p : Path) (s : pystr) : M unit :=
  fun w => (World (fs_append (w_fs w) p s) (w_stdout w) (w_calls w) (w_ext w), Ok tt).

Context `{YoutubeDL ext}.

(** [with yt_dlp.YoutubeDL(opts) as ydl: ydl.extract_info(url, download=False)] *)
Definition extract_info (opts : dict) (url : pystr) : M info_dict :=
  fun w =>
    let '(fs', x', r) := ydl_extract_info opts url (w_fs w) (w_ext w) in
    (World fs' (w_stdout w) (w_calls w ++ [CallExtractInfo opts url]) x', r).

(** [with yt_dlp.YoutubeDL(opts) as ydl: ydl.download(urls)] *)
Definition download (opts : dict) (urls : list pystr) : M unit :=
  fun w =>
    let '(fs', x', r) := ydl_download opts urls (w_fs w) (w_ext w) in
    (World fs' (w_stdout w) (w_calls w ++ [CallDownload opts urls]) x', r).

End Monad.

End World.
Export World.

Declare Scope py_scope.
Delimit Scope py_scope with py.
Notation "x <- m ;; k" := (bind m (fun x => k))
  (at level 100, m at next level, right associativity) : py_scope.
Notation "m ;;; k" := (bind m (fun _ => k))
  (at level 100, right associativity) : py_scope.
Local Open Scope py_scope.

Definition nl : pystr := [10%N].

(** ** Cookie resolver (transcribe.py, find_cookie_file and
       parse_cookies_from_browser) *)

(** [l.sort(key=..., reverse=True)] on items already paired with their
    keys: a stable sort into descending key order. *)
Fixpoint insert_desc (x : Z * Path) (l : list (Z * Path)) : list (Z * Path) :=
  match l with
  | [] => [x]
  | y :: l' => if fst x <? fst y then y :: insert_desc x l' else x :: l
  end.

Definition sort_desc (l : list (Z * Path)) : list (Z * Path) :=
  fold_right insert_desc [] l.

(** The keys [p.stat().st_mtime] of the candidates, computed before the
    sort; the first failing [stat] raises. *)
Fixpoint mtime_keys (fs : file_system) (ps : list Path) : result (list (Z * Path)) :=
  match ps with
  | [] => Ok []
  | p :: ps' =>
      rbind (st_mtime fs p) (fun t =>
      rbind (mtime_keys fs ps') (fun l => Ok ((t, p) :: l)))
  end.

Definition find_cookie_file (fs : file_system) (search_dir : Path)
    : result (option Path) :=
  if negb (fs_exists fs search_dir) then Ok None
  else
    let preferred := path_div search_dir (py "cookies.txt") in
    if fs_exists fs preferred then Ok (Some preferred)
    else
      let candidates := fs_glob_suffix fs search_dir (py ".txt") in
      if bool_decide (candidates = []) then Ok None
      else
        rbind (mtime_keys fs candidates) (fun keyed =>
        Ok (head (map snd (sort_desc keyed)))).

(** Truth value of an optional string argument ([str | None]). *)
Definition opt_truthy (o : option pystr) : bool :=
  match o with
  | Some (_ :: _) => true
  | _ => false
  end.

(** The result is the tuple [(browser, profile)] or [(browser,)]. *)
Definition parse_cookies_from_browser (spec : pystr) : option (list pystr) :=
  if bool_decide (spec = []) then None
  else
    let spec := strip spec in
    if bool_decide (spec = []) then None
    else if contains_char 58%N spec then
      let '(browser, profile) := split1 58%N spec in
      let browser := strip browser in
      let profile := strip profile in
      if negb (bool_decide (browser = [])) && negb (bool_decide (profile = []))
      then Some [browser; profile]
      else if negb (bool_decide (browser = [])) then Some [browser]
      else None
    else Some [spec].

(** ** Audio downloader (transcribe.py, download_audio) *)

Section Downloader.
Context {ext : Type} `{YoutubeDL ext} `{Platform}.

(** Lines 245-262: the local dictionary [cookies_opts]. *)
Definition cookies_opts (cookies_path cookies_from_browser : option pystr)
    : M (ext := ext) dict :=
  if opt_truthy cookies_path then
    let cookiefile := expanduser_resolve (default [] cookies_path) in
    ex <- path_exists cookiefile ;;
    if negb ex then
      raise (Exn FileNotFoundError (py "Cookies 文件不存在: " ++ path_str cookiefile))
    else
      print (py "🍪 使用 cookies 文件: " ++ path_str cookiefile) ;;;
      ret (<[py "cookiefile" := VStr (path_str cookiefile)]> (∅ : dict))
  else if opt_truthy cookies_from_browser then
    match parse_cookies_from_browser (default [] cookies_from_browser) with
    | Some parsed =>
        print (py "🍪 从浏览器读取 cookies: " ++ default [] cookies_from_browser) ;;;
        ret (<[py "cookiesfrombrowser" := VTuple (map VStr parsed)]> (∅ : dict))
    | None => ret (∅ : dict)
    end
  else
    let default_dir := path_div script_dir (py "cookies") in
    fs <- get_fs ;;
    auto_cookie <- lift (find_cookie_file fs default_dir) ;;
    match auto_cookie with
    | Some p =>
        print (py "🍪 自动发现 cookies: " ++ path_str p) ;;;
        ret (<[py "cookiefile" := VStr (path_str p)]> (∅ : dict))
    | None => ret (∅ : dict)
    end.

(** The options shared by both kinds of call: [js_runtimes] and
    [remote_components] when they are truthy, then [update(cookies_opts)]. *)
Definition with_common_opts (opts : dict) (js_runtimes remote_components : pyval)
    (copts : dict) : dict :=
  let opts :=
    if truthy js_runtimes then <[py "js_runtimes" := js_runtimes]> opts else opts in
  let opts :=
    if truthy remote_components
    then <[py "remote_components" := remote_components]> opts else opts in
  copts ∪ opts.

Definition client_configs : list dict :=
  [ {[ py "player_client" := VList [VStr (py "ios"); VStr (py "web")] ]};
    {[ py "player_client" := VList [VStr (py "android"); VStr (py "web")] ]};
    {[ py "player_client" := VList [VStr (py "tv"); VStr (py "web")] ]};
    ∅ ].

(** The dictionary [ydl_opts] built in one iteration of the loop. *)
Definition ydl_opts (output_template : pystr) (js_runtimes remote_components : pyval)
    (copts extractor_args : dict) : dict :=
  let opts : dict :=
    <[py "format" := VStr (py "bestaudio/best")]>
    (<[py "outtmpl" := VStr output_template]>
    (<[py "postprocessors" :=
         VList [VDict (<[py "key" := VStr (py "FFmpegExtractAudio")]>
                      (<[py "preferredcodec" := VStr (py "mp3")]>
                      (<[py "preferredquality" := VStr (py "192")]> ∅)))]]>
    (<[py "quiet" := VBool false]>
    (<[py "no_warnings" := VBool false]> ∅)))) in
  let opts := with_common_opts opts js_runtimes remote_components copts in
  if truthy (VDict extractor_args)
  then <[py "extractor_args" := VDict {[ py "youtube" := VDict extractor_args ]}]> opts
  else opts.

(** The dictionary [base_opts] of the metadata-only extraction. *)
Definition base_opts (js_runtimes remote_components : pyval) (copts : dict) : dict :=
  with_common_opts {[ py "quiet" := VBool true ]} js_runtimes remote_components copts.

(** [str(output_dir / f"{safe_title}.%(ext)s")] *)
Definition output_template (output_dir : Path) (safe_title : pystr) : pystr :=
  path_str (path_div output_dir (safe_title ++ py ".%(ext)s")).

(** [output_dir / f"{safe_title}.mp3"] *)
Definition audio_path (output_dir : Path) (safe_title : pystr) : Path :=
  path_div output_dir (safe_title ++ py ".mp3").

(** How one iteration of the loop ends: with [return], or by going on to
    the next configuration with the current value of [last_error]. *)
Inductive step (A : Type) : Type :=
| Return (a : A)
| Continue (last_error : option exn).

Arguments Return {A} a.
Arguments Continue {A} last_error.

(** Lines 286-322: the loop over the client configurations and the
    final [raise]. *)
Fixpoint download_loop (url : pystr) (output_dir : Path) (video_title safe_title : pystr)
    (js_runtimes remote_components : pyval) (copts : dict)
    (configs : list dict) (last_error : option exn) : M (ext := ext) (Path * pystr) :=
  match configs with
  | [] =>
      raise (Exn Exception
               (py "❌ 所有下载方式都失败。最后错误: "
                ++ match last_error with Some e => exc_str e | None => py "None" end))
  | extractor_args :: rest =>
      let client_name :=
        default (VStr (py "default")) (extractor_args !! py "player_client") in
      print (py "🔄 尝试客户端: " ++ py_str client_name) ;;;
      let opts :=
        ydl_opts (output_template output_dir safe_title) js_runtimes remote_components
          copts extractor_args in
      outcome <-
        try_except
          (download opts [url] ;;;
           let audio_path := audio_path output_dir safe_title in
           ex <- path_exists audio_path ;;
           if ex then
             print (py "✅ 音频下载完成: " ++ path_name audio_path) ;;;
             ret (Return (audio_path, video_title))
           else ret (Continue last_error))
          (fun e =>
             print (py "⚠️ 客户端 " ++ py_str client_name ++ py " 失败: "
                    ++ take 120 (exc_str e)) ;;;
             ret (Continue (Some e))) ;;
      match outcome with
      | Return v => ret v
      | Continue last_error' =>
          download_loop url output_dir video_title safe_title
            js_runtimes remote_components copts rest last_error'
      end
  end.

Definition download_audio (url : pystr) (output_dir : Path)
    (cookies_path cookies_from_browser : option pystr)
    (js_runtimes remote_components : pyval) : M (ext := ext) (Path * pystr) :=
  print (py "📥 正在下载音频...") ;;;
  copts <- cookies_opts cookies_path cookies_from_browser ;;
  info <- extract_info (base_opts js_runtimes remote_components copts) url ;;
  let video_title := default (py "unknown") (info_title info) in
  let video_id := default (py "unknown") (info_id info) in
  let safe_title := sanitize_filename video_title in
  download_loop url output_dir video_title safe_title
    js_runtimes remote_components copts client_configs None.

(** A run of download attempts that all fail, written against the
    library alone: from the file system and outside state [(fs, x)] the
    downloads with the listed option dictionaries are made in order; each
    either raises an exception of class [Exception] (outcome [Some e])
    or returns without the file [target] existing afterwards (outcome
    [None]); [(fs', x')] is the state after the last one. *)
Inductive failed_attempts (url : pystr) (target : Path)
    : list dict -> file_system -> ext -> list (option exn) -> file_system -> ext -> Prop :=
| fa_nil (fs : file_system) (x : ext) :
    failed_attempts url target [] fs x [] fs x
| fa_raise (o : dict) (os : list dict) (fs fs1 fs' : file_system) (x x1 x' : ext)
    (e : exn) (outs : list (option exn)) :
    ydl_download o [url] fs x = (fs1, x1, Raise e) ->
    is_Exception e = true ->
    failed_attempts url target os fs1 x1 outs fs' x' ->
    failed_attempts url target (o :: os) fs x (Some e :: outs) fs' x'
| fa_silent (o : dict) (os : list dict) (fs fs1 fs' : file_system) (x x1 x' : ext)
    (outs : list (option exn)) :
    ydl_download o [url] fs x = (fs1, x1, Ok tt) ->
    fs_exists fs1 target = false ->
    failed_attempts url target os fs1 x1 outs fs' x' ->
    failed_attempts url target (o :: os) fs x (None :: outs) fs' x'.

(** The value of [last_error] after attempts with the given outcomes. *)
Definition last_error_after (last_error : option exn) (outs : list (option exn))
    : option exn :=
  fold_left (fun le o => match o with Some e => Some e | None => le end) outs last_error.

(** The text of the aggregate error for a final [last_error]:
    [str(None)] is the text None. *)
Definition aggregate_error (last_error : option exn) : exn :=
  Exn Exception
    (py "❌ 所有下载方式都失败。最后错误: "
     ++ match last_error with Some e => exc_str e | None => py "None" end).

End Downloader.

(** ** Transcript writer (transcribe.py, save_transcript) *)

(** One segment of a transcription result: the keys [start], [end] and
    [text]. *)
Record segment : Type := Segment {
  seg_start : pynum;
  seg_end : pynum;
  seg_text : pystr
}.

(** The transcription result: the keys [text] and [language], and
    [segments], which is read with [result.get('segments', [])] and so
    may be absent. *)
Record transcription : Type := Transcription {
  text : pystr;
  language : pystr;
  segments : option (list segment)
}.

Section Writer.
Context {ext : Type}.

(** The body of [with open(txt_file, 'w', encoding='utf-8') as f]. *)
Definition write_txt_file (result : transcription) (txt_file : Path) : M (ext := ext) unit :=
  open_w txt_file ;;;
  write txt_file (strip (text result)).

(** The loop [for i, segment in enumerate(segments, start=i)]. *)
Fixpoint write_segments (f : Path) (i : Z) (segs : list segment) : M (ext := ext) unit :=
  match segs with
  | [] => ret tt
  | segment :: rest =>
      start_time <- lift (format_timestamp (seg_start segment)) ;;
      end_time <- lift (format_timestamp (seg_end segment)) ;;
      let text := strip (seg_text segment) in
      write f (str_int i ++ nl) ;;;
      write f (start_time ++ py " --> " ++ end_time ++ nl) ;;;
      write f (text ++ nl ++ nl) ;;;
      write_segments f (i + 1) rest
  end.

(** The body of [with open(srt_file, 'w', encoding='utf-8') as f]. *)
Definition write_srt_file (result : transcription) (srt_file : Path) : M (ext := ext) unit :=
  let segs := default [] (segments result) in
  open_w srt_file ;;;
  write_segments srt_file 1 segs.

Definition save_transcript (result : transcription) (output_path : Path)
    (output_format : pystr) : M (ext := ext) Path :=
  if bool_decide (output_format = py "txt") then
    output_file <- lift (with_suffix output_path (py ".txt")) ;;
    write_txt_file result output_file ;;;
    print (py "📄 文本文件已保存: " ++ path_str output_file) ;;;
    ret output_file
  else if bool_decide (output_format = py "srt") then
    output_file <- lift (with_suffix output_path (py ".srt")) ;;
    write_srt_file result output_file ;;;
    print (py "📄 字幕文件已保存: " ++ path_str output_file) ;;;
    ret output_file
  else if bool_decide (output_format = py "both") then
    txt_file <- lift (with_suffix output_path (py ".txt")) ;;
    write_txt_file result txt_file ;;;
    print (py "📄 文本文件已保存: " ++ path_str txt_file) ;;;
    srt_file <- lift (with_suffix output_path (py ".srt")) ;;
    write_srt_file result srt_file ;;;
    print (py "📄 字幕文件已保存: " ++ path_str srt_file) ;;;
    ret srt_file
  else
    raise (Exn ValueError (py "不支持的输出格式: " ++ output_format)).

End Writer.

(** The text of the subtitle entry with sequence number [i]. *)
Definition srt_block (i : Z) (start_time end_time text : pystr) : pystr :=
  (str_int i ++ nl) ++ (start_time ++ py " --> " ++ end_time ++ nl) ++ (text ++ nl ++ nl).

(** The name that [with_suffix] keeps in front of the new suffix. *)
Definition kept_name (p : Path) : pystr :=
  let name := path_name p in
  if bool_decide (name_suffix name = []) then name
  else take (length name - length (name_suffix name)) name.

(** What one segment contributes to the subtitle file. *)
Definition block_of (i : Z) (seg : segment) (b : pystr) : Prop :=
  exists start_time end_time,
    format_timestamp (seg_start seg) = Ok start_time
    /\ format_timestamp (seg_end seg) = Ok end_time
    /\ b = srt_block i start_time end_time (strip (seg_text seg)).

(** Both timestamps of the segment can be rendered (they are finite). *)
Definition timestamps_ok (seg : segment) : Prop :=
  (exists s, format_timestamp (seg_start seg) = Ok s)
  /\ (exists s, format_timestamp (seg_end seg) = Ok s).

(** ** The meaning of the URL patterns

    A declarative reading of the regular expressions, against which the
    matcher is verified. *)

(** [langc r w g g']: the text [w] matches [r] as a whole, and the
    capture goes from [g] before the match to [g'] after it. *)
Fixpoint langc (r : regex) (w : pystr) (g g' : option pystr) : Prop :=
  match r with
  | REps => w = [] /\ g' = g
  | RChar c => w = [c] /\ g' = g
  | RClass cls => (exists c, w = [c] /\ cls c = true) /\ g' = g
  | RSeq r1 r2 =>
      exists w1 w2 g1, w = w1 ++ w2 /\ langc r1 w1 g g1 /\ langc r2 w2 g1 g'
  | ROpt r1 => (w = [] /\ g' = g) \/ langc r1 w g g'
  | RGroup r1 => (exists g1, langc r1 w g g1) /\ g' = Some w
  end.

(** A valid video identifier: eleven characters of [[a-zA-Z0-9_-]]. *)
Definition valid_id (v : pystr) : Prop :=
  length v = 11%nat /\ Forall (fun c => id_char c = true) v.

(** The fixed text of the four accepted URL shapes, in pattern order. *)
Definition cores : list pystr :=
  [ py "youtube.com/watch?v="; py "youtube.com/embed/"; py "youtube.com/v/"; py "youtu.be/" ].

(** The text [core] followed by the valid identifier [v] occurs in
    [url]. *)
Definition occurs (core url v : pystr) : Prop :=
  exists pre post, url = pre ++ core ++ v ++ post /\ valid_id v.

Definition has_shape (core url : pystr) : Prop := exists v, occurs core url v.

(** A pattern of the program: optional items, the fixed text, the
    identifier group. *)
Definition shape_pattern (optionals : list regex) (core : pystr) : regex :=
  fold_right RSeq (RSeq (lit core) re_id) optionals.

(** An item that may match the empty text and captures nothing. *)
Definition optional_item (r : regex) : Prop :=
  (forall g, langc r [] g g) /\ (forall w g g', langc r w g g' -> g' = g).

(** The four patterns as optional items and fixed text. *)
Definition pattern_specs : list (list regex * pystr) :=
  [ ([re_scheme; re_www], py "youtube.com/watch?v=");
    ([re_scheme; re_www], py "youtube.com/embed/");
    ([re_scheme; re_www], py "youtube.com/v/");
    ([re_scheme], py "youtu.be/") ].

(** The texts that may stand in front of the fixed text of a URL that
    starts with an accepted shape. *)
Definition schemes : list pystr := [ []; py "http://"; py "https://" ].

Definition hosts (core : pystr) : list pystr :=
  if bool_decide (core = py "youtu.be/") then [ [] ] else [ []; py "www." ].

(** ** Sample environments

    Concrete libraries and a concrete platform on which the theorems
    below are exercised. *)

Module Sample.

(** A library whose first [fail] downloads raise and whose later
    downloads store the audio at [target]; the outside state counts the
    downloads made so far. *)
Definition flaky_ydl (fail : nat) (target : Path) : YoutubeDL nat := {|
  ydl_extract_info := fun _ _ fs x =>
    (fs, x, Ok (Info (Some (py "My: talk")) (Some (py "dQw4w9WgXcQ"))));
  ydl_download := fun _ _ fs x =>
    if (x <? fail)%nat
    then (fs, S x,
          Raise (Exn DownloadError
                   (py "ERROR: Sign in to confirm you are not a bot #" ++ str_nat (N.of_nat x))))
    else (fs_put fs target (py "ID3"), S x, Ok tt)
|}.

(** A library whose downloads return normally without producing any
    file. *)
Definition silent_ydl : YoutubeDL nat := {|
  ydl_extract_info := fun _ _ fs x =>
    (fs, x, Ok (Info (Some (py "My: talk")) (Some (py "dQw4w9WgXcQ"))));
  ydl_download := fun _ _ fs x => (fs, S x, Ok tt)
|}.

Definition posix : Platform := {|
  expanduser_resolve := fun s => [py "/"; s];
  script_dir := [py "/"; py "app"]
|}.

(** A file system with a scratch directory and a cookies directory that
    holds two text files. *)
Definition disk : file_system :=
  FS [ ([py "/"], Inode true [] 0);
       ([py "/"; py "tmp"], Inode true [] 5);
       ([py "/"; py "app"], Inode true [] 1);
       ([py "/"; py "app"; py "cookies"], Inode true [] 2);
       ([py "/"; py "app"; py "cookies"; py "old.txt"], Inode false (py "# a") 10);
       ([py "/"; py "app"; py "cookies"; py "notes.md"], Inode false (py "# b") 99);
       ([py "/"; py "app"; py "cookies"; py "new.txt"], Inode false (py "# c") 20) ] 100.

Definition start : world nat := World disk [] [] 0%nat.

(** A file system whose cookies directory holds one text file and a
    symbolic link [stale.txt] whose target is gone. *)
Definition stale_disk : file_system :=
  MkFS [ ([py "/"], Inode true [] 0);
         ([py "/"; py "app"], Inode true [] 1);
         ([py "/"; py "app"; py "cookies"], Inode true [] 2);
         ([py "/"; py "app"; py "cookies"; py "old.txt"], Inode false (py "# a") 10) ]
       [ [py "/"; py "app"; py "cookies"; py "stale.txt"] ] 100.

End Sample.

(** ** Further sample environments *)

Module Sample2.

(** A library whose metadata extraction fails. *)
Definition offline_ydl : YoutubeDL nat := {|
  ydl_extract_info := fun _ _ fs x =>
    (fs, S x, Raise (Exn DownloadError (py "ERROR: Unable to download API page")));
  ydl_download := fun _ _ fs x => (fs, S x, Ok tt)
|}.

End Sample2.

(** ** Reading of a failed segment *)

(** Rendering the segment fails with [e]: at its start time, or, the
    start time being rendered, at its end time. *)
Definition seg_fails (seg : segment) (e : exn) : Prop :=
  format_timestamp (seg_start seg) = Raise e
  \/ (exists s, format_timestamp (seg_start seg) = Ok s)
     /\ format_timestamp (seg_end seg) = Raise e.

(** ** Reading of trimmed text *)

(** A non-empty text without leading or trailing whitespace. *)
Definition trimmed (s : pystr) : Prop := s <> [] /\ strip s = s.

(** ** Runtime and component resolver (transcribe.py, parse_js_runtimes,
       detect_js_runtime, parse_remote_components) *)

(** [s.split(sep)] for a one-character separator: the text between the
    separators, one part more than there are separators. *)
Fixpoint split (sep : char) (s : pystr) : list pystr :=
  match s with
  | [] => [[]]
  | c :: s' =>
      if (c =? sep)%N then [] :: split sep s'
      else match split sep s' with
           | p :: ps => (c :: p) :: ps
           | [] => [[c]]
           end
  end.

(** [[p.strip() for p in spec.split(",") if p.strip()]] *)
Definition stripped_parts (spec : pystr) : list pystr :=
  filter (fun p => p <> []) (map strip (split 44%N spec)).

(** A dictionary with its insertion order: assigning to a key that is
    present replaces its value in place, a new key goes to the end. *)
Definition odict : Type := list (pystr * pyval).

Fixpoint odict_set (k : pystr) (v : pyval) (d : odict) : odict :=
  match d with
  | [] => [(k, v)]
  | (k', v') :: d' =>
      if bool_decide (k' = k) then (k, v) :: d' else (k', v') :: odict_set k v d'
  end.

(** The dictionary as a value handed on to the library. *)
Definition odict_val (d : odict) : pyval := VDict (list_to_map d).

(** One iteration of the loop [for part in parts]. *)
Definition add_runtime (runtimes : odict) (part : pystr) : odict :=
  if contains_char 58%N part then
    let '(name, path) := split1 58%N part in
    let name := strip name in
    let path := strip path in
    if negb (bool_decide (name = [])) then
      odict_set name
        (if negb (bool_decide (path = []))
         then VDict {[ py "path" := VStr path ]} else VDict ∅)
        runtimes
    else runtimes
  else odict_set part (VDict ∅) runtimes.

Definition parse_js_runtimes (spec : option pystr) : option odict :=
  if negb (opt_truthy spec) then None
  else
    let parts := stripped_parts (default [] spec) in
    if bool_decide (parts = []) then None
    else
      let runtimes := fold_left add_runtime parts [] in
      if bool_decide (runtimes = []) then None else Some runtimes.

(** The result is a set of strings. *)
Definition parse_remote_components (spec : option pystr) : option (gset pystr) :=
  if negb (opt_truthy spec) then None
  else
    let parts := stripped_parts (default [] spec) in
    if bool_decide (parts = []) then None else Some (list_to_set parts).

(** What the process can ask of its host beyond the file system: the
    executable search ([shutil.which]), module lookup
    ([importlib.util.find_spec(name) is not None]) and the version of the
    extraction library when it can be imported. *)
Class Host : Type := {
  shutil_which : pystr -> option pystr;
  find_spec : pystr -> bool;
  ydl_version : option pystr
}.

(** The dictionary [runtime_bins], in its order. *)
Definition runtime_bins : list (pystr * list pystr) :=
  [ (py "deno", [py "deno"]);
    (py "bun", [py "bun"]);
    (py "node", [py "node"]);
    (py "quickjs", [py "qjs"; py "quickjs"]) ].

(** The inner loop [for bin_name in bins], returning at the first
    executable found. *)
Fixpoint first_bin `{Host} (name : pystr) (bins : list pystr) : option odict :=
  match bins with
  | [] => None
  | bin_name :: bins' =>
      if opt_truthy (shutil_which bin_name)
      then Some [(name, VDict {[ py "path" := VStr (default [] (shutil_which bin_name)) ]})]
      else first_bin name bins'
  end.

(** The outer loop [for name, bins in runtime_bins.items()]. *)
Fixpoint detect_in `{Host} (table : list (pystr * list pystr)) : option odict :=
  match table with
  | [] => None
  | (name, bins) :: table' =>
      match first_bin name bins with
      | Some found => Some found
      | None => detect_in table'
      end
  end.

Definition detect_js_runtime `{Host} : option odict := detect_in runtime_bins.

(** The flat order in which [detect_js_runtime] asks for executables:
    runtime name and executable name. *)
Definition runtime_probes : list (pystr * pystr) :=
  [ (py "deno", py "deno"); (py "bun", py "bun"); (py "node", py "node");
    (py "quickjs", py "qjs"); (py "quickjs", py "quickjs") ].

(** A well-formed entry of the runtime dictionary: a trimmed name free
    of commas and colons, with an empty dictionary or a trimmed,
    comma-free path. *)
Definition runtime_entry (kv : pystr * pyval) : Prop :=
  trimmed (fst kv) /\ (44%N ∉ fst kv) /\ (58%N ∉ fst kv)
  /\ (snd kv = VDict ∅
      \/ exists path, trimmed path /\ (44%N ∉ path)
                      /\ snd kv = VDict {[ py "path" := VStr path ]}).

(** ** Durations (transcribe.py, format_duration) *)

(** [x < z] for a float and an int: Python compares the exact values;
    NaN is less than nothing. *)
Definition float_lt_int (x : float) (z : Z) : bool :=
  match x with
  | S754_nan => false
  | S754_infinity s => s
  | S754_zero _ => 0 <? z
  | S754_finite s m e =>
      let v := if s then Zneg m else Zpos m in
      if 0 <=? e then v * 2 ^ e <? z else v <? z * 2 ^ (- e)
  end.

(** [z < x] for an int and a float. *)
Definition int_lt_float (z : Z) (x : float) : bool :=
  match x with
  | S754_nan => false
  | S754_infinity s => negb s
  | S754_zero _ => z <? 0
  | S754_finite s m e =>
      let v := if s then Zneg m else Zpos m in
      if 0 <=? e then z <? v * 2 ^ e else z * 2 ^ (- e) <? v
  end.

(** [a < b] *)
Definition py_lt (a b : pynum) : bool :=
  match a, b with
  | PyInt x, PyInt y => x <? y
  | PyFloat x, PyFloat y => fltb x y
  | PyFloat x, PyInt z => float_lt_int x z
  | PyInt z, PyFloat x => int_lt_float z x
  end.

(** The integer nearest to [n / d] for [d > 0], ties going to the even
    one. *)
Definition round_half_even (n d : Z) : Z :=
  let q := n / d in
  let r := n mod d in
  if d <? 2 * r then q + 1
  else if (2 * r =? d) && Z.odd q then q + 1
  else q.

(** The integer nearest to [m * 2^e * 10^p]. *)
Definition scaled (p : nat) (m : positive) (e : Z) : Z :=
  let n := Zpos m * 10 ^ Z.of_nat p in
  if 0 <=? e then n * 2 ^ e else round_half_even n (2 ^ (- e)).

(** The digits of [q / 10^p] with [p] decimals. *)
Definition fixed_digits (p : nat) (q : Z) : pystr :=
  str_nat (Z.to_N (q / 10 ^ Z.of_nat p))
  ++ match p with
     | O => []
     | S _ => py "." ++ format_0d p (q mod 10 ^ Z.of_nat p)
     end.

(** The format specification [.<p>f] on a float: the correctly rounded
    decimal expansion with [p] decimals; the sign is that of the float,
    also when the digits are all zero. *)
Definition format_f (p : nat) (x : float) : pystr :=
  match x with
  | S754_nan => py "nan"
  | S754_infinity s => (if s then py "-" else []) ++ py "inf"
  | S754_zero s => (if s then py "-" else []) ++ fixed_digits p 0
  | S754_finite s m e => (if s then py "-" else []) ++ fixed_digits p (scaled p m e)
  end.

(** [f"{a:.<p>f}"]: an int is converted to a float first. *)
Definition py_format_f (p : nat) (a : pynum) : result pystr :=
  rbind (as_float a) (fun x => Ok (format_f p x)).

Definition format_duration (seconds : pynum) : result pystr :=
  if py_lt seconds (PyInt 60) then
    rbind (py_format_f 1 seconds) (fun s => Ok (s ++ py "秒"))
  else if py_lt seconds (PyInt 3600) then
    rbind (rbind (py_floordiv seconds (PyInt 60)) py_int) (fun mins =>
    rbind (rbind (py_mod seconds (PyInt 60)) py_int) (fun secs =>
    Ok (str_int mins ++ py "分" ++ str_int secs ++ py "秒")))
  else
    rbind (rbind (py_floordiv seconds (PyInt 3600)) py_int) (fun hours =>
    rbind (rbind (rbind (py_mod seconds (PyInt 3600))
                        (fun r => py_floordiv r (PyInt 60))) py_int) (fun mins =>
    Ok (str_int hours ++ py "小时" ++ str_int mins ++ py "分"))).

(** ** Preflight reporter (transcribe.py, preflight_check) *)

(** [a < b] on strings: by code points, a proper prefix first. *)
Fixpoint str_ltb (a b : pystr) : bool :=
  match a, b with
  | _, [] => false
  | [], _ :: _ => true
  | x :: a', y :: b' => (x <? y)%N || ((x =? y)%N && str_ltb a' b')
  end.

Fixpoint insert_str (x : pystr) (l : list pystr) : list pystr :=
  match l with
  | [] => [x]
  | y :: l' => if str_ltb x y then x :: l else y :: insert_str x l'
  end.

(** [sorted(l)] for strings. *)
Definition sorted (l : list pystr) : list pystr := foldr insert_str [] l.

(** Truth value of an optional dictionary ([dict | None]). *)
Definition dict_truthy (d : option odict) : bool :=
  match d with
  | Some (_ :: _) => true
  | _ => false
  end.

(** Truth value of an optional set ([set | None]). *)
Definition set_truthy (s : option (gset pystr)) : bool :=
  match s with
  | Some s => negb (bool_decide (s = ∅))
  | None => false
  end.

(** The double quote. *)
Definition dquote : pystr := [34%N].

Section Preflight.
Context {ext : Type} `{Host} `{Platform}.

Definition preflight_check (cookies_path cookies_from_browser : option pystr)
    (js_runtimes : option odict) (remote_components : option (gset pystr))
    : M (ext := ext) unit :=
  print (py "🔍 环境自检...") ;;;
  match ydl_version with
  | Some version => print (py "   yt-dlp: " ++ version)
  | None => print (py "   yt-dlp: unknown")
  end ;;;
  (if dict_truthy js_runtimes then
     print (py "   JS runtime: " ++ join (py ", ") (map fst (default [] js_runtimes)))
   else
     print (py "   JS runtime: 未检测到") ;;;
     print (py "     建议安装 Deno/Node/Bun，或传 --js-runtimes")) ;;;
  let comps := elements (default ∅ remote_components) in
  let ejs_remote :=
    if set_truthy remote_components then existsb (startswith (py "ejs")) comps
    else false in
  let ejs_local :=
    if find_spec (py "yt_dlp_ejs") then true
    else if find_spec (py "ytdlp_ejs") then true
    else false in
  (if ejs_local then print (py "   EJS: 已安装 (yt-dlp-ejs)")
   else if ejs_remote then
     print (py "   EJS: 将通过远程组件获取 (" ++ join (py ", ") (sorted comps) ++ py ")")
   else
     print (py "   EJS: 未检测到") ;;;
     print (py "     解决: pip install " ++ dquote ++ py "yt-dlp[default]" ++ dquote
            ++ py " 或加 --remote-components ejs:github / ejs:npm")) ;;;
  if opt_truthy cookies_path then
    let cookiefile := expanduser_resolve (default [] cookies_path) in
    ex <- path_exists cookiefile ;;
    let exists_text := if ex then py "存在" else py "不存在" in
    print (py "   Cookies: 文件 " ++ path_str cookiefile ++ py "（" ++ exists_text ++ py "）")
  else if opt_truthy cookies_from_browser then
    print (py "   Cookies: 浏览器 " ++ default [] cookies_from_browser)
  else
    let default_dir := path_div script_dir (py "cookies") in
    fs <- get_fs ;;
    auto_cookie <- lift (find_cookie_file fs default_dir) ;;
    match auto_cookie with
    | Some p => print (py "   Cookies: 自动发现 " ++ path_str p)
    | None => print (py "   Cookies: 未配置（可放在 ./cookies 下）")
    end.

(** The last line of the report, on the cookie source, when the search
    of the default directory, if it is made, returns. *)
Definition cookies_line (cookies_path cookies_from_browser : option pystr)
    (fs : file_system) : pystr :=
  if opt_truthy cookies_path then
    let cookiefile := expanduser_resolve (default [] cookies_path) in
    py "   Cookies: 文件 " ++ path_str cookiefile ++ py "（"
    ++ (if fs_exists fs cookiefile then py "存在" else py "不存在") ++ py "）"
  else if opt_truthy cookies_from_browser then
    py "   Cookies: 浏览器 " ++ default [] cookies_from_browser
  else
    match find_cookie_file fs (path_div script_dir (py "cookies")) with
    | Ok (Some p) => py "   Cookies: 自动发现 " ++ path_str p
    | _ => py "   Cookies: 未配置（可放在 ./cookies 下）"
    end.

End Preflight.

Module Sample3.

(** A host with node and quickjs installed and no solver module. *)
Definition node_host : Host := {|
  shutil_which := fun bin =>
    if bool_decide (bin = py "node") then Some (py "/usr/bin/node")
    else if bool_decide (bin = py "quickjs") then Some (py "/usr/bin/quickjs")
    else None;
  find_spec := fun _ => false;
  ydl_version := Some (py "2025.01.15")
|}.

End Sample3.

(** ** Reading of a step that only prints *)

(** From [w] the step returns normally, having printed [lines] and
    changed nothing else. *)
Definition prints {ext : Type} (m : M (ext := ext) unit) (w : world ext)
    (lines : list pystr) : Prop :=
  m w = (World (w_fs w) (w_stdout w ++ lines) (w_calls w) (w_ext w), Ok tt).

(** ** Transcriber (transcribe.py, get_audio_duration and
       transcribe_audio) *)

(** The engine and the tools around it: [whisper.load_model],
    [model.transcribe], the media prober started by [subprocess.run]
    (its standard output), the clock [time.time()] and the conversion
    [float(s)].  Each call may change the file system and the outside
    state and may raise. *)
Class Engine (ext : Type) : Type := {
  model : Type;
  eng_load_model : pystr -> file_system -> ext -> file_system * ext * result model;
  eng_transcribe :
    model -> pystr -> dict -> file_system -> ext -> file_system * ext * result transcription;
  eng_run : list pystr -> file_system -> ext -> file_system * ext * result pystr;
  eng_time : ext -> ext * float;
  py_float : pystr -> result float
}.

(** [x / y] on floats. *)
Definition py_truediv (x y : float) : result float :=
  if nonzero y then Ok (fdiv x y)
  else Raise (Exn ZeroDivisionError (py "float division by zero")).

(** The command line of the prober. *)
Definition ffprobe_argv (audio_path : Path) : list pystr :=
  [ py "ffprobe"; py "-v"; py "error"; py "-show_entries"; py "format=duration";
    py "-of"; py "default=noprint_wrappers=1:nokey=1"; path_str audio_path ].

(** [result.get('language', 'unknown')]: the result carries the key. *)
Definition result_language (result : transcription) : pystr := language result.

Section Transcriber.
Context {ext : Type} `{Engine ext}.

(** [whisper.load_model(name)] *)
Definition load_model (name : pystr) : M (ext := ext) model :=
  fun w =>
    let '(fs', x', r) := eng_load_model name (w_fs w) (w_ext w) in
    (World fs' (w_stdout w) (w_calls w) x', r).

(** [model.transcribe(audio, **options)] *)
Definition model_transcribe (m : model) (audio : pystr) (options : dict)
    : M (ext := ext) transcription :=
  fun w =>
    let '(fs', x', r) := eng_transcribe m audio options (w_fs w) (w_ext w) in
    (World fs' (w_stdout w) (w_calls w) x', r).

(** [subprocess.run(argv, capture_output=True, text=True).stdout] *)
Definition subprocess_run (argv : list pystr) : M (ext := ext) pystr :=
  fun w =>
    let '(fs', x', r) := eng_run argv (w_fs w) (w_ext w) in
    (World fs' (w_stdout w) (w_calls w) x', r).

(** [time.time()] *)
Definition time_time : M (ext := ext) float :=
  fun w =>
    let '(x', t) := eng_time (w_ext w) in
    (World (w_fs w) (w_stdout w) (w_calls w) x', Ok t).

Definition get_audio_duration (audio_path : Path) : M (ext := ext) float :=
  try_except
    (out <- subprocess_run (ffprobe_argv audio_path) ;;
     lift (py_float (strip out)))
    (fun _ => ret (S754_zero false)).

(** The dictionary [transcribe_options]. *)
Definition transcribe_options (language : option pystr) : dict :=
  let options : dict := <[py "verbose" := VBool true]> (<[py "fp16" := VBool true]> ∅) in
  if opt_truthy language
  then <[py "language" := VStr (default [] language)]> options
  else options.

Definition transcribe_audio (audio_path : Path) (model_name : pystr)
    (language : option pystr) : M (ext := ext) transcription :=
  print (py "🔄 正在加载 Whisper 模型 (" ++ model_name ++ py ")...") ;;;
  model <- load_model model_name ;;
  audio_duration <- get_audio_duration audio_path ;;
  (if int_lt_float 0 audio_duration then
     shown <- lift (format_duration (PyFloat audio_duration)) ;;
     print (py "🎵 音频时长: " ++ shown)
   else ret tt) ;;;
  print (py "🎙️ 正在转录音频...") ;;;
  start_time <- time_time ;;
  result <- model_transcribe model (path_str audio_path) (transcribe_options language) ;;
  now <- time_time ;;
  let elapsed_time := fsub now start_time in
  let detected_lang := result_language result in
  print (nl ++ py "✅ 转录完成！检测到语言: " ++ detected_lang) ;;;
  shown <- lift (format_duration (PyFloat elapsed_time)) ;;
  print (py "⏱️  处理耗时: " ++ shown) ;;;
  (if int_lt_float 0 audio_duration then
     speed_ratio <- lift (py_truediv audio_duration elapsed_time) ;;
     print (py "🚀 处理速度: " ++ format_f 2 speed_ratio ++ py "x 实时速度")
   else ret tt) ;;;
  ret result.

End Transcriber.

(** ** Command-line driver (transcribe.py, main) *)

(** The parsed command line, as [parser.parse_args()] returns it. *)
Record Args : Type := {
  args_url : pystr;
  args_model : pystr;
  args_output : pystr;
  args_language : option pystr;
  args_output_dir : pystr;
  args_keep_audio : bool;
  args_cookies : option pystr;
  args_cookies_from_browser : option pystr;
  args_js_runtimes : option pystr;
  args_remote_components : option pystr
}.

(** What the driver asks of the operating system: [Path(s).resolve()],
    [p.mkdir(parents=True, exist_ok=True)], [Path(tempfile.mkdtemp())],
    [shutil.move(src, dst)] and [shutil.rmtree(p, ignore_errors=True)].
    The last one does not raise: a removal that fails is passed over
    and leaves what it could not remove. *)
Class OS (ext : Type) : Type := {
  os_resolve : pystr -> Path;
  os_mkdir : Path -> file_system -> ext -> file_system * ext * result unit;
  os_mkdtemp : file_system -> ext -> file_system * ext * result Path;
  os_move : pystr -> pystr -> file_system -> ext -> file_system * ext * result unit;
  os_rmtree : Path -> file_system -> ext -> file_system * ext
}.

(** [p / name] for a name without separators: an empty name and the
    name [.] leave the path as it is. *)
Definition path_join (p : Path) (name : pystr) : Path :=
  if bool_decide (name = []) || bool_decide (name = py ".") then p
  else path_div p name.

(** The dictionary and the set as the downloader receives them. *)
Definition runtimes_val (js_runtimes : option odict) : pyval :=
  match js_runtimes with
  | Some d => odict_val d
  | None => VNone
  end.

Definition components_val (remote_components : option (gset pystr)) : pyval :=
  match remote_components with
  | Some s => VSet (VStr <$> elements s)
  | None => VNone
  end.

Section Control.
Context {ext : Type}.

(** [sys.exit(code)] *)
Definition sys_exit {A : Type} (code : Z) : M (ext := ext) A :=
  raise (Exn SystemExit (str_int code)).

(** [try: body  except KeyboardInterrupt: on_interrupt
    except Exception as e: on_exception(e)] *)
Definition try_except2 {A : Type} (body : M (ext := ext) A) (on_interrupt : M A)
    (on_exception : exn -> M A) : M A :=
  fun w =>
    match body w with
    | (w', Ok a) => (w', Ok a)
    | (w', Raise e) =>
        match exc_type e with
        | KeyboardInterrupt => on_interrupt w'
        | _ => if is_Exception e then on_exception e w' else (w', Raise e)
        end
    end.

(** [try: body  finally: final]: [final] runs on every way out of
    [body]; what [body] returned or raised stands unless [final] itself
    raises. *)
Definition try_finally {A : Type} (body : M (ext := ext) A) (final : M unit) : M A :=
  fun w =>
    match body w with
    | (w', r) =>
        match final w' with
        | (w'', Ok _) => (w'', r)
        | (w'', Raise e) => (w'', Raise e)
        end
    end.

End Control.

Section Driver.
Context {ext : Type} `{YoutubeDL ext} `{Platform} `{Host} `{Engine ext} `{OS ext}.

(** [p.mkdir(parents=True, exist_ok=True)] *)
Definition mkdir (p : Path) : M (ext := ext) unit :=
  fun w =>
    let '(fs', x', r) := os_mkdir p (w_fs w) (w_ext w) in
    (World fs' (w_stdout w) (w_calls w) x', r).

(** [Path(tempfile.mkdtemp())] *)
Definition mkdtemp : M (ext := ext) Path :=
  fun w =>
    let '(fs', x', r) := os_mkdtemp (w_fs w) (w_ext w) in
    (World fs' (w_stdout w) (w_calls w) x', r).

(** [shutil.move(src, dst)] *)
Definition shutil_move (src dst : pystr) : M (ext := ext) unit :=
  fun w =>
    let '(fs', x', r) := os_move src dst (w_fs w) (w_ext w) in
    (World fs' (w_stdout w) (w_calls w) x', r).

(** [shutil.rmtree(p, ignore_errors=True)] *)
Definition rmtree (p : Path) : M (ext := ext) unit :=
  fun w =>
    let '(fs', x') := os_rmtree p (w_fs w) (w_ext w) in
    (World fs' (w_stdout w) (w_calls w) x', Ok tt).

(** Lines 541-583: the body of the [try] statement. *)
Definition main_body (args : Args) (output_dir temp_dir : Path) : M (ext := ext) unit :=
  let js_runtimes := parse_js_runtimes (args_js_runtimes args) in
  let js_runtimes :=
    match js_runtimes with
    | None => detect_js_runtime
    | Some _ => js_runtimes
    end in
  let remote_components := parse_remote_components (args_remote_components args) in
  preflight_check (args_cookies args) (args_cookies_from_browser args)
    js_runtimes remote_components ;;;
  downloaded <-
    download_audio (args_url args) temp_dir (args_cookies args)
      (args_cookies_from_browser args)
      (runtimes_val js_runtimes) (components_val remote_components) ;;
  let '(audio_path, video_title) := downloaded in
  result <- transcribe_audio audio_path (args_model args) (args_language args) ;;
  let safe_title := sanitize_filename video_title in
  let output_path := path_join output_dir safe_title in
  save_transcript result output_path (args_output args) ;;;
  (if args_keep_audio args then
     let dest_audio := path_join output_dir (path_name audio_path) in
     shutil_move (path_str audio_path) (path_str dest_audio) ;;;
     print (py "🎵 音频文件已保存: " ++ path_str dest_audio)
   else ret tt) ;;;
  print (nl ++ py "✨ 处理完成！").

(** Lines 591-596: the [finally] clause. *)
Definition cleanup (temp_dir : Path) : M (ext := ext) unit :=
  ex <- path_exists temp_dir ;;
  if ex then
    rmtree temp_dir ;;;
    print (py "🧹 临时文件已清理")
  else ret tt.

(** [main], from the parsed arguments on. *)
Definition main (args : Args) : M (ext := ext) unit :=
  let video_id := parse_youtube_url (args_url args) in
  if negb (opt_truthy video_id) then
    print (py "❌ 无效的 YouTube URL") ;;;
    sys_exit 1
  else
    print (py "🎬 Video ID: " ++ default [] video_id) ;;;
    let output_dir := os_resolve (args_output_dir args) in
    mkdir output_dir ;;;
    temp_dir <- mkdtemp ;;
    try_finally
      (try_except2 (main_body args output_dir temp_dir)
         (print (nl ++ py "⚠️ 用户中断") ;;; sys_exit 1)
         (fun e => print (nl ++ py "❌ 错误: " ++ exc_str e) ;;; sys_exit 1))
      (cleanup temp_dir).

End Driver.

Module Sample4.

(** An engine that reports a duration of 12.5 seconds and whose clock
    stands still. *)
Definition still_engine : Engine nat := {|
  model := unit;
  eng_load_model := fun _ fs x => (fs, x, Ok tt);
  eng_transcribe := fun _ _ _ fs x =>
    (fs, x, Ok (Transcription (py " hello ") (py "en") None));
  eng_run := fun _ fs x => (fs, x, Ok (py "12.5" ++ nl));
  eng_time := fun x => (x, float_of_Z 1700000000);
  py_float := fun s =>
    if bool_decide (s = py "12.5") then Ok (float_lit 125 1)
    else Raise (Exn ValueError (py "could not convert string to float"))
|}.

(** An engine on a host without the prober; its clock advances by 90
    seconds with every change of the outside state. *)
Definition bare_engine : Engine nat := {|
  model := unit;
  eng_load_model := fun _ fs x => (fs, x, Ok tt);
  eng_transcribe := fun _ _ _ fs x =>
    (fs, S x, Ok (Transcription (py " hello ") (py "en") None));
  eng_run := fun _ fs x =>
    (fs, x, Raise (Exn FileNotFoundError
                     (py "[Errno 2] No such file or directory: 'ffprobe'")));
  eng_time := fun x => (x, float_of_Z (1700000000 + 90 * Z.of_nat x));
  py_float := fun s => Raise (Exn ValueError (py "could not convert string to float"))
|}.

Definition scratch : Path := [py "/"; py "tmp"; py "tmpk3x9"].

(** A removal that succeeds: [p] goes with everything below it. *)
Definition remove_tree (fs : file_system) (p : Path) : file_system :=
  MkFS (filter (fun e => take (length p) (fst e) <> p) (fs_entries fs))
    (filter (fun q => take (length p) q <> p) (fs_links fs)) (fs_clock fs).

(** An operating system that creates the directories asked for and
    removes the trees asked for. *)
Definition os : OS nat := {|
  os_resolve := fun s => [py "/"; s];
  os_mkdir := fun p fs x =>
    (MkFS (replace_entry p (Inode true [] (fs_clock fs)) (fs_entries fs))
       (fs_links fs) (fs_clock fs),
     x, Ok tt);
  os_mkdtemp := fun fs x =>
    (MkFS (replace_entry scratch (Inode true [] (fs_clock fs)) (fs_entries fs))
       (fs_links fs) (fs_clock fs),
     x, Ok scratch);
  os_move := fun _ _ fs x => (fs, x, Ok tt);
  os_rmtree := fun p fs x => (remove_tree fs p, x)
|}.

(** The same operating system, except that its removals fail and
    leave everything in place. *)
Definition sticky_os : OS nat := {|
  os_resolve := os_resolve (OS := os);
  os_mkdir := os_mkdir (OS := os);
  os_mkdtemp := os_mkdtemp (OS := os);
  os_move := os_move (OS := os);
  os_rmtree := fun _ fs x => (fs, x)
|}.

(** An operating system on which no directory can be created. *)
Definition sealed_os : OS nat := {|
  os_resolve := fun s => [py "/"; s];
  os_mkdir := fun p fs x =>
    (fs, x, Raise (Exn NotADirectoryError
                     (py "[Errno 20] Not a directory: '" ++ path_str p ++ py "'")));
  os_mkdtemp := fun fs x =>
    (fs, x, Raise (Exn FileNotFoundError
                     (py "[Errno 2] No usable temporary directory found")));
  os_move := fun _ _ fs x => (fs, x, Ok tt);
  os_rmtree := fun _ fs x => (fs, x)
|}.

Definition args (url : pystr) (cookies : option pystr) : Args := {|
  args_url := url;
  args_model := py "tiny";
  args_output := py "txt";
  args_language := None;
  args_output_dir := py "out";
  args_keep_audio := false;
  args_cookies := cookies;
  args_cookies_from_browser := None;
  args_js_runtimes := None;
  args_remote_components := None
|}.

End Sample4.

(** ** Search path set-up (transcribe.py, setup_ffmpeg_path) *)

(** What the set-up takes from the platform: the path [Path(s)] of a
    string and the separator [os.pathsep]. *)
Class Shell : Type := {
  path_of_str : pystr -> Path;
  pathsep : pystr
}.

(** [needle in s] on strings. *)
Fixpoint contains (needle s : pystr) : bool :=
  startswith needle s
  || match s with
     | [] => false
     | _ :: s' => contains needle s'
     end.

(** [os.environ] *)
Abbreviation environ := (gmap pystr pystr).

(** The directory [winget_ffmpeg]. *)
Definition winget_links `{Shell} (env : environ) : Path :=
  path_div (path_div (path_div (path_of_str (default [] (env !! py "LOCALAPPDATA")))
                        (py "Microsoft")) (py "WinGet")) (py "Links").

(** The new environment and the value returned. *)
Definition setup_ffmpeg_path `{Shell} (env : environ) (fs : file_system) : environ * bool :=
  let winget_ffmpeg := winget_links env in
  if fs_exists fs winget_ffmpeg && fs_exists fs (path_div winget_ffmpeg (py "ffmpeg.exe"))
  then
    let current_path := default [] (env !! py "PATH") in
    if negb (contains (path_str winget_ffmpeg) current_path) then
      (<[py "PATH" := path_str winget_ffmpeg ++ pathsep ++ current_path]> env, true)
    else (env, false)
  else (env, false).

Module Sample5.

Definition windows : Shell := {|
  path_of_str := fun s => [s];
  pathsep := py ";"
|}.

Definition winget_disk : file_system :=
  FS [ ([py "C:/Users/me/AppData/Local"; py "Microsoft"; py "WinGet"; py "Links"],
        Inode true [] 0);
       ([py "C:/Users/me/AppData/Local"; py "Microsoft"; py "WinGet"; py "Links";
         py "ffmpeg.exe"], Inode false (py "MZ") 0) ] 1.

Definition env : environ :=
  <[py "LOCALAPPDATA" := py "C:/Users/me/AppData/Local"]>
  (<[py "PATH" := py "C:/Windows"]> ∅).

End Sample5.

(** * Verified properties *)
Example py_ascii : py "a.txt" = [97; 46; 116; 120; 116]%N.
Proof. reflexivity. Qed.

Example py_cjk : py "秒" = [31186]%N.
Proof. reflexivity. Qed.

Example strip_ex : strip (py "  hello world
 ") = py "hello world".
Proof. reflexivity. Qed.

Example str_int_ex : str_int 1203 = py "1203" /\ str_int 0 = py "0" /\ str_int (-45) = py "-45".
Proof. repeat split; reflexivity. Qed.

Example format_0d_ex :
  format_0d 2 5 = py "05" /\ format_0d 2 123 = py "123" /\
  format_0d 2 (-1) = py "-1" /\ format_0d 3 (-1) = py "-01" /\ format_0d 3 0 = py "000".
Proof. repeat split; reflexivity. Qed.

Example sanitize_ex :
  sanitize_filename (py "a/b: c?*") = py "a_b_ c__".
Proof. reflexivity. Qed.

Example parse_url_ex :
  parse_youtube_url (py "https://www.youtube.com/watch?v=dQw4w9WgXcQ&t=3") = Some (py "dQw4w9WgXcQ")
  /\ parse_youtube_url (py "http://youtu.be/dQw4w9WgXcQ") = Some (py "dQw4w9WgXcQ")
  /\ parse_youtube_url (py "youtube.com/embed/abc_DEF-123") = Some (py "abc_DEF-123")
  /\ parse_youtube_url (py "www.youtube.com/v/abc_DEF-123") = Some (py "abc_DEF-123")
  /\ parse_youtube_url (py "https://vimeo.com/12345678901") = None
  /\ parse_youtube_url (py "https://youtu.be/tooshort") = None.
Proof. repeat split; reflexivity. Qed.

Example format_timestamp_ex :
  format_timestamp (PyFloat (float_lit 36615 1)) = Ok (py "01:01:01,500")
  /\ format_timestamp (PyFloat (float_lit 12345 3)) = Ok (py "00:00:12,345")
  /\ format_timestamp (PyFloat (float_lit 1001 3)) = Ok (py "00:00:01,000")
  /\ format_timestamp (PyInt 0) = Ok (py "00:00:00,000").
Proof. repeat split; vm_compute; reflexivity. Qed.

(** ** URL parser *)

Section Matcher.
Context {A : Type}.

(** The matcher is complete: it fails only when no split of the text
    into a match of [r] and a rest accepted by the continuation exists. *)
Lemma bt_None (r : regex) :
  forall (s : pystr) (g : option pystr) (k : pystr -> option pystr -> option A),
    bt r s g k = None
    <-> forall w s' g', s = w ++ s' -> langc r w g g' -> k s' g' = None.
Proof.
  induction r as [|c|cls|r1 IH1 r2 IH2|r1 IH1|r1 IH1]; intros s g k; simpl.
  - split.
    + intros Hk w s' g' -> [-> ->]. exact Hk.
    + intros Hall. apply (Hall [] s g); [reflexivity|split; reflexivity].
  - split.
    + intros Hk w s' g' -> [-> ->]. simpl in Hk.
      rewrite N.eqb_refl in Hk. exact Hk.
    + intros Hall. destruct s as [|c' s1]; [reflexivity|].
      destruct (N.eqb_spec c c') as [<-|Hne]; [|reflexivity].
      apply (Hall [c] s1 g); [reflexivity|split; reflexivity].
  - split.
    + intros Hk w s' g' -> [(c & -> & Hc) ->]. simpl in Hk.
      rewrite Hc in Hk. exact Hk.
    + intros Hall. destruct s as [|c' s1]; [reflexivity|].
      destruct (cls c') eqn:Hc; [|reflexivity].
      apply (Hall [c'] s1 g); [reflexivity|]. split; [eauto|reflexivity].
  - rewrite IH1. split.
    + intros Hall w s' g' -> (w1 & w2 & g1 & -> & H1 & H2).
      specialize (Hall w1 (w2 ++ s') g1). rewrite <- app_assoc in Hall.
      specialize (Hall eq_refl H1). rewrite IH2 in Hall.
      apply (Hall w2 s' g'); [reflexivity|exact H2].
    + intros Hall w1 s1 g1 -> H1. rewrite IH2. intros w2 s2 g2 -> H2.
      apply (Hall (w1 ++ w2) s2 g2); [apply app_assoc|].
      exists w1, w2, g1. repeat split; assumption.
  - split.
    + intros Hk w s' g' -> Hc.
      destruct (bt r1 (w ++ s') g k) eqn:E; [discriminate|].
      destruct Hc as [[-> ->]|Hr]; [exact Hk|].
      rewrite IH1 in E. apply (E w s' g'); [reflexivity|exact Hr].
    + intros Hall.
      assert (E : bt r1 s g k = None).
      { rewrite IH1. intros w s' g' -> Hr. apply (Hall w s' g'); [reflexivity|].
        right. exact Hr. }
      rewrite E. apply (Hall [] s g); [reflexivity|]. left. split; reflexivity.
  - rewrite IH1. split.
    + intros Hall w s' g' -> [[g1 Hr] ->].
      specialize (Hall w s' g1 eq_refl Hr). simpl in Hall.
      rewrite length_app in Hall.
      replace (length w + length s' - length s')%nat with (length w) in Hall by lia.
      rewrite take_app_length in Hall. exact Hall.
    + intros Hall w s' g1 -> Hr.
      rewrite length_app.
      replace (length w + length s' - length s')%nat with (length w) by lia.
      rewrite take_app_length.
      apply (Hall w s' (Some w)); [reflexivity|]. split; [eauto|reflexivity].
Qed.

(** The matcher is sound: a result comes from a split of the text into
    a match of [r] and a rest on which the continuation gave it. *)
Lemma bt_Some (r : regex) :
  forall (s : pystr) (g : option pystr) (k : pystr -> option pystr -> option A) (x : A),
    bt r s g k = Some x ->
    exists w s' g', s = w ++ s' /\ langc r w g g' /\ k s' g' = Some x.
Proof.
  induction r as [|c|cls|r1 IH1 r2 IH2|r1 IH1|r1 IH1]; intros s g k x; simpl.
  - intros Hk. exists [], s, g. repeat split. exact Hk.
  - destruct s as [|c' s1]; [discriminate|].
    destruct (N.eqb_spec c c') as [<-|Hne]; [|discriminate].
    intros Hk. exists [c], s1, g. repeat split. exact Hk.
  - destruct s as [|c' s1]; [discriminate|].
    destruct (cls c') eqn:Hc; [|discriminate].
    intros Hk. exists [c'], s1, g. split; [reflexivity|].
    split; [|exact Hk]. split; [eauto|reflexivity].
  - intros Hk. apply IH1 in Hk. destruct Hk as (w1 & s1 & g1 & -> & H1 & Hk).
    apply IH2 in Hk. destruct Hk as (w2 & s2 & g2 & -> & H2 & Hk).
    exists (w1 ++ w2), s2, g2. split; [apply app_assoc|]. split; [|exact Hk].
    exists w1, w2, g1. repeat split; assumption.
  - destruct (bt r1 s g k) eqn:E.
    + intros Hk. injection Hk as ->. apply IH1 in E.
      destruct E as (w & s' & g' & -> & Hr & Hk).
      exists w, s', g'. split; [reflexivity|]. split; [right; exact Hr|exact Hk].
    + intros Hk. exists [], s, g. split; [reflexivity|].
      split; [left; split; reflexivity|exact Hk].
  - intros Hk. apply IH1 in Hk. destruct Hk as (w & s' & g1 & -> & Hr & Hk).
    rewrite length_app in Hk.
    replace (length w + length s' - length s')%nat with (length w) in Hk by lia.
    rewrite take_app_length in Hk.
    exists w, s', (Some w). split; [reflexivity|]. split; [|exact Hk].
    split; [eauto|reflexivity].
Qed.

End Matcher.

Section PatternLemmas.

Lemma langc_lit (s w : pystr) (g g' : option pystr) :
  langc (lit s) w g g' <-> w = s /\ g' = g.
Proof.
  revert w g'. induction s as [|c s IH]; intros w g'; simpl.
  - reflexivity.
  - split.
    + intros (w1 & w2 & g1 & -> & [-> ->] & H2). apply IH in H2.
      destruct H2 as [-> ->]. split; reflexivity.
    + intros [-> ->]. exists [c], s, g. repeat split. apply IH. split; reflexivity.
Qed.

Lemma langc_rrep_class (cls : char -> bool) (n : nat) (w : pystr) (g g' : option pystr) :
  langc (rrep n (RClass cls)) w g g'
  <-> length w = n /\ Forall (fun c => cls c = true) w /\ g' = g.
Proof.
  revert w g'. induction n as [|n IH]; intros w g'; simpl.
  - split.
    + intros [-> ->]. repeat split. constructor.
    + intros (Hlen & _ & ->). destruct w; [split; reflexivity|discriminate].
  - split.
    + intros (w1 & w2 & g1 & -> & [(c & -> & Hc) ->] & H2). apply IH in H2.
      destruct H2 as (Hlen & Hall & ->). simpl.
      repeat split; [congruence|constructor; assumption].
    + intros (Hlen & Hall & ->). destruct w as [|c w]; [discriminate|].
      inversion Hall; subst. exists [c], w, g. split; [reflexivity|].
      split; [split; [eauto|reflexivity]|].
      apply IH. simpl in Hlen. repeat split; [congruence|assumption].
Qed.

Lemma langc_re_id (w : pystr) (g g' : option pystr) :
  langc re_id w g g' <-> valid_id w /\ g' = Some w.
Proof.
  unfold re_id, valid_id. simpl. split.
  - intros [[g1 Hr] ->]. apply (langc_rrep_class id_char 11) in Hr.
    destruct Hr as (Hlen & Hall & _). repeat split; assumption.
  - intros [[Hlen Hall] ->]. split; [|reflexivity].
    exists g. apply (langc_rrep_class id_char 11). repeat split; assumption.
Qed.

Lemma optional_re_www : optional_item re_www.
Proof.
  unfold re_www. split.
  - intros g. left. split; reflexivity.
  - intros w g g' [[_ ->]|Hr]; [reflexivity|]. apply langc_lit in Hr. apply Hr.
Qed.

Lemma optional_re_scheme : optional_item re_scheme.
Proof.
  unfold re_scheme. split.
  - intros g. left. split; reflexivity.
  - intros w g g' [[_ ->]|Hr]; [reflexivity|].
    destruct Hr as (w1 & w2 & g1 & _ & H1 & w3 & w4 & g2 & _ & H3 & H4).
    apply langc_lit in H1. apply langc_lit in H4.
    destruct H1 as [_ ->]. destruct H4 as [_ ->].
    destruct H3 as [[_ ->]|[_ ->]]; reflexivity.
Qed.

(** What a shape pattern matches: some text for the optional items, the
    fixed text and a valid identifier, which is the capture. *)
Lemma langc_shape (optionals : list regex) (core w : pystr) (g g' : option pystr) :
  Forall optional_item optionals ->
  langc (shape_pattern optionals core) w g g' ->
  exists a v, w = a ++ core ++ v /\ valid_id v /\ g' = Some v.
Proof.
  intros Hopt. revert w g. induction Hopt as [|r rs [_ Hr] _ IH]; intros w g; simpl.
  - intros (w1 & w2 & g1 & -> & H1 & H2).
    apply langc_lit in H1. destruct H1 as [-> ->].
    apply langc_re_id in H2. destruct H2 as [Hv ->].
    exists [], w2. split; [reflexivity|]. split; [exact Hv|reflexivity].
  - intros (w1 & w2 & g1 & -> & H1 & H2).
    destruct (IH _ _ H2) as (a & v & -> & Hv & ->).
    exists (w1 ++ a), v. rewrite <- app_assoc.
    split; [reflexivity|]. split; [exact Hv|reflexivity].
Qed.

Lemma langc_shape_core (optionals : list regex) (core v : pystr) (g : option pystr) :
  Forall optional_item optionals ->
  valid_id v ->
  langc (shape_pattern optionals core) (core ++ v) g (Some v).
Proof.
  intros Hopt Hv. induction Hopt as [|r rs [Hnull _] _ IH]; simpl.
  - exists core, v, g. split; [reflexivity|].
    split; [apply langc_lit; split; reflexivity|].
    apply langc_re_id. split; [assumption|reflexivity].
  - exists [], (core ++ v), g. split; [reflexivity|]. split; [apply Hnull|exact IH].
Qed.

Lemma re_search_Some (r : regex) (url : pystr) (m : match_obj) :
  re_search r url = Some m ->
  exists pre s, url = pre ++ s /\ re_match r s = Some m.
Proof.
  induction url as [|c url IH]; simpl.
  - destruct (re_match r []) eqn:E; [|discriminate].
    intros Heq. injection Heq as ->. exists [], []. split; [reflexivity|exact E].
  - destruct (re_match r (c :: url)) eqn:E.
    + intros Heq. injection Heq as ->. exists [], (c :: url). split; [reflexivity|exact E].
    + intros Hs. destruct (IH Hs) as (pre & s & -> & Hm).
      exists (c :: pre), s. split; [reflexivity|exact Hm].
Qed.

Lemma re_search_None (r : regex) (url : pystr) :
  re_search r url = None ->
  forall pre s, url = pre ++ s -> re_match r s = None.
Proof.
  induction url as [|c url IH]; simpl.
  - destruct (re_match r []) eqn:E; [discriminate|].
    intros _ pre s Heq. symmetry in Heq. apply app_eq_nil in Heq.
    destruct Heq as [-> ->]. exact E.
  - destruct (re_match r (c :: url)) eqn:E; [discriminate|].
    intros Hs [|c' pre] s Heq; simpl in Heq.
    + subst s. exact E.
    + injection Heq as -> ->. apply (IH Hs pre s). reflexivity.
Qed.

(** A match found at the start of the text is the result of the search. *)
Lemma re_search_at_start (r : regex) (url : pystr) (m : match_obj) :
  re_match r url = Some m -> re_search r url = Some m.
Proof. intros Hm. destruct url; simpl; rewrite Hm; reflexivity. Qed.

Lemma search_shape_Some (optionals : list regex) (core url : pystr) (m : match_obj) :
  Forall optional_item optionals ->
  re_search (shape_pattern optionals core) url = Some m ->
  exists v, m_group1 m = Some v /\ occurs core url v.
Proof.
  intros Hopt Hs. apply re_search_Some in Hs. destruct Hs as (pre & s & -> & Hm).
  unfold re_match in Hm. apply bt_Some in Hm.
  destruct Hm as (w & s' & g' & -> & Hl & Hk). injection Hk as <-.
  destruct (langc_shape _ _ _ _ _ Hopt Hl) as (a & v & -> & Hv & ->).
  exists v. split; [reflexivity|].
  exists (pre ++ a), s'. split; [|exact Hv].
  rewrite <- !app_assoc. reflexivity.
Qed.

Lemma search_shape_None (optionals : list regex) (core url : pystr) :
  Forall optional_item optionals ->
  re_search (shape_pattern optionals core) url = None <-> ~ has_shape core url.
Proof.
  intros Hopt. split.
  - intros Hs (v & pre & post & -> & Hv).
    pose proof (re_search_None _ _ Hs pre (core ++ v ++ post) eq_refl) as Hm.
    unfold re_match in Hm. rewrite bt_None in Hm.
    specialize (Hm (core ++ v) post (Some v)).
    rewrite <- app_assoc in Hm. specialize (Hm eq_refl).
    specialize (Hm (langc_shape_core optionals core v None Hopt Hv)). discriminate.
  - intros Hno. destruct (re_search _ url) as [m|] eqn:E; [|reflexivity].
    destruct (search_shape_Some _ _ _ _ Hopt E) as (v & _ & Hocc).
    exfalso. apply Hno. exists v. exact Hocc.
Qed.

End PatternLemmas.

Section ParserLemmas.

Let mk (sc : list regex * pystr) : regex := shape_pattern (fst sc) (snd sc).

Lemma patterns_specs : patterns = map mk pattern_specs.
Proof. reflexivity. Qed.

Lemma cores_specs : cores = map snd pattern_specs.
Proof. reflexivity. Qed.

Lemma pattern_specs_optional :
  Forall (fun sc => Forall optional_item (fst sc)) pattern_specs.
Proof.
  repeat constructor; simpl;
    first [apply optional_re_scheme | apply optional_re_www].
Qed.

Lemma first_match_Some (specs : list (list regex * pystr)) (url v : pystr) :
  Forall (fun sc => Forall optional_item (fst sc)) specs ->
  first_match (map mk specs) url = Some v ->
  exists k sc,
    specs !! k = Some sc /\ occurs (snd sc) url v
    /\ forall j sc', (j < k)%nat -> specs !! j = Some sc' -> ~ has_shape (snd sc') url.
Proof.
  induction 1 as [|sc specs Hsc _ IH]; simpl; [discriminate|].
  destruct (re_search (mk sc) url) as [m|] eqn:E.
  - intros Hg. destruct (search_shape_Some _ _ _ _ Hsc E) as (v' & Hg' & Hocc).
    assert (v' = v) as -> by congruence.
    exists 0%nat, sc. split; [reflexivity|]. split; [exact Hocc|]. intros j sc' Hj. lia.
  - intros Hf. destruct (IH Hf) as (k & sc0 & Hk & Hocc & Hprev).
    exists (S k), sc0. split; [exact Hk|]. split; [exact Hocc|].
    intros [|j] sc' Hj Hl; simpl in Hl.
    + injection Hl as <-. apply (search_shape_None _ _ _ Hsc). exact E.
    + apply (Hprev j sc'); [lia|exact Hl].
Qed.

Lemma first_match_None (specs : list (list regex * pystr)) (url : pystr) :
  Forall (fun sc => Forall optional_item (fst sc)) specs ->
  first_match (map mk specs) url = None
  <-> forall sc, sc ∈ specs -> ~ has_shape (snd sc) url.
Proof.
  induction 1 as [|sc specs Hsc _ IH]; simpl.
  - split; [|reflexivity]. intros _ sc Hin. apply elem_of_nil in Hin. contradiction.
  - destruct (re_search (mk sc) url) as [m|] eqn:E.
    + destruct (search_shape_Some _ _ _ _ Hsc E) as (v & Hg & Hocc).
      split; [congruence|]. intros Hall. exfalso.
      apply (Hall sc); [apply list_elem_of_here|]. exists v. exact Hocc.
    + rewrite IH. split.
      * intros Hall sc' Hin. apply elem_of_cons in Hin. destruct Hin as [->|Hin].
        -- apply (search_shape_None _ _ _ Hsc). exact E.
        -- apply Hall. exact Hin.
      * intros Hall sc' Hin. apply Hall. apply list_elem_of_further. exact Hin.
Qed.

(** The result when the patterns before the [k]-th find nothing and the
    [k]-th finds [m]. *)
Lemma first_match_at (specs : list (list regex * pystr)) (url : pystr) :
  forall (k : nat) (sc : list regex * pystr) (m : match_obj),
    specs !! k = Some sc ->
    (forall j sc', (j < k)%nat -> specs !! j = Some sc' -> re_search (mk sc') url = None) ->
    re_search (mk sc) url = Some m ->
    first_match (map mk specs) url = m_group1 m.
Proof.
  induction specs as [|sc0 specs IH]; intros k sc m Hk Hprev Hm.
  - rewrite lookup_nil in Hk. discriminate.
  - destruct k as [|k]; simpl in Hk.
    + injection Hk as ->. simpl. rewrite Hm. reflexivity.
    + simpl. rewrite (Hprev 0%nat sc0 ltac:(lia) eq_refl).
      apply (IH k sc m Hk); [|exact Hm].
      intros j sc' Hj Hl. apply (Hprev (S j) sc'); [lia|exact Hl].
Qed.

(** The identifier group consumes a valid identifier and captures it. *)
Lemma bt_rrep_class_app {A : Type} (cls : char -> bool) (v rest : pystr)
    (g : option pystr) (k : pystr -> option pystr -> option A) :
  Forall (fun c => cls c = true) v ->
  bt (rrep (length v) (RClass cls)) (v ++ rest) g k = k rest g.
Proof.
  induction 1 as [|c v Hc _ IH]; simpl; [reflexivity|].
  rewrite Hc. exact IH.
Qed.

Lemma bt_re_id_app {A : Type} (v rest : pystr) (g : option pystr)
    (k : pystr -> option pystr -> option A) :
  valid_id v -> bt re_id (v ++ rest) g k = k rest (Some v).
Proof.
  intros [Hlen Hall]. unfold re_id. cbn [bt]. rewrite <- Hlen.
  rewrite bt_rrep_class_app by exact Hall.
  rewrite length_app.
  replace (length v + length rest - length rest)%nat with (length v) by lia.
  rewrite take_app_length. reflexivity.
Qed.

End ParserLemmas.

Section Canonical.

(** Replace every string literal of the goal by its code points. *)
Ltac eval_py :=
  repeat match goal with
         | |- context [py ?s] =>
             let v := eval vm_compute in (py s) in change (py s) with v
         end.

Lemma re_match_canonical (sc : list regex * pystr) (scheme www id rest : pystr) :
  sc ∈ pattern_specs -> scheme ∈ schemes -> www ∈ hosts (snd sc) -> valid_id id ->
  re_match (shape_pattern (fst sc) (snd sc)) (scheme ++ www ++ snd sc ++ id ++ rest)
  = Some (MatchObj rest (Some id)).
Proof.
  intros Hsc Hs Hw Hv.
  unfold pattern_specs in Hsc.
  repeat (apply elem_of_cons in Hsc as [->|Hsc]);
    try (apply elem_of_nil in Hsc; contradiction);
    unfold schemes in Hs;
    repeat (apply elem_of_cons in Hs as [->|Hs]);
    try (apply elem_of_nil in Hs; contradiction);
    vm_compute in Hw;
    repeat (apply elem_of_cons in Hw as [->|Hw]);
    try (apply elem_of_nil in Hw; contradiction);
    unfold re_match, shape_pattern, re_scheme, re_www;
    eval_py; cbn -[re_id];
    rewrite (bt_re_id_app id rest _ _ Hv); reflexivity.
Qed.

End Canonical.

Lemma cores_lookup (k : nat) (core : pystr) :
  cores !! k = Some core ->
  exists sc, pattern_specs !! k = Some sc /\ snd sc = core.
Proof.
  rewrite cores_specs, list_lookup_fmap.
  destruct (pattern_specs !! k) as [sc|]; simpl; [|discriminate].
  intros Heq. injection Heq as <-. exists sc. split; reflexivity.
Qed.

(** C2. [parse_youtube_url] tries the four patterns in order and
    returns the first capture.  A returned value is a valid
    11-character identifier that follows the fixed text of the first
    shape (in pattern order) occurring in the string; a string that
    starts with an accepted shape (optional scheme, optional www., fixed
    text, valid identifier) and contains no shape of an earlier pattern
    yields exactly that identifier; and the result is None exactly for
    the strings in which none of the four shapes occurs. *)
Theorem parse_youtube_url_spec (url : pystr) :
  (forall v : pystr,
      parse_youtube_url url = Some v ->
      valid_id v
      /\ exists (k : nat) (core : pystr),
           cores !! k = Some core /\ occurs core url v
           /\ forall (j : nat) (core' : pystr),
                (j < k)%nat -> cores !! j = Some core' -> ~ has_shape core' url)
  /\ (parse_youtube_url url = None
      <-> forall core : pystr, core ∈ cores -> ~ has_shape core url)
  /\ (forall (k : nat) (core scheme www id rest : pystr),
        cores !! k = Some core ->
        scheme ∈ schemes -> www ∈ hosts core -> valid_id id ->
        url = scheme ++ www ++ core ++ id ++ rest ->
        (forall (j : nat) (core' : pystr),
            (j < k)%nat -> cores !! j = Some core' -> ~ has_shape core' url) ->
        parse_youtube_url url = Some id).
Proof.
  unfold parse_youtube_url. rewrite patterns_specs.
  split; [|split].
  - intros v Hv.
    destruct (first_match_Some _ _ _ pattern_specs_optional Hv)
      as (k & sc & Hk & Hocc & Hprev).
    split; [destruct Hocc as (_ & _ & _ & Hvalid); exact Hvalid|].
    exists k, (snd sc). split.
    { rewrite cores_specs, list_lookup_fmap, Hk. reflexivity. }
    split; [exact Hocc|].
    intros j core' Hj Hl. destruct (cores_lookup j core' Hl) as (sc' & Hl' & <-).
    apply (Hprev j sc' Hj Hl').
  - rewrite (first_match_None _ _ pattern_specs_optional). split.
    + intros Hall core Hin. rewrite cores_specs in Hin.
      apply list_elem_of_fmap in Hin. destruct Hin as (sc & -> & Hin).
      apply Hall. exact Hin.
    + intros Hall sc Hin. apply Hall. rewrite cores_specs.
      apply list_elem_of_fmap. exists sc. split; [reflexivity|exact Hin].
  - intros k core scheme www id rest Hk Hs Hw Hv -> Hprev.
    destruct (cores_lookup k core Hk) as (sc & Hk' & <-).
    assert (Hin : sc ∈ pattern_specs) by (eapply list_elem_of_lookup_2; exact Hk').
    pose proof (re_match_canonical sc scheme www id rest Hin Hs Hw Hv) as Hm.
    apply re_search_at_start in Hm.
    rewrite (first_match_at pattern_specs _ k sc (MatchObj rest (Some id)) Hk');
      [reflexivity| |exact Hm].
    intros j sc' Hj Hl.
    apply search_shape_None.
    + pose proof pattern_specs_optional as Hopt. rewrite Forall_forall in Hopt.
      apply Hopt. eapply list_elem_of_lookup_2. exact Hl.
    + apply (Hprev j (snd sc') Hj).
      rewrite cores_specs, list_lookup_fmap, Hl. reflexivity.
Qed.

Lemma parse_youtube_url_spec_witness :
  parse_youtube_url (py "https://www.youtube.com/embed/abc_DEF-123?start=5")
  = Some (py "abc_DEF-123").
Proof.
  destruct (parse_youtube_url_spec (py "https://www.youtube.com/embed/abc_DEF-123?start=5"))
    as (_ & _ & Hshape).
  apply (Hshape 1%nat (py "youtube.com/embed/") (py "https://") (py "www.")
           (py "abc_DEF-123") (py "?start=5")).
  - reflexivity.
  - apply list_elem_of_further, list_elem_of_further, list_elem_of_here.
  - apply list_elem_of_further, list_elem_of_here.
  - split; [reflexivity|]. repeat constructor.
  - reflexivity.
  - intros j core' Hj Hl. destruct j as [|j]; [|lia].
    injection Hl as <-.
    intros (v & Hocc).
    assert (Hnone : re_search (shape_pattern [re_scheme; re_www] (py "youtube.com/watch?v="))
                      (py "https://www.youtube.com/embed/abc_DEF-123?start=5") = None)
      by (vm_compute; reflexivity).
    apply (search_shape_None [re_scheme; re_www]) in Hnone.
    + apply Hnone. exists v. exact Hocc.
    + repeat constructor; [apply optional_re_scheme|apply optional_re_www].
Defined.

(** ** Filename sanitizer *)

Section Sanitizer.

(** With a one-character replacement, [re.sub] on a character class is a
    character-wise map. *)
Lemma re_sub_class_map (cls : char -> bool) (r : char) (s : pystr) :
  re_sub_class cls [r] s = map (fun c => if cls c then r else c) s.
Proof.
  unfold re_sub_class.
  induction s as [|c s IH]; simpl; [reflexivity|].
  rewrite IH. destruct (cls c); reflexivity.
Qed.

Lemma sanitize_filename_take (filename : pystr) :
  sanitize_filename filename
  = take 200 (map (fun c => if is_illegal c then 95%N else c) filename).
Proof.
  unfold sanitize_filename.
  change (py "_") with [95%N].
  rewrite re_sub_class_map.
  cbv zeta.
  match goal with |- (if ?b then _ else _) = _ => destruct b eqn:E end; [reflexivity|].
  apply Nat.ltb_ge in E. symmetry. apply take_ge. exact E.
Qed.



End Sanitizer.


(** C9. [sanitize_filename] replaces each illegal character by an
    underscore and deletes nothing: the output is the character-wise
    image of the input cut to 200 characters, so its length is
    min(len(input), 200), and a non-empty input gives a non-empty name. *)
Theorem sanitize_filename_replaces (filename : pystr) :
  sanitize_filename filename
    = take 200 (map (fun c => if is_illegal c then 95%N else c) filename)
  /\ length (sanitize_filename filename) = Nat.min (length filename) 200
  /\ (filename <> [] -> sanitize_filename filename <> []).
Proof.
  split; [apply sanitize_filename_take|].
  assert (Hlen : length (sanitize_filename filename) = Nat.min (length filename) 200).
  { rewrite sanitize_filename_take, length_take, length_map. apply Nat.min_comm. }
  split; [exact Hlen|].
  intros Hne Hnil. rewrite Hnil in Hlen. simpl in Hlen.
  destruct filename; [congruence | simpl in Hlen; lia].
Qed.

Lemma sanitize_filename_replaces_witness :
  py "a?b" <> [] /\ sanitize_filename (py "a?b") <> [].
Proof.
  split; [discriminate|].
  apply (proj2 (proj2 (sanitize_filename_replaces (py "a?b")))).
  discriminate.
Defined.

(** ** Cookie resolver *)

Section CookieLemmas.

Lemma live_entries_lookup (es : list (Path * inode)) (p : Path) (i : inode) :
  (p, i) ∈ live_entries es -> lookup_entry p es = Some i.
Proof.
  induction es as [|[q j] es IH]; simpl; intros Hin.
  - apply elem_of_nil in Hin. contradiction.
  - apply elem_of_cons in Hin. destruct Hin as [Heq|Hin].
    + injection Heq as -> ->. rewrite bool_decide_eq_true_2 by reflexivity. reflexivity.
    + apply list_elem_of_filter in Hin. destruct Hin as [Hne Hin]. simpl in Hne.
      rewrite bool_decide_eq_false_2 by congruence. apply IH. exact Hin.
Qed.

(** A path that a glob yields lies directly inside the directory and
    bears the suffix; it can be [stat]ed unless it is a dangling link. *)
Lemma glob_inv (fs : file_system) (d : Path) (suffix : pystr) (p : Path) :
  p ∈ fs_glob_suffix fs d suffix ->
  path_parent p = d /\ endswith suffix (path_name p) = true
  /\ (is_Some (fs_stat fs p) \/ (p ∈ fs_links fs /\ fs_stat fs p = None)).
Proof.
  unfold fs_glob_suffix, fs_listdir. intros Hin.
  apply list_elem_of_filter in Hin. destruct Hin as [Hend Hin].
  apply elem_of_app in Hin. destruct Hin as [Hin|Hin].
  - unfold fs_scandir in Hin.
    apply list_elem_of_fmap in Hin. destruct Hin as ([q i] & -> & Hin).
    apply list_elem_of_filter in Hin. destruct Hin as [[_ Hparent] Hin].
    split; [exact Hparent|]. split; [exact Hend|].
    left. exists i. apply live_entries_lookup. exact Hin.
  - unfold fs_dangling in Hin.
    apply list_elem_of_filter in Hin. destruct Hin as [(_ & Hparent & Hnone) Hin].
    split; [exact Hparent|]. split; [exact Hend|]. right. split; assumption.
Qed.

Lemma mtime_keys_ok (fs : file_system) (ps : list Path) :
  Forall (fun p => is_Some (fs_stat fs p)) ps ->
  exists keyed,
    mtime_keys fs ps = Ok keyed
    /\ map snd keyed = ps
    /\ Forall (fun y => st_mtime fs (snd y) = Ok (fst y)) keyed.
Proof.
  induction 1 as [|p ps [i Hi] _ (keyed & Hk & Hmap & Hall)].
  - exists []. repeat split; constructor.
  - exists ((i_mtime i, p) :: keyed). simpl.
    unfold st_mtime at 1. rewrite Hi. simpl. rewrite Hk. simpl.
    split; [reflexivity|]. split; [congruence|].
    constructor; [|exact Hall]. simpl. unfold st_mtime. rewrite Hi. reflexivity.
Qed.

(** The first candidate that cannot be [stat]ed makes the keys fail. *)
Lemma mtime_keys_raise (fs : file_system) (ps : list Path) :
  Exists (fun p => fs_stat fs p = None) ps ->
  exists q,
    q ∈ ps /\ fs_stat fs q = None
    /\ mtime_keys fs ps
       = Raise (Exn FileNotFoundError
                  (py "[Errno 2] No such file or directory: '" ++ path_str q ++ py "'")).
Proof.
  induction ps as [|p ps IH]; intros Hex; [inversion Hex|].
  simpl. unfold st_mtime at 1.
  destruct (fs_stat fs p) as [i|] eqn:Hp.
  - apply Exists_cons in Hex. destruct Hex as [Hex|Hex]; [congruence|].
    destruct (IH Hex) as (q & Hin & Hq & Hk).
    exists q. split; [apply list_elem_of_further; exact Hin|]. split; [exact Hq|].
    simpl. rewrite Hk. reflexivity.
  - exists p. split; [apply list_elem_of_here|]. split; [exact Hp|]. reflexivity.
Qed.

(** The head of the sorted list has the greatest key. *)
Lemma sort_desc_head (l : list (Z * Path)) :
  match sort_desc l with
  | [] => l = []
  | y :: _ => y ∈ l /\ Forall (fun x => fst x <= fst y) l
  end.
Proof.
  induction l as [|x l IH]; [reflexivity|].
  simpl. destruct (sort_desc l) as [|y s].
  - subst l. simpl. split; [apply list_elem_of_here|].
    constructor; [lia|constructor].
  - destruct IH as [Hin Hall]. simpl.
    destruct (Z.ltb_spec (fst x) (fst y)) as [Hlt|Hge].
    + split; [apply list_elem_of_further; exact Hin|].
      constructor; [lia|exact Hall].
    + split; [apply list_elem_of_here|].
      constructor; [lia|].
      eapply Forall_impl; [exact Hall|]. simpl. intros z Hz. lia.
Qed.

(** The answer of [find_cookie_file] when every listed [*.txt] can be
    [stat]ed: nothing when the directory is missing; [cookies.txt] when
    that exists; otherwise nothing when no [*.txt] is listed, and else a
    [*.txt] whose modification time is the greatest of all. *)
Lemma find_cookie_file_spec (fs : file_system) (search_dir : Path) :
  let preferred := path_div search_dir (py "cookies.txt") in
  let candidates := fs_glob_suffix fs search_dir (py ".txt") in
  (fs_exists fs search_dir = true -> fs_exists fs preferred = false ->
   Forall (fun q => is_Some (fs_stat fs q)) candidates) ->
  exists found : option Path,
    find_cookie_file fs search_dir = Ok found
    /\ (fs_exists fs search_dir = false -> found = None)
    /\ (fs_exists fs search_dir = true -> fs_exists fs preferred = true ->
        found = Some preferred)
    /\ (fs_exists fs search_dir = true -> fs_exists fs preferred = false ->
        match found with
        | None => candidates = []
        | Some p =>
            p ∈ candidates
            /\ exists t, st_mtime fs p = Ok t
               /\ forall q, q ∈ candidates -> exists t', st_mtime fs q = Ok t' /\ t' <= t
        end).
Proof.
  intros preferred candidates Hstat. unfold find_cookie_file.
  fold preferred. fold candidates.
  destruct (fs_exists fs search_dir) eqn:Hdir; simpl.
  2:{ exists None. repeat split; try reflexivity; discriminate. }
  destruct (fs_exists fs preferred) eqn:Hpref.
  { exists (Some preferred). repeat split; try reflexivity; discriminate. }
  destruct (decide (candidates = [])) as [Hnil|Hne].
  { rewrite bool_decide_eq_true_2 by assumption.
    exists None. repeat split; try reflexivity; try discriminate. intros _ _. exact Hnil. }
  rewrite bool_decide_eq_false_2 by assumption.
  destruct (mtime_keys_ok fs candidates (Hstat eq_refl eq_refl))
    as (keyed & Hk & Hmap & Hall).
  rewrite Hk. simpl.
  pose proof (sort_desc_head keyed) as Hhead.
  destruct (sort_desc keyed) as [|[t p] s].
  { subst keyed. simpl in Hmap. congruence. }
  destruct Hhead as [Hin Hmax]. simpl.
  exists (Some p). split; [reflexivity|].
  split; [discriminate|]. split; [discriminate|].
  intros _ _. split.
  - rewrite <- Hmap. apply list_elem_of_fmap. exists (t, p). split; [reflexivity|exact Hin].
  - exists t. split.
    + rewrite Forall_forall in Hall. apply (Hall (t, p)). exact Hin.
    + intros q Hq. rewrite <- Hmap in Hq.
      apply list_elem_of_fmap in Hq. destruct Hq as ([t' q'] & -> & Hq).
      exists t'. split.
      * rewrite Forall_forall in Hall. apply (Hall (t', q')). exact Hq.
      * rewrite Forall_forall in Hmax. apply (Hmax (t', q')). exact Hq.
Qed.

(** With the directory present and no [cookies.txt], a listed [*.txt]
    that cannot be [stat]ed makes [find_cookie_file] raise the error of
    that [stat]. *)
Lemma find_cookie_file_raises (fs : file_system) (search_dir : Path) (q : Path) :
  fs_exists fs search_dir = true ->
  fs_exists fs (path_div search_dir (py "cookies.txt")) = false ->
  q ∈ fs_glob_suffix fs search_dir (py ".txt") ->
  fs_stat fs q = None ->
  exists q',
    q' ∈ fs_glob_suffix fs search_dir (py ".txt") /\ fs_stat fs q' = None
    /\ find_cookie_file fs search_dir
       = Raise (Exn FileNotFoundError
                  (py "[Errno 2] No such file or directory: '" ++ path_str q' ++ py "'")).
Proof.
  intros Hdir Hpref Hin Hq. unfold find_cookie_file.
  rewrite Hdir, Hpref. cbn [negb]. cbv zeta.
  rewrite bool_decide_eq_false_2
    by (intros Hnil; rewrite Hnil in Hin; apply elem_of_nil in Hin; exact Hin).
  destruct (mtime_keys_raise fs (fs_glob_suffix fs search_dir (py ".txt")))
    as (q' & Hin' & Hq' & Hk).
  { apply Exists_exists. exists q. split; assumption. }
  exists q'. split; [exact Hin'|]. split; [exact Hq'|]. rewrite Hk. reflexivity.
Qed.

(** When [find_cookie_file] returns, every listed [*.txt] it had to
    [stat] could be [stat]ed. *)
Lemma find_cookie_file_returns (fs : file_system) (search_dir : Path)
    (found : option Path) :
  find_cookie_file fs search_dir = Ok found ->
  fs_exists fs search_dir = true ->
  fs_exists fs (path_div search_dir (py "cookies.txt")) = false ->
  Forall (fun q => is_Some (fs_stat fs q)) (fs_glob_suffix fs search_dir (py ".txt")).
Proof.
  intros Hfind Hdir Hpref. apply Forall_forall. intros q Hin.
  destruct (fs_stat fs q) as [i|] eqn:Hq; [eexists; reflexivity|].
  destruct (find_cookie_file_raises fs search_dir q Hdir Hpref Hin Hq) as (q' & _ & _ & Hr).
  congruence.
Qed.

End CookieLemmas.

Section CookieOpts.
Context {ext : Type} `{Platform}.

(** [cookies_opts] with an explicit file path: the browser spec is not
    consulted. *)
Lemma cookies_opts_file (path : pystr) (cookies_from_browser : option pystr)
    (w : world ext) :
  path <> [] ->
  cookies_opts (Some path) cookies_from_browser w
  = if fs_exists (w_fs w) (expanduser_resolve path)
    then (World (w_fs w)
            (w_stdout w ++ [py "🍪 使用 cookies 文件: " ++ path_str (expanduser_resolve path)])
            (w_calls w) (w_ext w),
          Ok (<[py "cookiefile" := VStr (path_str (expanduser_resolve path))]> (∅ : dict)))
    else (w, Raise (Exn FileNotFoundError
                      (py "Cookies 文件不存在: " ++ path_str (expanduser_resolve path)))).
Proof.
  intros Hne. destruct path as [|c path]; [congruence|].
  unfold cookies_opts. cbn [opt_truthy default from_option id].
  unfold bind at 1, path_exists.
  destruct (fs_exists (w_fs w) (expanduser_resolve (c :: path))); reflexivity.
Qed.

(** [cookies_opts] with neither argument given: auto-discovery in the
    default directory. *)
Lemma cookies_opts_auto (cookies_path cookies_from_browser : option pystr)
    (w : world ext) (found : option Path) :
  opt_truthy cookies_path = false ->
  opt_truthy cookies_from_browser = false ->
  find_cookie_file (w_fs w) (path_div script_dir (py "cookies")) = Ok found ->
  cookies_opts cookies_path cookies_from_browser w
  = match found with
    | Some p =>
        (World (w_fs w) (w_stdout w ++ [py "🍪 自动发现 cookies: " ++ path_str p])
           (w_calls w) (w_ext w),
         Ok (<[py "cookiefile" := VStr (path_str p)]> (∅ : dict)))
    | None => (w, Ok (∅ : dict))
    end.
Proof.
  intros Hcp Hcb Hfind. unfold cookies_opts. rewrite Hcp, Hcb.
  unfold bind at 1, get_fs. unfold bind at 1, lift. rewrite Hfind.
  destruct found; reflexivity.
Qed.

(** The same when the search raises. *)
Lemma cookies_opts_auto_raise (cookies_path cookies_from_browser : option pystr)
    (w : world ext) (e : exn) :
  opt_truthy cookies_path = false ->
  opt_truthy cookies_from_browser = false ->
  find_cookie_file (w_fs w) (path_div script_dir (py "cookies")) = Raise e ->
  cookies_opts cookies_path cookies_from_browser w = (w, Raise e).
Proof.
  intros Hcp Hcb Hfind. unfold cookies_opts. rewrite Hcp, Hcb.
  unfold bind at 1, get_fs. unfold bind at 1, lift. rewrite Hfind. reflexivity.
Qed.

(** [cookies_opts] with no file path and a browser spec: the default
    directory is not searched. *)
Lemma cookies_opts_browser (cookies_path : option pystr) (spec : pystr) (w : world ext) :
  opt_truthy cookies_path = false ->
  spec <> [] ->
  cookies_opts cookies_path (Some spec) w
  = match parse_cookies_from_browser spec with
    | Some parsed =>
        (World (w_fs w) (w_stdout w ++ [py "🍪 从浏览器读取 cookies: " ++ spec])
           (w_calls w) (w_ext w),
         Ok (<[py "cookiesfrombrowser" := VTuple (map VStr parsed)]> (∅ : dict)))
    | None => (w, Ok (∅ : dict))
    end.
Proof.
  intros Hcp Hne. destruct spec as [|c spec]; [congruence|].
  unfold cookies_opts. rewrite Hcp. cbn [opt_truthy default from_option id].
  destruct (parse_cookies_from_browser (c :: spec)); reflexivity.
Qed.

(** Whatever the arguments, the resulting dictionary is empty or holds
    exactly one of the two cookie keys. *)
Lemma cookies_opts_one_source (cookies_path cookies_from_browser : option pystr)
    (w w' : world ext) (d : dict) :
  cookies_opts cookies_path cookies_from_browser w = (w', Ok d) ->
  d = ∅
  \/ (exists v, d = <[py "cookiefile" := v]> (∅ : dict))
  \/ (exists v, d = <[py "cookiesfrombrowser" := v]> (∅ : dict)).
Proof.
  unfold cookies_opts.
  destruct (opt_truthy cookies_path).
  - unfold bind at 1, path_exists.
    destruct (fs_exists _ _); cbn [negb]; [|discriminate].
    unfold bind, print, ret. intros Heq. injection Heq as _ <-. right. left. eauto.
  - destruct (opt_truthy cookies_from_browser).
    + destruct (parse_cookies_from_browser _).
      * unfold bind, print, ret. intros Heq. injection Heq as _ <-. right. right. eauto.
      * unfold ret. intros Heq. injection Heq as _ <-. left. reflexivity.
    + unfold bind at 1, get_fs. unfold bind at 1, lift.
      destruct (find_cookie_file _ _) as [[p|]|e]; [| |discriminate].
      * unfold bind, print, ret. intros Heq. injection Heq as _ <-. right. left. eauto.
      * unfold ret. intros Heq. injection Heq as _ <-. left. reflexivity.
Qed.

End CookieOpts.




(** ** Audio downloader *)

Section LoopLemmas.
Context {ext : Type} `{YoutubeDL ext}.
Variables (url : pystr) (output_dir : Path) (video_title safe_title : pystr).
Variables (js_runtimes remote_components : pyval) (copts : dict).

Let loop := download_loop url output_dir video_title safe_title
              js_runtimes remote_components copts.
Let opts_of (extractor_args : dict) : dict :=
  ydl_opts (output_template output_dir safe_title) js_runtimes remote_components
    copts extractor_args.
Let target := audio_path output_dir safe_title.
Let name_of (extractor_args : dict) : pystr :=
  py_str (default (VStr (py "default")) (extractor_args !! py "player_client")).

(** One iteration of the loop, by the outcome of the library call. *)
Lemma download_loop_cons (c : dict) (rest : list dict) (le : option exn) (w : world ext) :
  loop (c :: rest) le w
  = let out1 := w_stdout w ++ [py "🔄 尝试客户端: " ++ name_of c] in
    let calls1 := w_calls w ++ [CallDownload (opts_of c) [url]] in
    match ydl_download (opts_of c) [url] (w_fs w) (w_ext w) with
    | (fs', x', Ok _) =>
        if fs_exists fs' target
        then (World fs' (out1 ++ [py "✅ 音频下载完成: " ++ path_name target]) calls1 x',
              Ok (target, video_title))
        else loop rest le (World fs' out1 calls1 x')
    | (fs', x', Raise e) =>
        if is_Exception e
        then loop rest (Some e)
               (World fs'
                  (out1 ++ [py "⚠️ 客户端 " ++ name_of c ++ py " 失败: "
                            ++ take 120 (exc_str e)]) calls1 x')
        else (World fs' out1 calls1 x', Raise e)
    end.
Proof.
  unfold loop. cbn [download_loop].
  unfold bind at 1, print at 1. unfold bind at 1.
  unfold try_except, bind at 1, download. cbn [w_fs w_ext w_stdout w_calls].
  fold (opts_of c). fold target.
  destruct (ydl_download (opts_of c) [url] (w_fs w) (w_ext w)) as [[fs' x'] [[]|e]].
  - unfold bind at 1, path_exists. cbn [w_fs w_ext w_stdout w_calls].
    destruct (fs_exists fs' target); reflexivity.
  - destruct (is_Exception e); reflexivity.
Qed.

Lemma download_loop_nil (le : option exn) (w : world ext) :
  loop [] le w = (w, Raise (aggregate_error le)).
Proof. reflexivity. Qed.

(** The loop changes the call log only by appending the downloads of a
    prefix of the configurations, in their order. *)
Lemma download_loop_calls (configs : list dict) :
  forall (le : option exn) (w : world ext),
  exists n : nat,
    (n <= length configs)%nat
    /\ w_calls (fst (loop configs le w))
       = w_calls w ++ map (fun c => CallDownload (opts_of c) [url]) (take n configs)
    /\ match snd (loop configs le w) with
       | Ok v => (1 <= n)%nat /\ v = (target, video_title)
                 /\ fs_exists (w_fs (fst (loop configs le w))) target = true
       | Raise e =>
           is_Exception e = true ->
           n = length configs /\ exists le', e = aggregate_error le'
       end.
Proof.
  induction configs as [|c rest IH]; intros le w.
  - exists 0%nat. rewrite download_loop_nil. simpl. rewrite app_nil_r.
    repeat split; eauto.
  - rewrite download_loop_cons. cbv zeta.
    destruct (ydl_download (opts_of c) [url] (w_fs w) (w_ext w)) as [[fs' x'] [[]|e]].
    + destruct (fs_exists fs' target) eqn:Hex.
      * exists 1%nat. cbn [fst snd w_calls w_fs length take map].
        split; [lia|]. split; [reflexivity|]. split; [lia|]. split; [reflexivity|exact Hex].
      * match goal with |- context [loop rest le ?w1] =>
          destruct (IH le w1) as (n & Hn & Hcalls & Hres) end.
        exists (S n). split; [simpl; lia|]. split.
        { rewrite Hcalls. simpl. rewrite <- app_assoc. reflexivity. }
        destruct (snd (loop rest le _)).
        -- destruct Hres as (Hn1 & -> & Hex'). repeat split; [lia|exact Hex'].
        -- intros He. destruct (Hres He) as (-> & le' & ->). split; [reflexivity|eauto].
    + destruct (is_Exception e) eqn:HisE.
      * match goal with |- context [loop rest (Some e) ?w1] =>
          destruct (IH (Some e) w1) as (n & Hn & Hcalls & Hres) end.
        exists (S n). split; [simpl; lia|]. split.
        { rewrite Hcalls. simpl. rewrite <- app_assoc. reflexivity. }
        destruct (snd (loop rest (Some e) _)).
        -- destruct Hres as (Hn1 & -> & Hex'). repeat split; [lia|exact Hex'].
        -- intros He. destruct (Hres He) as (-> & le' & ->). split; [reflexivity|eauto].
      * exists 1%nat. cbn [fst snd w_calls w_fs length take map].
        split; [lia|]. split; [reflexivity|].
        intros He. congruence.
Qed.

(** A run of failing attempts makes the loop go through all of them and
    arrive at the rest of the list with the last raised error recorded;
    the file system and the outside state are those the library left. *)
Lemma download_loop_failed (pre : list dict) :
  forall (rest : list dict) (le : option exn) (w : world ext)
         (outs : list (option exn)) (fs' : file_system) (x' : ext),
    failed_attempts url target (map opts_of pre) (w_fs w) (w_ext w) outs fs' x' ->
    exists w1 : world ext,
      loop (pre ++ rest) le w = loop rest (last_error_after le outs) w1
      /\ w_fs w1 = fs' /\ w_ext w1 = x'
      /\ w_calls w1 = w_calls w ++ map (fun c => CallDownload (opts_of c) [url]) pre.
Proof.
  induction pre as [|c pre IH]; intros rest le w outs fs' x' Hrun.
  - inversion Hrun; subst. exists w. simpl. rewrite app_nil_r.
    destruct w; repeat split; reflexivity.
  - simpl in Hrun. inversion Hrun as [|o os fs0 fs1 fs2 x0 x1 x2 e outs' Hdl HisE Hrest
                                       |o os fs0 fs1 fs2 x0 x1 x2 outs' Hdl Hex Hrest]; subst.
    + simpl app. rewrite download_loop_cons. cbv zeta. rewrite Hdl, HisE.
      match goal with |- context [loop (pre ++ rest) (Some e) ?w1] =>
        destruct (IH rest (Some e) w1 outs' fs' x' Hrest) as (w2 & Hloop & Hfs & Hx & Hcalls)
      end.
      exists w2. split; [exact Hloop|]. split; [exact Hfs|]. split; [exact Hx|].
      rewrite Hcalls. simpl. rewrite <- app_assoc. reflexivity.
    + simpl app. rewrite download_loop_cons. cbv zeta. rewrite Hdl, Hex.
      match goal with |- context [loop (pre ++ rest) le ?w1] =>
        destruct (IH rest le w1 outs' fs' x' Hrest) as (w2 & Hloop & Hfs & Hx & Hcalls)
      end.
      exists w2. split; [exact Hloop|]. split; [exact Hfs|]. split; [exact Hx|].
      rewrite Hcalls. simpl. rewrite <- app_assoc. reflexivity.
Qed.

End LoopLemmas.

Section LoopConverse.
Context {ext : Type} `{YoutubeDL ext}.
Variables (url : pystr) (output_dir : Path) (video_title safe_title : pystr).
Variables (js_runtimes remote_components : pyval) (copts : dict).

(** Conversely, the aggregate error comes only out of a run in which
    every configuration was tried and failed. *)
Lemma download_loop_raise_inv (configs : list dict) :
  forall (le : option exn) (w w' : world ext) (e : exn),
    download_loop url output_dir video_title safe_title js_runtimes remote_components
      copts configs le w = (w', Raise e) ->
    is_Exception e = true ->
    exists outs : list (option exn),
      failed_attempts url (audio_path output_dir safe_title)
        (map (ydl_opts (output_template output_dir safe_title) js_runtimes
                remote_components copts) configs)
        (w_fs w) (w_ext w) outs (w_fs w') (w_ext w')
      /\ e = aggregate_error (last_error_after le outs).
Proof.
  induction configs as [|c rest IH]; intros le w w' e Hrun HisE.
  - rewrite download_loop_nil in Hrun. injection Hrun as <- <-.
    exists []. split; [constructor|reflexivity].
  - rewrite download_loop_cons in Hrun. cbv zeta in Hrun.
    destruct (ydl_download _ [url] (w_fs w) (w_ext w)) as [[fs1 x1] [[]|e1]] eqn:Hdl.
    + destruct (fs_exists fs1 _) eqn:Hex; [discriminate|].
      destruct (IH _ _ _ _ Hrun HisE) as (outs & Hfa & ->).
      exists (None :: outs). split; [|reflexivity].
      simpl. eapply fa_silent; eassumption.
    + destruct (is_Exception e1) eqn:HisE1.
      * destruct (IH _ _ _ _ Hrun HisE) as (outs & Hfa & ->).
        exists (Some e1 :: outs). split; [|reflexivity].
        simpl. eapply fa_raise; eassumption.
      * injection Hrun as <- <-. congruence.
Qed.

End LoopConverse.

Section Prelude.
Context {ext : Type} `{YoutubeDL ext} `{Platform}.

(** Once the cookie options are resolved and the metadata extraction has
    returned, [download_audio] is the loop over [client_configs],
    started with no recorded error. *)
Lemma download_audio_prelude (url : pystr) (output_dir : Path)
    (cookies_path cookies_from_browser : option pystr)
    (js_runtimes remote_components : pyval)
    (w w1 : world ext) (copts : dict) (fs0 : file_system) (x0 : ext) (info : info_dict) :
  cookies_opts cookies_path cookies_from_browser
    (World (w_fs w) (w_stdout w ++ [py "📥 正在下载音频..."]) (w_calls w) (w_ext w))
  = (w1, Ok copts) ->
  ydl_extract_info (base_opts js_runtimes remote_components copts) url (w_fs w1) (w_ext w1)
  = (fs0, x0, Ok info) ->
  download_audio url output_dir cookies_path cookies_from_browser
    js_runtimes remote_components w
  = download_loop url output_dir (default (py "unknown") (info_title info))
      (sanitize_filename (default (py "unknown") (info_title info)))
      js_runtimes remote_components copts client_configs None
      (World fs0 (w_stdout w1)
         (w_calls w1 ++ [CallExtractInfo (base_opts js_runtimes remote_components copts) url])
         x0).
Proof.
  intros Hcookies Hinfo. unfold download_audio.
  unfold bind at 1, print at 1. unfold bind at 1. rewrite Hcookies.
  unfold bind at 1, extract_info. rewrite Hinfo. reflexivity.
Qed.

End Prelude.

(** C7. When an explicit cookie file path is supplied (a non-empty
    string) and the resolved file does not exist, [download_audio] raises
    [FileNotFoundError] with the file system, the log of library calls
    and the outside state untouched: no network activity has taken place,
    in particular no metadata extraction. *)
Theorem download_audio_missing_cookie_file {ext : Type} `{YoutubeDL ext} `{Platform}
    (url : pystr) (output_dir : Path) (path : pystr) (cookies_from_browser : option pystr)
    (js_runtimes remote_components : pyval) (w : world ext) :
  path <> [] ->
  fs_exists (w_fs w) (expanduser_resolve path) = false ->
  download_audio url output_dir (Some path) cookies_from_browser
    js_runtimes remote_components w
  = (World (w_fs w) (w_stdout w ++ [py "📥 正在下载音频..."]) (w_calls w) (w_ext w),
     Raise (Exn FileNotFoundError
              (py "Cookies 文件不存在: " ++ path_str (expanduser_resolve path)))).
Proof.
  intros Hne Hmissing. unfold download_audio.
  unfold bind at 1, print at 1. unfold bind at 1, cookies_opts.
  destruct path as [|c path]; [congruence|].
  cbn [opt_truthy default]. unfold bind at 1, path_exists.
  cbn [w_fs id]. rewrite Hmissing. reflexivity.
Qed.

Lemma download_audio_missing_cookie_file_witness :
  @download_audio nat (Sample.flaky_ydl 0 [py "/"; py "tmp"; py "My_ talk.mp3"]) Sample.posix
    (py "https://youtu.be/dQw4w9WgXcQ") [py "/"; py "tmp"] (Some (py "missing.txt"))
    (Some (py "chrome")) VNone VNone Sample.start
  = (World Sample.disk [py "📥 正在下载音频..."] [] 0%nat,
     Raise (Exn FileNotFoundError (py "Cookies 文件不存在: /missing.txt"))).
Proof.
  apply (@download_audio_missing_cookie_file nat
           (Sample.flaky_ydl 0 [py "/"; py "tmp"; py "My_ talk.mp3"]) Sample.posix
           (py "https://youtu.be/dQw4w9WgXcQ") [py "/"; py "tmp"] (py "missing.txt")
           (Some (py "chrome")) VNone VNone Sample.start).
  - discriminate.
  - reflexivity.
Defined.

Section DownloadAudio.
Context {ext : Type} `{YoutubeDL ext} `{Platform}.
Variables (url : pystr) (output_dir : Path).
Variables (cookies_path cookies_from_browser : option pystr).
Variables (js_runtimes remote_components : pyval).

(** [download_audio] by the outcome of its two preliminary steps. *)
Lemma download_audio_cases (w : world ext) :
  download_audio url output_dir cookies_path cookies_from_browser
    js_runtimes remote_components w
  = match cookies_opts cookies_path cookies_from_browser
            (World (w_fs w) (w_stdout w ++ [py "📥 正在下载音频..."]) (w_calls w) (w_ext w))
    with
    | (w1, Raise e) => (w1, Raise e)
    | (w1, Ok copts) =>
        let call := CallExtractInfo (base_opts js_runtimes remote_components copts) url in
        match ydl_extract_info (base_opts js_runtimes remote_components copts) url
                (w_fs w1) (w_ext w1)
        with
        | (fs0, x0, Raise e) => (World fs0 (w_stdout w1) (w_calls w1 ++ [call]) x0, Raise e)
        | (fs0, x0, Ok info) =>
            download_loop url output_dir (default (py "unknown") (info_title info))
              (sanitize_filename (default (py "unknown") (info_title info)))
              js_runtimes remote_components copts client_configs None
              (World fs0 (w_stdout w1) (w_calls w1 ++ [call]) x0)
        end
    end.
Proof.
  unfold download_audio.
  unfold bind at 1, print at 1. unfold bind at 1.
  destruct (cookies_opts _ _ _) as [w1 [copts|e]]; [|reflexivity].
  unfold bind at 1, extract_info. cbv zeta.
  destruct (ydl_extract_info _ url (w_fs w1) (w_ext w1)) as [[fs0 x0] [info|e]];
    reflexivity.
Qed.

(** A returned path exists in the file system of the final state. *)
Lemma download_audio_ok_exists (w w' : world ext) (p : Path) (t : pystr) :
  download_audio url output_dir cookies_path cookies_from_browser
    js_runtimes remote_components w = (w', Ok (p, t)) ->
  fs_exists (w_fs w') p = true.
Proof.
  rewrite download_audio_cases.
  destruct (cookies_opts _ _ _) as [w1 [copts|e]]; [|discriminate].
  cbv zeta.
  destruct (ydl_extract_info _ url (w_fs w1) (w_ext w1)) as [[fs0 x0] [info|e]];
    [|discriminate].
  intros Hrun.
  match type of Hrun with download_loop ?u ?o ?vt ?st ?js ?rc ?co ?cf ?le ?w0 = _ =>
    destruct (download_loop_calls u o vt st js rc co cf le w0) as (n & _ & _ & Hres)
  end.
  rewrite Hrun in Hres. cbn [fst snd] in Hres.
  destruct Hres as (_ & Heq & Hex). injection Heq as -> ->. exact Hex.
Qed.

End DownloadAudio.

(** C10. [download_audio] never returns a path that does not exist in
    the final file system.  An attempt whose download returns normally
    while the expected mp3 file is absent is a failed attempt: the loop
    goes on to the next configuration with [last_error] unchanged.  If
    all four attempts end this way, the aggregate error is raised and
    its detail is the text None. *)
Theorem download_audio_silent_failures {ext : Type} `{YoutubeDL ext} `{Platform}
    (url : pystr) (output_dir : Path) (cookies_path cookies_from_browser : option pystr)
    (js_runtimes remote_components : pyval) (w : world ext) :
  (forall (w' : world ext) (p : Path) (t : pystr),
      download_audio url output_dir cookies_path cookies_from_browser
        js_runtimes remote_components w = (w', Ok (p, t)) ->
      fs_exists (w_fs w') p = true)
  /\ forall (w1 : world ext) (copts : dict) (fs0 : file_system) (x0 : ext) (info : info_dict),
      cookies_opts cookies_path cookies_from_browser
        (World (w_fs w) (w_stdout w ++ [py "📥 正在下载音频..."]) (w_calls w) (w_ext w))
      = (w1, Ok copts) ->
      ydl_extract_info (base_opts js_runtimes remote_components copts) url
        (w_fs w1) (w_ext w1) = (fs0, x0, Ok info) ->
      let video_title := default (py "unknown") (info_title info) in
      let safe_title := sanitize_filename video_title in
      let target := audio_path output_dir safe_title in
      let opts_of :=
        ydl_opts (output_template output_dir safe_title) js_runtimes remote_components copts in
      let loop :=
        download_loop url output_dir video_title safe_title
          js_runtimes remote_components copts in
      (forall (c : dict) (rest : list dict) (le : option exn) (wl : world ext)
              (fs1 : file_system) (x1 : ext),
          ydl_download (opts_of c) [url] (w_fs wl) (w_ext wl) = (fs1, x1, Ok tt) ->
          fs_exists fs1 target = false ->
          exists wl' : world ext,
            loop (c :: rest) le wl = loop rest le wl' /\ w_fs wl' = fs1 /\ w_ext wl' = x1)
      /\ (forall (fs' : file_system) (x' : ext),
          failed_attempts url target (map opts_of client_configs) fs0 x0
            [None; None; None; None] fs' x' ->
          exists w' : world ext,
            download_audio url output_dir cookies_path cookies_from_browser
              js_runtimes remote_components w
            = (w', Raise (Exn Exception (py "❌ 所有下载方式都失败。最后错误: None")))
            /\ w_fs w' = fs' /\ w_ext w' = x').
Proof.
  split; [intros w' p t; apply download_audio_ok_exists|].
  intros w1 copts fs0 x0 info Hcookies Hinfo video_title safe_title target opts_of loop.
  split.
  - intros c rest le wl fs1 x1 Hdl Hex.
    unfold loop. rewrite download_loop_cons. cbv zeta.
    fold opts_of. fold target. rewrite Hdl, Hex.
    eexists. split; [reflexivity|]. split; reflexivity.
  - intros fs' x' Hrun.
    rewrite (download_audio_prelude _ _ _ _ _ _ _ _ _ _ _ _ Hcookies Hinfo).
    fold video_title safe_title.
    match goal with |- context [download_loop _ _ _ _ _ _ _ _ None ?w0] =>
      destruct (download_loop_failed url output_dir video_title safe_title
                  js_runtimes remote_components copts client_configs [] None w0
                  _ fs' x' Hrun) as (w2 & Hloop & Hfs & Hx & _)
    end.
    rewrite app_nil_r in Hloop. rewrite Hloop, download_loop_nil.
    exists w2. split; [reflexivity|]. split; assumption.
Qed.

Lemma download_audio_silent_failures_witness :
  exists w' : world nat,
    @download_audio nat Sample.silent_ydl Sample.posix
      (py "https://youtu.be/dQw4w9WgXcQ") [py "/"; py "tmp"] None None VNone VNone
      Sample.start
    = (w', Raise (Exn Exception (py "❌ 所有下载方式都失败。最后错误: None")))
    /\ w_fs w' = Sample.disk /\ w_ext w' = 4%nat.
Proof.
  destruct (@download_audio_silent_failures nat Sample.silent_ydl Sample.posix
              (py "https://youtu.be/dQw4w9WgXcQ") [py "/"; py "tmp"] None None VNone VNone
              Sample.start) as [_ Hsilent].
  refine (proj2 (Hsilent _ _ _ _ _ _ _) Sample.disk 4%nat _).
  - vm_compute. reflexivity.
  - reflexivity.
  - repeat (eapply fa_silent; [reflexivity | reflexivity |]). apply fa_nil.
Defined.

(** The [extractor_args] entry of the options of one attempt. *)
Lemma ydl_opts_extractor_args (template : pystr) (js_runtimes remote_components : pyval)
    (copts extractor_args : dict) :
  copts !! py "extractor_args" = None ->
  ydl_opts template js_runtimes remote_components copts extractor_args !! py "extractor_args"
  = if truthy (VDict extractor_args)
    then Some (VDict {[ py "youtube" := VDict extractor_args ]})
    else None.
Proof.
  intros Hc. unfold ydl_opts. cbv zeta.
  destruct (truthy (VDict extractor_args)); [apply lookup_insert_eq|].
  unfold with_common_opts. cbv zeta.
  rewrite lookup_union_r by exact Hc.
  destruct (truthy remote_components), (truthy js_runtimes);
    rewrite ?lookup_insert_ne by discriminate; apply lookup_empty.
Qed.

(** The options resolved for cookies never carry [extractor_args]. *)
Lemma cookies_opts_no_extractor_args {ext : Type} `{Platform}
    (cookies_path cookies_from_browser : option pystr) (w w' : world ext) (d : dict) :
  cookies_opts cookies_path cookies_from_browser w = (w', Ok d) ->
  d !! py "extractor_args" = None.
Proof.
  intros Hrun.
  destruct (cookies_opts_one_source _ _ _ _ _ Hrun) as [->|[[v ->]|[v ->]]];
    rewrite ?lookup_insert_ne by discriminate; apply lookup_empty.
Qed.

Lemma last_error_after_raise (le : option exn) (outs : list (option exn)) (e : exn) :
  last outs = Some (Some e) -> last_error_after le outs = Some e.
Proof.
  intros Hlast. apply last_Some in Hlast. destruct Hlast as [outs' ->].
  unfold last_error_after. rewrite fold_left_app. reflexivity.
Qed.

(** C1. Once the cookie options are resolved and the metadata
    extraction has returned, [download_audio] issues its downloads with
    the option dictionaries of a prefix of [client_configs], in that
    order; their [extractor_args] select the clients ios+web,
    android+web, tv+web and, for the last, nothing (the default).  If the first three
    attempts fail and the fourth produces the audio file, the path and
    title are returned and no earlier error propagates.  If all four
    fail, a single [Exception] is raised whose text ends with the detail
    of the last error raised; and an error of class [Exception] comes
    out of the loop only in that case. *)
Theorem download_audio_client_fallback {ext : Type} `{YoutubeDL ext} `{Platform}
    (url : pystr) (output_dir : Path) (cookies_path cookies_from_browser : option pystr)
    (js_runtimes remote_components : pyval)
    (w w1 : world ext) (copts : dict) (fs0 : file_system) (x0 : ext) (info : info_dict) :
  cookies_opts cookies_path cookies_from_browser
    (World (w_fs w) (w_stdout w ++ [py "📥 正在下载音频..."]) (w_calls w) (w_ext w))
  = (w1, Ok copts) ->
  ydl_extract_info (base_opts js_runtimes remote_components copts) url
    (w_fs w1) (w_ext w1) = (fs0, x0, Ok info) ->
  let video_title := default (py "unknown") (info_title info) in
  let safe_title := sanitize_filename video_title in
  let target := audio_path output_dir safe_title in
  let opts_of :=
    ydl_opts (output_template output_dir safe_title) js_runtimes remote_components copts in
  let run :=
    download_audio url output_dir cookies_path cookies_from_browser
      js_runtimes remote_components w in
  map (fun c => opts_of c !! py "extractor_args") client_configs
  = [ Some (VDict {[ py "youtube" :=
              VDict {[ py "player_client" := VList [VStr (py "ios"); VStr (py "web")] ]} ]});
      Some (VDict {[ py "youtube" :=
              VDict {[ py "player_client" := VList [VStr (py "android"); VStr (py "web")] ]} ]});
      Some (VDict {[ py "youtube" :=
              VDict {[ py "player_client" := VList [VStr (py "tv"); VStr (py "web")] ]} ]});
      None ]
  /\ (exists n : nat,
      (n <= 4)%nat
      /\ w_calls (fst run)
         = w_calls w1
           ++ CallExtractInfo (base_opts js_runtimes remote_components copts) url
              :: map (fun c => CallDownload (opts_of c) [url]) (take n client_configs))
  /\ (forall (outs : list (option exn)) (fs3 fs4 : file_system) (x3 x4 : ext),
        failed_attempts url target (map opts_of (take 3 client_configs)) fs0 x0 outs fs3 x3 ->
        ydl_download (opts_of ∅) [url] fs3 x3 = (fs4, x4, Ok tt) ->
        fs_exists fs4 target = true ->
        exists w' : world ext,
          run = (w', Ok (target, video_title)) /\ w_fs w' = fs4 /\ w_ext w' = x4)
  /\ (forall (outs : list (option exn)) (fs' : file_system) (x' : ext),
        failed_attempts url target (map opts_of client_configs) fs0 x0 outs fs' x' ->
        (exists w' : world ext,
           run = (w', Raise (aggregate_error (last_error_after None outs)))
           /\ w_fs w' = fs' /\ w_ext w' = x')
        /\ forall e : exn,
             last outs = Some (Some e) ->
             aggregate_error (last_error_after None outs)
             = Exn Exception (py "❌ 所有下载方式都失败。最后错误: " ++ exc_str e))
  /\ (forall (w' : world ext) (e : exn),
        run = (w', Raise e) ->
        is_Exception e = true ->
        exists outs : list (option exn),
          failed_attempts url target (map opts_of client_configs) fs0 x0 outs
            (w_fs w') (w_ext w')
          /\ e = aggregate_error (last_error_after None outs)).
Proof.
  intros Hcookies Hinfo video_title safe_title target opts_of run.
  assert (Hrun : run = download_loop url output_dir video_title safe_title
                         js_runtimes remote_components copts client_configs None
                         (World fs0 (w_stdout w1)
                            (w_calls w1
                             ++ [CallExtractInfo
                                   (base_opts js_runtimes remote_components copts) url]) x0))
    by (apply download_audio_prelude; assumption).
  split.
  { unfold client_configs, opts_of. cbn [map].
    rewrite !ydl_opts_extractor_args
      by (eapply cookies_opts_no_extractor_args; exact Hcookies).
    reflexivity. }
  split; [|split; [|split]].
  - destruct (download_loop_calls url output_dir video_title safe_title
                js_runtimes remote_components copts client_configs None
                (World fs0 (w_stdout w1)
                   (w_calls w1
                    ++ [CallExtractInfo
                          (base_opts js_runtimes remote_components copts) url]) x0))
      as (n & Hn & Hcalls & _).
    exists n. split; [exact Hn|]. rewrite Hrun, Hcalls.
    cbn [w_calls]. rewrite <- app_assoc. reflexivity.
  - intros outs fs3 fs4 x3 x4 Hfail Hdl Hex.
    rewrite Hrun.
    match goal with |- context [download_loop _ _ _ _ _ _ _ _ None ?w0] =>
      destruct (download_loop_failed url output_dir video_title safe_title
                  js_runtimes remote_components copts (take 3 client_configs) [∅] None w0
                  _ fs3 x3 Hfail) as (w2 & Hloop & Hfs & Hx & _)
    end.
    change (take 3 client_configs ++ [∅]) with client_configs in Hloop.
    rewrite Hloop, download_loop_cons. cbv zeta.
    fold opts_of. fold target. rewrite Hfs, Hx, Hdl, Hex.
    eexists. split; [reflexivity|]. split; reflexivity.
  - intros outs fs' x' Hfail. split.
    + rewrite Hrun.
      match goal with |- context [download_loop _ _ _ _ _ _ _ _ None ?w0] =>
        destruct (download_loop_failed url output_dir video_title safe_title
                    js_runtimes remote_components copts client_configs [] None w0
                    _ fs' x' Hfail) as (w2 & Hloop & Hfs & Hx & _)
      end.
      rewrite app_nil_r in Hloop. rewrite Hloop, download_loop_nil.
      exists w2. split; [reflexivity|]. split; assumption.
    + intros e Hlast. rewrite (last_error_after_raise None outs e Hlast). reflexivity.
  - intros w' e Hraise HisE. rewrite Hrun in Hraise.
    destruct (download_loop_raise_inv url output_dir video_title safe_title
                js_runtimes remote_components copts client_configs None _ w' e Hraise HisE)
      as (outs & Hfa & He).
    exists outs. split; [exact Hfa|exact He].
Qed.

Lemma download_audio_client_fallback_witness :
  exists w' : world nat,
    @download_audio nat (Sample.flaky_ydl 3 [py "/"; py "tmp"; py "My_ talk.mp3"]) Sample.posix
      (py "https://youtu.be/dQw4w9WgXcQ") [py "/"; py "tmp"] None None VNone VNone
      Sample.start
    = (w', Ok ([py "/"; py "tmp"; py "My_ talk.mp3"], py "My: talk"))
    /\ w_ext w' = 4%nat.
Proof.
  destruct (@download_audio_client_fallback nat
              (Sample.flaky_ydl 3 [py "/"; py "tmp"; py "My_ talk.mp3"]) Sample.posix
              (py "https://youtu.be/dQw4w9WgXcQ") [py "/"; py "tmp"] None None VNone VNone
              Sample.start
              (World Sample.disk [py "📥 正在下载音频..."; py "🍪 自动发现 cookies: /app/cookies/new.txt"]
                 [] 0%nat)
              (<[py "cookiefile" := VStr (py "/app/cookies/new.txt")]> ∅)
              Sample.disk 0%nat
              (Info (Some (py "My: talk")) (Some (py "dQw4w9WgXcQ"))))
    as (_ & _ & Hfallback & _).
  - vm_compute. reflexivity.
  - reflexivity.
  - destruct (Hfallback
                [Some (Exn DownloadError (py "ERROR: Sign in to confirm you are not a bot #0"));
                 Some (Exn DownloadError (py "ERROR: Sign in to confirm you are not a bot #1"));
                 Some (Exn DownloadError (py "ERROR: Sign in to confirm you are not a bot #2"))]
                Sample.disk
                (fs_put Sample.disk [py "/"; py "tmp"; py "My_ talk.mp3"] (py "ID3"))
                3%nat 4%nat) as (w' & Hrun & _ & Hx).
    + repeat (eapply fa_raise; [reflexivity | reflexivity |]). apply fa_nil.
    + reflexivity.
    + reflexivity.
    + exists w'. split; [exact Hrun | exact Hx].
Defined.

(** ** SRT timestamps *)


(** ** Transcript writer *)

(** C5. For every transcription result and every format tag other than
    txt, srt and both, [save_transcript] raises the unsupported-format
    [ValueError] and leaves the whole state (file system included)
    exactly as it was: nothing is created or modified. *)
Theorem save_transcript_unsupported_format {ext : Type}
    (result : transcription) (output_path : Path) (output_format : pystr)
    (w : world ext) :
  output_format <> py "txt" ->
  output_format <> py "srt" ->
  output_format <> py "both" ->
  save_transcript result output_path output_format w
  = (w, Raise (Exn ValueError (py "不支持的输出格式: " ++ output_format))).
Proof.
  intros Htxt Hsrt Hboth. unfold save_transcript.
  rewrite !bool_decide_eq_false_2 by assumption.
  reflexivity.
Qed.

Lemma save_transcript_unsupported_format_witness :
  save_transcript (Transcription (py "hello") (py "en") (Some [])) [py "out"; py "video"]
    (py "vtt") (World (FS [([py "out"], Inode true [] 0)] 0) [] [] tt)
  = (World (FS [([py "out"], Inode true [] 0)] 0) [] [] tt,
     Raise (Exn ValueError (py "不支持的输出格式: vtt"))).
Proof.
  apply (save_transcript_unsupported_format
           (Transcription (py "hello") (py "en") (Some [])) [py "out"; py "video"]
           (py "vtt") (World (FS [([py "out"], Inode true [] 0)] 0) [] [] tt));
    discriminate.
Defined.

(** *** File system lemmas *)

Section FileSysLemmas.

Lemma lookup_replace_entry (p q : Path) (i : inode) (es : list (Path * inode)) :
  lookup_entry q (replace_entry p i es)
  = if bool_decide (p = q) then Some i else lookup_entry q es.
Proof.
  induction es as [|[r j] es IH]; simpl.
  - destruct (bool_decide (p = q)); reflexivity.
  - destruct (decide (r = p)) as [->|Hrp].
    + rewrite bool_decide_eq_true_2 by reflexivity. simpl.
      destruct (bool_decide (p = q)); reflexivity.
    + rewrite (bool_decide_eq_false_2 (r = p)) by assumption. simpl.
      destruct (decide (r = q)) as [->|Hrq].
      * rewrite bool_decide_eq_true_2 by reflexivity.
        rewrite bool_decide_eq_false_2 by congruence. reflexivity.
      * rewrite (bool_decide_eq_false_2 (r = q)) by assumption. exact IH.
Qed.

Lemma fs_stat_put (fs : file_system) (p q : Path) (d : pystr) :
  fs_stat (fs_put fs p d) q
  = if bool_decide (p = q) then Some (Inode false d (fs_clock fs)) else fs_stat fs q.
Proof. unfold fs_stat, fs_put. simpl. apply lookup_replace_entry. Qed.

Lemma fs_stat_put_eq (fs : file_system) (p : Path) (d : pystr) :
  fs_stat (fs_put fs p d) p = Some (Inode false d (fs_clock fs)).
Proof. rewrite fs_stat_put, bool_decide_eq_true_2; reflexivity. Qed.

Lemma fs_stat_put_ne (fs : file_system) (p q : Path) (d : pystr) :
  p <> q -> fs_stat (fs_put fs p d) q = fs_stat fs q.
Proof. intros Hne. rewrite fs_stat_put, bool_decide_eq_false_2; [reflexivity|assumption]. Qed.

Lemma fs_stat_append_ne (fs : file_system) (p q : Path) (s : pystr) :
  p <> q -> fs_stat (fs_append fs p s) q = fs_stat fs q.
Proof.
  intros Hne. unfold fs_append.
  destruct (fs_stat fs p); apply fs_stat_put_ne; assumption.
Qed.

Lemma fs_read_append (fs : file_system) (p : Path) (c s : pystr) :
  fs_read fs p = Some c -> fs_read (fs_append fs p s) p = Some (c ++ s).
Proof.
  unfold fs_read, fs_append. intros Hr.
  destruct (fs_stat fs p) as [i|] eqn:E; [|discriminate].
  destruct (i_dir i); [discriminate|]. injection Hr as <-.
  rewrite fs_stat_put_eq. reflexivity.
Qed.

Lemma fs_read_append_ne (fs : file_system) (p q : Path) (s : pystr) :
  p <> q -> fs_read (fs_append fs p s) q = fs_read fs q.
Proof. intros Hne. unfold fs_read. rewrite fs_stat_append_ne by assumption. reflexivity. Qed.


Lemma is_dir_exists (fs : file_system) (p : Path) :
  is_dir fs p = true -> fs_exists fs p = true.
Proof.
  unfold is_dir, fs_exists. destruct (fs_stat fs p); [|discriminate].
  intros _. apply bool_decide_eq_true_2. eauto.
Qed.

(** A successful [open(p, 'w')] leaves an empty regular file at [p] and
    touches no other path. *)
Lemma fs_open_w_ok (fs : file_system) (p : Path) :
  is_dir fs p = false -> is_dir fs (path_parent p) = true ->
  fs_open_w fs p = Ok (fs_put fs p []).
Proof.
  intros Hp Hpar. unfold fs_open_w. rewrite Hp, Hpar.
  rewrite (is_dir_exists _ _ Hpar). reflexivity.
Qed.

Lemma path_parent_div (p : Path) (name : pystr) : path_parent (path_div p name) = p.
Proof. unfold path_parent, path_div. apply removelast_last. Qed.

Lemma path_name_div (p : Path) (name : pystr) : path_name (path_div p name) = name.
Proof. unfold path_name, path_div. apply last_last. Qed.

End FileSysLemmas.

Section WriterLemmas.
Context {ext : Type}.

Lemma with_suffix_ok (p : Path) (suffix : pystr) :
  path_name p <> [] ->
  with_suffix p suffix = Ok (path_div (path_parent p) (kept_name p ++ suffix)).
Proof.
  intros Hne. unfold with_suffix, kept_name.
  rewrite bool_decide_eq_false_2 by assumption. cbv zeta.
  destruct (bool_decide (name_suffix (path_name p) = [])); reflexivity.
Qed.

Lemma with_suffix_inv (p q : Path) (suffix : pystr) :
  with_suffix p suffix = Ok q ->
  path_name p <> [] /\ q = path_div (path_parent p) (kept_name p ++ suffix).
Proof.
  intros Hq. destruct (decide (path_name p = [])) as [Hnil|Hne].
  - unfold with_suffix in Hq. rewrite bool_decide_eq_true_2 in Hq by assumption.
    discriminate.
  - split; [assumption|]. rewrite with_suffix_ok in Hq by assumption. congruence.
Qed.

Lemma txt_srt_distinct (d : Path) (stem : pystr) :
  path_div d (stem ++ py ".txt") <> path_div d (stem ++ py ".srt").
Proof.
  unfold path_div. intros Heq.
  apply app_inj_tail in Heq. destruct Heq as [_ Heq].
  apply app_inv_head in Heq. discriminate.
Qed.

(** The segment loop appends one block per segment, numbered from [i]
    upwards, to the open file and changes nothing else. *)
Lemma write_segments_ok (f : Path) (segs : list segment) :
  forall (i : Z) (w : world ext) (c : pystr),
    Forall timestamps_ok segs ->
    fs_read (w_fs w) f = Some c ->
    exists (w' : world ext) (blocks : list pystr),
      write_segments f i segs w = (w', Ok tt)
      /\ fs_read (w_fs w') f = Some (c ++ concat blocks)
      /\ length blocks = length segs
      /\ (forall (k : nat) (seg : segment), segs !! k = Some seg ->
            exists b, blocks !! k = Some b /\ block_of (i + Z.of_nat k) seg b)
      /\ (forall q, q <> f -> fs_stat (w_fs w') q = fs_stat (w_fs w) q)
      /\ w_stdout w' = w_stdout w /\ w_calls w' = w_calls w /\ w_ext w' = w_ext w.
Proof.
  induction segs as [|seg rest IH]; intros i w c Hok Hread.
  - exists w, []. simpl. rewrite app_nil_r.
    repeat split; try reflexivity; try assumption.
    intros k seg Hk. rewrite lookup_nil in Hk. discriminate.
  - inversion Hok as [|? ? [[st Hst] [en Hen]] Hrest]; subst.
    set (w1 := World (fs_append (fs_append (fs_append (w_fs w) f (str_int i ++ nl)) f
                         (st ++ py " --> " ++ en ++ nl)) f
                         (strip (seg_text seg) ++ nl ++ nl))
                     (w_stdout w) (w_calls w) (w_ext w)).
    assert (Hread1 : fs_read (w_fs w1) f
                     = Some (c ++ srt_block i st en (strip (seg_text seg)))).
    { unfold w1, srt_block. simpl.
      erewrite fs_read_append;
        [|erewrite fs_read_append; [|erewrite fs_read_append; [|exact Hread]; reflexivity];
          reflexivity].
      rewrite <- !app_assoc. reflexivity. }
    destruct (IH (i + 1) w1 _ Hrest Hread1)
      as (w' & blocks & Hrun & Hr & Hlen & Hblocks & Hother & Hout & Hcalls & Hext).
    exists w', (srt_block i st en (strip (seg_text seg)) :: blocks).
    split.
    { simpl. unfold bind at 1, lift at 1. rewrite Hst.
      unfold bind at 1, lift at 1. rewrite Hen.
      unfold bind at 1, write at 1. unfold bind at 1, write at 1.
      unfold bind at 1, write at 1. simpl. exact Hrun. }
    split.
    { rewrite Hr. simpl. rewrite <- app_assoc. reflexivity. }
    split; [simpl; congruence|].
    split.
    { intros [|k] seg' Hk; simpl in Hk.
      - injection Hk as <-. eexists. split; [reflexivity|].
        exists st, en. rewrite Z.add_0_r. repeat split; assumption.
      - destruct (Hblocks k seg' Hk) as (b & Hb & Hblk).
        exists b. split; [exact Hb|].
        replace (i + Z.of_nat (S k)) with (i + 1 + Z.of_nat k) by lia. exact Hblk. }
    split.
    { intros q Hq. rewrite (Hother q Hq). unfold w1. simpl.
      rewrite !fs_stat_append_ne by congruence. reflexivity. }
    unfold w1 in *. simpl in *. repeat split; assumption.
Qed.

End WriterLemmas.



(** * Further properties *)

(** ** Filename sanitizer, continued *)

(** X1. Sanitizing is idempotent: a sanitized name is left unchanged by
    a second pass. *)
Theorem sanitize_filename_idempotent (filename : pystr) :
  sanitize_filename (sanitize_filename filename) = sanitize_filename filename.
Proof.
  rewrite !sanitize_filename_take.
  rewrite <- firstn_map, firstn_firstn, Nat.min_id.
  f_equal. rewrite map_map. apply map_ext.
  intros c. destruct (is_illegal c) eqn:E; [reflexivity|].
  rewrite E. reflexivity.
Qed.

(** ** Cookie resolver, continued *)

(** X2. A path that [find_cookie_file] returns exists, lies directly
    inside the searched directory and has a name ending in [.txt]; and
    when the directory exists, holds no cookies.txt and lists a [*.txt]
    that cannot be [stat]ed, the function returns none of the other
    files: it raises the FileNotFoundError of the [stat] of a listed
    dangling link. *)
Theorem find_cookie_file_sound (fs : file_system) (search_dir : Path) :
  (forall p : Path,
      find_cookie_file fs search_dir = Ok (Some p) ->
      fs_exists fs p = true
      /\ path_parent p = search_dir
      /\ endswith (py ".txt") (path_name p) = true)
  /\ (fs_exists fs search_dir = true ->
      fs_exists fs (path_div search_dir (py "cookies.txt")) = false ->
      forall q : Path,
        q ∈ fs_glob_suffix fs search_dir (py ".txt") -> fs_stat fs q = None ->
        exists q' : Path,
          q' ∈ fs_glob_suffix fs search_dir (py ".txt")
          /\ q' ∈ fs_links fs /\ fs_stat fs q' = None
          /\ find_cookie_file fs search_dir
             = Raise (Exn FileNotFoundError
                        (py "[Errno 2] No such file or directory: '" ++ path_str q'
                         ++ py "'"))).
Proof.
  split.
  - intros p Hfind.
    destruct (fs_exists fs search_dir) eqn:Hdir.
    2:{ unfold find_cookie_file in Hfind. rewrite Hdir in Hfind. discriminate. }
    destruct (fs_exists fs (path_div search_dir (py "cookies.txt"))) eqn:Hp.
    + unfold find_cookie_file in Hfind. rewrite Hdir in Hfind. cbn [negb] in Hfind.
      cbv zeta in Hfind. rewrite Hp in Hfind. injection Hfind as <-.
      split; [exact Hp|]. split; [apply path_parent_div|].
      rewrite path_name_div. reflexivity.
    + pose proof (find_cookie_file_returns fs search_dir _ Hfind Hdir Hp) as Hstat.
      destruct (find_cookie_file_spec fs search_dir (fun _ _ => Hstat))
        as (found & Hfind' & _ & _ & Hglob).
      rewrite Hfind in Hfind'. injection Hfind' as <-.
      destruct (Hglob Hdir Hp) as [Hin (t & Ht & _)].
      destruct (glob_inv _ _ _ _ Hin) as (Hparent & Hend & _).
      split; [|split; assumption].
      apply bool_decide_eq_true_2. unfold st_mtime in Ht.
      destruct (fs_stat fs p) as [i|]; [eexists; reflexivity|discriminate].
  - intros Hdir Hp q Hin Hq.
    destruct (find_cookie_file_raises fs search_dir q Hdir Hp Hin Hq)
      as (q' & Hin' & Hq' & Hraise).
    exists q'. split; [exact Hin'|].
    destruct (glob_inv _ _ _ _ Hin') as (_ & _ & [[i Hi]|[Hlink _]]); [congruence|].
    split; [exact Hlink|]. split; [exact Hq'|exact Hraise].
Qed.

Lemma find_cookie_file_sound_witness :
  fs_exists Sample.disk [py "/"; py "app"; py "cookies"; py "new.txt"] = true
  /\ exists q' : Path,
       q' ∈ fs_links Sample.stale_disk
       /\ find_cookie_file Sample.stale_disk [py "/"; py "app"; py "cookies"]
          = Raise (Exn FileNotFoundError
                     (py "[Errno 2] No such file or directory: '" ++ path_str q'
                      ++ py "'")).
Proof.
  split.
  - apply (proj1 (find_cookie_file_sound Sample.disk [py "/"; py "app"; py "cookies"])
             [py "/"; py "app"; py "cookies"; py "new.txt"]).
    vm_compute. reflexivity.
  - destruct (proj2 (find_cookie_file_sound Sample.stale_disk
                       [py "/"; py "app"; py "cookies"])
                eq_refl eq_refl [py "/"; py "app"; py "cookies"; py "stale.txt"])
      as (q' & _ & Hlink & _ & Hraise).
    + vm_compute. apply list_elem_of_further, list_elem_of_here.
    + reflexivity.
    + exists q'. split; assumption.
Defined.

Section StripLemmas.

Lemma lstrip_head (s : pystr) (c : char) (t : pystr) :
  lstrip s = c :: t -> isspace c = false.
Proof.
  induction s as [|x s IH]; simpl; [discriminate|].
  destruct (isspace x) eqn:E; [exact IH|].
  intros Heq. injection Heq as <- _. exact E.
Qed.

Lemma lstrip_fixed (s : pystr) :
  (forall c t, s = c :: t -> isspace c = false) -> lstrip s = s.
Proof.
  destruct s as [|x s]; [reflexivity|]. intros Hhead. simpl.
  rewrite (Hhead x s eq_refl). reflexivity.
Qed.

Lemma lstrip_idempotent (s : pystr) : lstrip (lstrip s) = lstrip s.
Proof. apply lstrip_fixed. intros c t Heq. eapply lstrip_head. exact Heq. Qed.

Lemma lstrip_suffix (s : pystr) : exists pre, s = pre ++ lstrip s.
Proof.
  induction s as [|x s [pre IH]]; [exists []; reflexivity|].
  simpl. destruct (isspace x).
  - exists (x :: pre). simpl. congruence.
  - exists []. reflexivity.
Qed.

Lemma strip_lstrip_fixed (s : pystr) : lstrip (strip s) = strip s.
Proof.
  unfold strip, rstrip.
  destruct (lstrip_suffix (rev (lstrip s))) as [pre Hpre].
  set (v := lstrip (rev (lstrip s))) in *.
  apply lstrip_fixed. intros c t Hrev.
  assert (Hu : lstrip s = rev v ++ rev pre).
  { rewrite <- (rev_involutive (lstrip s)), Hpre, rev_app_distr. reflexivity. }
  rewrite Hrev in Hu. simpl in Hu. eapply lstrip_head. exact Hu.
Qed.

Lemma strip_idempotent (s : pystr) : strip (strip s) = strip s.
Proof.
  unfold strip at 1. rewrite strip_lstrip_fixed.
  unfold rstrip, strip at 1, rstrip. rewrite rev_involutive, lstrip_idempotent.
  reflexivity.
Qed.

Lemma lstrip_elem (c : char) (s : pystr) : c ∈ lstrip s -> c ∈ s.
Proof.
  destruct (lstrip_suffix s) as [pre Hpre]. intros Hin.
  rewrite Hpre. apply elem_of_app. right. exact Hin.
Qed.

Lemma strip_elem (c : char) (s : pystr) : c ∈ strip s -> c ∈ s.
Proof.
  unfold strip, rstrip. intros Hin.
  apply list_elem_of_In, in_rev, list_elem_of_In, lstrip_elem in Hin.
  apply list_elem_of_In, in_rev, list_elem_of_In in Hin.
  apply lstrip_elem. exact Hin.
Qed.

Lemma split1_absent (c : char) (s : pystr) :
  contains_char c s = false -> split1 c s = (s, []).
Proof.
  unfold contains_char. induction s as [|x s IH]; simpl; [reflexivity|].
  intros Hno. apply orb_false_elim in Hno. destruct Hno as [Hx Hs].
  rewrite N.eqb_sym, Hx, (IH Hs). reflexivity.
Qed.

Lemma split1_before (c : char) (s : pystr) : c ∉ fst (split1 c s).
Proof.
  induction s as [|x s IH]; simpl; [apply not_elem_of_nil|].
  destruct (N.eqb_spec x c) as [->|Hne]; simpl; [apply not_elem_of_nil|].
  destruct (split1 c s) as [a b]. simpl in *.
  intros Hin. apply elem_of_cons in Hin. destruct Hin as [->|Hin]; [congruence|].
  apply IH. exact Hin.
Qed.

End StripLemmas.

(** X3. [parse_cookies_from_browser] returns a one- or two-element
    tuple whose parts are non-empty and free of surrounding whitespace,
    the browser name containing no colon; it returns None exactly when
    nothing but whitespace stands before the first colon of the spec
    (or in the whole spec, when it has no colon). *)
Theorem parse_cookies_from_browser_shape (spec : pystr) :
  (forall t : list pystr,
      parse_cookies_from_browser spec = Some t ->
      exists (browser : pystr) (more : list pystr),
        t = browser :: more
        /\ trimmed browser /\ (58%N ∉ browser)
        /\ browser = strip (fst (split1 58%N (strip spec)))
        /\ (more = [] \/ exists profile, more = [profile] /\ trimmed profile))
  /\ (parse_cookies_from_browser spec = None
      <-> strip (fst (split1 58%N (strip spec))) = []).
Proof.
  unfold parse_cookies_from_browser.
  destruct (decide (spec = [])) as [->|Hspec].
  { rewrite bool_decide_eq_true_2 by reflexivity.
    split; [discriminate|]. split; reflexivity. }
  rewrite bool_decide_eq_false_2 by assumption. cbv zeta.
  destruct (decide (strip spec = [])) as [Hblank|Hnb].
  { rewrite bool_decide_eq_true_2 by assumption.
    split; [discriminate|]. rewrite Hblank. split; reflexivity. }
  rewrite bool_decide_eq_false_2 by assumption.
  destruct (contains_char 58%N (strip spec)) eqn:Hcolon.
  - pose proof (split1_before 58%N (strip spec)) as Hbefore.
    destruct (split1 58%N (strip spec)) as [browser profile]. cbn [fst] in *.
    assert (Hnc : 58%N ∉ strip browser)
      by (intros Hin; apply Hbefore; apply strip_elem; exact Hin).
    destruct (decide (strip browser = [])) as [Hb|Hb].
    + rewrite (bool_decide_eq_true_2 _ Hb). simpl.
      split; [discriminate|]. split; [intros _; exact Hb|reflexivity].
    + rewrite (bool_decide_eq_false_2 _ Hb). simpl.
      destruct (decide (strip profile = [])) as [Hp|Hp].
      * rewrite (bool_decide_eq_true_2 _ Hp). simpl.
        split; [|split; [discriminate|congruence]].
        intros t Heq. injection Heq as <-.
        exists (strip browser), []. split; [reflexivity|].
        split; [split; [exact Hb|apply strip_idempotent]|].
        split; [exact Hnc|]. split; [reflexivity|left; reflexivity].
      * rewrite (bool_decide_eq_false_2 _ Hp). simpl.
        split; [|split; [discriminate|congruence]].
        intros t Heq. injection Heq as <-.
        exists (strip browser), [strip profile]. split; [reflexivity|].
        split; [split; [exact Hb|apply strip_idempotent]|].
        split; [exact Hnc|]. split; [reflexivity|]. right.
        exists (strip profile). split; [reflexivity|].
        split; [exact Hp|apply strip_idempotent].
  - rewrite (split1_absent _ _ Hcolon). cbn [fst]. rewrite strip_idempotent.
    split; [|split; [discriminate|congruence]].
    intros t Heq. injection Heq as <-.
    exists (strip spec), []. split; [reflexivity|].
    split; [split; [exact Hnb|apply strip_idempotent]|].
    split; [|split; [reflexivity|left; reflexivity]].
    intros Hin. unfold contains_char in Hcolon.
    apply list_elem_of_In in Hin.
    assert (Hex : existsb (N.eqb 58) (strip spec) = true)
      by (apply existsb_exists; exists 58%N; split; [exact Hin|apply N.eqb_refl]).
    congruence.
Qed.

Lemma parse_cookies_from_browser_shape_witness :
  parse_cookies_from_browser (py " chrome : Profile 1 ")
  = Some [py "chrome"; py "Profile 1"]
  /\ trimmed (py "chrome").
Proof.
  split; [reflexivity|].
  destruct (proj1 (parse_cookies_from_browser_shape (py " chrome : Profile 1 "))
              [py "chrome"; py "Profile 1"] eq_refl)
    as (browser & more & Heq & Htrim & _).
  injection Heq as <- _. exact Htrim.
Defined.

(** ** Audio downloader, continued *)

(** X4. A failure of the metadata extraction is fatal and is not
    retried: whatever it raises comes out of [download_audio] unchanged,
    and the only library call made is that extraction (no download is
    attempted). *)
Theorem download_audio_metadata_failure {ext : Type} `{YoutubeDL ext} `{Platform}
    (url : pystr) (output_dir : Path) (cookies_path cookies_from_browser : option pystr)
    (js_runtimes remote_components : pyval)
    (w w1 : world ext) (copts : dict) (fs0 : file_system) (x0 : ext) (e : exn) :
  cookies_opts cookies_path cookies_from_browser
    (World (w_fs w) (w_stdout w ++ [py "📥 正在下载音频..."]) (w_calls w) (w_ext w))
  = (w1, Ok copts) ->
  ydl_extract_info (base_opts js_runtimes remote_components copts) url
    (w_fs w1) (w_ext w1) = (fs0, x0, Raise e) ->
  download_audio url output_dir cookies_path cookies_from_browser
    js_runtimes remote_components w
  = (World fs0 (w_stdout w1)
       (w_calls w1 ++ [CallExtractInfo (base_opts js_runtimes remote_components copts) url])
       x0,
     Raise e).
Proof.
  intros Hcookies Hinfo. rewrite download_audio_cases, Hcookies. cbv zeta.
  rewrite Hinfo. reflexivity.
Qed.

Lemma download_audio_metadata_failure_witness :
  exists w' : world nat,
    @download_audio nat Sample2.offline_ydl Sample.posix
      (py "https://youtu.be/dQw4w9WgXcQ") [py "/"; py "tmp"] None None VNone VNone
      Sample.start
    = (w', Raise (Exn DownloadError (py "ERROR: Unable to download API page")))
    /\ length (w_calls w') = 1%nat.
Proof.
  eexists. split.
  - apply (@download_audio_metadata_failure nat Sample2.offline_ydl Sample.posix
             (py "https://youtu.be/dQw4w9WgXcQ") [py "/"; py "tmp"] None None VNone VNone
             Sample.start
             (World Sample.disk
                [py "📥 正在下载音频..."; py "🍪 自动发现 cookies: /app/cookies/new.txt"] [] 0%nat)
             (<[py "cookiefile" := VStr (py "/app/cookies/new.txt")]> ∅)
             Sample.disk 1%nat).
    + vm_compute. reflexivity.
    + reflexivity.
  - reflexivity.
Defined.

(** ** Transcript writer, continued *)

Section WriterFrame.
Context {ext : Type}.

Lemma fs_stat_open_w_ne (w w' : world ext) (p q : Path) (r : result unit) :
  open_w p w = (w', r) -> p <> q ->
  fs_stat (w_fs w') q = fs_stat (w_fs w) q
  /\ w_stdout w' = w_stdout w /\ w_calls w' = w_calls w /\ w_ext w' = w_ext w.
Proof.
  unfold open_w, fs_open_w. intros Hrun Hne.
  destruct (is_dir (w_fs w) p); [injection Hrun as <- _; auto|].
  destruct (negb (fs_exists (w_fs w) (path_parent p))); [injection Hrun as <- _; auto|].
  destruct (negb (is_dir (w_fs w) (path_parent p))); injection Hrun as <- _; auto.
  cbn [w_fs w_stdout w_calls w_ext]. rewrite fs_stat_put_ne by assumption. auto.
Qed.

(** The segment loop touches no path but its file, whether it finishes
    or raises. *)
Lemma write_segments_frame (f : Path) (segs : list segment) :
  forall (i : Z) (w w' : world ext) (r : result unit) (q : Path),
    write_segments f i segs w = (w', r) ->
    f <> q ->
    fs_stat (w_fs w') q = fs_stat (w_fs w) q
    /\ w_stdout w' = w_stdout w /\ w_calls w' = w_calls w /\ w_ext w' = w_ext w.
Proof.
  induction segs as [|seg rest IH]; intros i w w' r q Hrun Hne.
  - injection Hrun as <- _. auto.
  - cbn [write_segments] in Hrun. unfold bind at 1, lift at 1 in Hrun.
    destruct (format_timestamp (seg_start seg)) as [st|e]; [|injection Hrun as <- _; auto].
    unfold bind at 1, lift at 1 in Hrun.
    destruct (format_timestamp (seg_end seg)) as [en|e]; [|injection Hrun as <- _; auto].
    cbv zeta in Hrun. unfold bind at 1, write at 1 in Hrun.
    unfold bind at 1, write at 1 in Hrun. unfold bind at 1, write at 1 in Hrun.
    cbn [w_fs w_stdout w_calls w_ext] in Hrun.
    destruct (IH _ _ _ _ q Hrun Hne) as (Hs & Ho & Hc & Hx).
    cbn [w_fs w_stdout w_calls w_ext] in *.
    rewrite Hs, Ho, Hc, Hx. rewrite !fs_stat_append_ne by assumption. auto.
Qed.

Lemma write_txt_file_frame (result : transcription) (f q : Path)
    (w w' : world ext) (r : PyExc.result unit) :
  write_txt_file result f w = (w', r) ->
  f <> q ->
  fs_stat (w_fs w') q = fs_stat (w_fs w) q
  /\ w_stdout w' = w_stdout w /\ w_calls w' = w_calls w /\ w_ext w' = w_ext w.
Proof.
  unfold write_txt_file, bind. intros Hrun Hne.
  destruct (open_w f w) as [w1 [[]|e]] eqn:Hopen;
    destruct (fs_stat_open_w_ne _ _ _ _ _ Hopen Hne) as (Hs & Ho & Hc & Hx).
  - unfold write in Hrun. injection Hrun as <- _. cbn [w_fs w_stdout w_calls w_ext].
    rewrite fs_stat_append_ne by assumption. auto.
  - injection Hrun as <- _. auto.
Qed.

Lemma write_srt_file_frame (result : transcription) (f q : Path)
    (w w' : world ext) (r : PyExc.result unit) :
  write_srt_file result f w = (w', r) ->
  f <> q ->
  fs_stat (w_fs w') q = fs_stat (w_fs w) q
  /\ w_stdout w' = w_stdout w /\ w_calls w' = w_calls w /\ w_ext w' = w_ext w.
Proof.
  unfold write_srt_file. cbv zeta. unfold bind. intros Hrun Hne.
  destruct (open_w f w) as [w1 [[]|e]] eqn:Hopen;
    destruct (fs_stat_open_w_ne _ _ _ _ _ Hopen Hne) as (Hs & Ho & Hc & Hx).
  - destruct (write_segments_frame f _ 1 w1 w' r q Hrun Hne) as (Hs' & Ho' & Hc' & Hx').
    rewrite Hs', Ho', Hc', Hx'. auto.
  - injection Hrun as <- _. auto.
Qed.

End WriterFrame.

(** X5. [save_transcript] never touches a path other than its two
    possible targets (the base path with its suffix replaced by [.txt]
    and by [.srt]), whatever the format tag and whether it returns or
    raises; it makes no library call. *)
Theorem save_transcript_frame {ext : Type}
    (res : transcription) (output_path : Path) (output_format : pystr)
    (w w' : world ext) (r : result Path) (q : Path) :
  save_transcript res output_path output_format w = (w', r) ->
  q <> path_div (path_parent output_path) (kept_name output_path ++ py ".txt") ->
  q <> path_div (path_parent output_path) (kept_name output_path ++ py ".srt") ->
  fs_stat (w_fs w') q = fs_stat (w_fs w) q
  /\ w_calls w' = w_calls w /\ w_ext w' = w_ext w.
Proof.
  intros Hrun Hqt Hqs.
  assert (Htxt : forall (w0 w1 : world ext) (t : Path) (r1 : result unit),
             with_suffix output_path (py ".txt") = Ok t ->
             write_txt_file res t w0 = (w1, r1) ->
             fs_stat (w_fs w1) q = fs_stat (w_fs w0) q
             /\ w_calls w1 = w_calls w0 /\ w_ext w1 = w_ext w0).
  { intros w0 w1 t r1 Hws Hw. apply with_suffix_inv in Hws. destruct Hws as [_ ->].
    destruct (write_txt_file_frame _ _ q _ _ _ Hw) as (Hs & _ & Hc & Hx); auto. }
  assert (Hsrt : forall (w0 w1 : world ext) (t : Path) (r1 : result unit),
             with_suffix output_path (py ".srt") = Ok t ->
             write_srt_file res t w0 = (w1, r1) ->
             fs_stat (w_fs w1) q = fs_stat (w_fs w0) q
             /\ w_calls w1 = w_calls w0 /\ w_ext w1 = w_ext w0).
  { intros w0 w1 t r1 Hws Hw. apply with_suffix_inv in Hws. destruct Hws as [_ ->].
    destruct (write_srt_file_frame _ _ q _ _ _ Hw) as (Hs & _ & Hc & Hx); auto. }
  unfold save_transcript in Hrun.
  destruct (bool_decide (output_format = py "txt")).
  { unfold bind at 1, lift at 1 in Hrun.
    destruct (with_suffix output_path (py ".txt")) as [t|e] eqn:Hws;
      [|injection Hrun as <- _; auto].
    unfold bind at 1 in Hrun.
    destruct (write_txt_file res t w) as [w1 [[]|e]] eqn:Hw;
      destruct (Htxt _ _ _ _ eq_refl Hw) as (Hs & Hc & Hx);
      unfold bind, print, ret in Hrun; injection Hrun as <- _; auto. }
  destruct (bool_decide (output_format = py "srt")).
  { unfold bind at 1, lift at 1 in Hrun.
    destruct (with_suffix output_path (py ".srt")) as [t|e] eqn:Hws;
      [|injection Hrun as <- _; auto].
    unfold bind at 1 in Hrun.
    destruct (write_srt_file res t w) as [w1 [[]|e]] eqn:Hw;
      destruct (Hsrt _ _ _ _ eq_refl Hw) as (Hs & Hc & Hx);
      unfold bind, print, ret in Hrun; injection Hrun as <- _; auto. }
  destruct (bool_decide (output_format = py "both")); [|injection Hrun as <- _; auto].
  unfold bind at 1, lift at 1 in Hrun.
  destruct (with_suffix output_path (py ".txt")) as [t|e] eqn:Hws;
    [|injection Hrun as <- _; auto].
  unfold bind at 1 in Hrun.
  destruct (write_txt_file res t w) as [w1 [[]|e]] eqn:Hw;
    destruct (Htxt _ _ _ _ eq_refl Hw) as (Hs & Hc & Hx);
    [|injection Hrun as <- _; auto].
  unfold bind at 1, print at 1 in Hrun. unfold bind at 1, lift at 1 in Hrun.
  destruct (with_suffix output_path (py ".srt")) as [t2|e] eqn:Hws2;
    [|injection Hrun as <- _; auto].
  unfold bind at 1 in Hrun.
  match type of Hrun with context [write_srt_file res t2 ?w2] =>
    destruct (write_srt_file res t2 w2) as [w3 [[]|e]] eqn:Hw2;
      destruct (Hsrt _ _ _ _ eq_refl Hw2) as (Hs2 & Hc2 & Hx2) end;
    cbn [w_fs w_calls w_ext] in *;
    unfold bind, print, ret in Hrun; injection Hrun as <- _;
    cbn [w_fs w_calls w_ext]; rewrite Hs2, Hc2, Hx2; auto.
Qed.

Lemma save_transcript_frame_witness :
  fs_stat
    (w_fs (fst (save_transcript (ext := unit)
                  (Transcription (py "hello") (py "en") None) [py "out"; py "video"]
                  (py "both")
                  (World (FS [([py "out"], Inode true [] 0);
                              ([py "out"; py "notes.md"], Inode false (py "keep") 1)] 7)
                     [] [] tt))))
    [py "out"; py "notes.md"]
  = Some (Inode false (py "keep") 1).
Proof.
  refine (proj1 (save_transcript_frame
                   (Transcription (py "hello") (py "en") None) [py "out"; py "video"]
                   (py "both")
                   (World (FS [([py "out"], Inode true [] 0);
                               ([py "out"; py "notes.md"], Inode false (py "keep") 1)] 7)
                      [] [] tt) _ _ [py "out"; py "notes.md"] _ _ _)).
  - apply surjective_pairing.
  - discriminate.
  - discriminate.
Defined.

Section WriterRuns.
Context {ext : Type}.

(** The segment loop stops at the first segment whose times cannot be
    rendered; the blocks of the segments before it are in the file. *)
Lemma write_segments_fail (f : Path) (pre : list segment) (bad : segment)
    (rest : list segment) (e : exn) :
  Forall timestamps_ok pre ->
  seg_fails bad e ->
  forall (i : Z) (w : world ext) (c : pystr),
    fs_read (w_fs w) f = Some c ->
    exists (w' : world ext) (blocks : list pystr),
      write_segments f i (pre ++ bad :: rest) w = (w', Raise e)
      /\ fs_read (w_fs w') f = Some (c ++ concat blocks)
      /\ length blocks = length pre
      /\ forall (k : nat) (seg : segment), pre !! k = Some seg ->
           exists b, blocks !! k = Some b /\ block_of (i + Z.of_nat k) seg b.
Proof.
  intros Hok Hbad. induction Hok as [|seg pre [[st Hst] [en Hen]] _ IH]; intros i w c Hread.
  - exists w, []. simpl app. rewrite app_nil_r.
    split.
    { cbn [write_segments]. unfold bind at 1, lift at 1.
      destruct Hbad as [Hs|[[s Hs] He]]; rewrite Hs; [reflexivity|].
      unfold bind at 1, lift at 1. rewrite He. reflexivity. }
    split; [exact Hread|]. split; [reflexivity|].
    intros k seg Hk. rewrite lookup_nil in Hk. discriminate.
  - set (w1 := World (fs_append (fs_append (fs_append (w_fs w) f (str_int i ++ nl)) f
                         (st ++ py " --> " ++ en ++ nl)) f
                         (strip (seg_text seg) ++ nl ++ nl))
                     (w_stdout w) (w_calls w) (w_ext w)).
    assert (Hread1 : fs_read (w_fs w1) f
                     = Some (c ++ srt_block i st en (strip (seg_text seg)))).
    { unfold w1, srt_block. cbn [w_fs].
      erewrite fs_read_append;
        [|erewrite fs_read_append; [|erewrite fs_read_append; [|exact Hread]; reflexivity];
          reflexivity].
      rewrite <- !app_assoc. reflexivity. }
    destruct (IH (i + 1) w1 _ Hread1) as (w' & blocks & Hrun & Hr & Hlen & Hblocks).
    exists w', (srt_block i st en (strip (seg_text seg)) :: blocks).
    split.
    { simpl app. cbn [write_segments]. unfold bind at 1, lift at 1. rewrite Hst.
      unfold bind at 1, lift at 1. rewrite Hen. cbv zeta.
      unfold bind at 1, write at 1. unfold bind at 1, write at 1.
      unfold bind at 1, write at 1. exact Hrun. }
    split.
    { rewrite Hr. simpl. rewrite <- app_assoc. reflexivity. }
    split; [simpl; congruence|].
    intros [|k] seg' Hk; simpl in Hk.
    + injection Hk as <-. eexists. split; [reflexivity|].
      exists st, en. rewrite Z.add_0_r. repeat split; assumption.
    + destruct (Hblocks k seg' Hk) as (b & Hb & Hblk).
      exists b. split; [exact Hb|].
      replace (i + Z.of_nat (S k)) with (i + 1 + Z.of_nat k) by lia. exact Hblk.
Qed.

End WriterRuns.

(** X6. No partial output is cleaned up: when, with the tag srt, the
    times of some segment cannot be rendered (a NaN or infinite time),
    [save_transcript] raises that error and leaves the .srt file holding
    exactly the blocks of the segments before it. *)
Theorem save_transcript_srt_partial {ext : Type}
    (res : transcription) (output_path : Path) (w : world ext)
    (pre : list segment) (bad : segment) (rest : list segment) (e : exn) :
  let srt_file := path_div (path_parent output_path) (kept_name output_path ++ py ".srt") in
  path_name output_path <> [] ->
  is_dir (w_fs w) (path_parent output_path) = true ->
  is_dir (w_fs w) srt_file = false ->
  segments res = Some (pre ++ bad :: rest) ->
  Forall timestamps_ok pre ->
  seg_fails bad e ->
  exists (w' : world ext) (blocks : list pystr),
    save_transcript res output_path (py "srt") w = (w', Raise e)
    /\ fs_read (w_fs w') srt_file = Some (concat blocks)
    /\ length blocks = length pre
    /\ forall (k : nat) (seg : segment), pre !! k = Some seg ->
         exists b, blocks !! k = Some b /\ block_of (1 + Z.of_nat k) seg b.
Proof.
  intros srt_file Hname Hpar Hsrt Hsegs Hok Hbad.
  assert (Hws := with_suffix_ok output_path (py ".srt") Hname). fold srt_file in Hws.
  assert (Hps : path_parent srt_file = path_parent output_path) by apply path_parent_div.
  set (w2 := World (fs_put (w_fs w) srt_file []) (w_stdout w) (w_calls w) (w_ext w)).
  assert (Hr2 : fs_read (w_fs w2) srt_file = Some []).
  { unfold w2, fs_read. cbn [w_fs]. rewrite fs_stat_put_eq. reflexivity. }
  destruct (write_segments_fail srt_file pre bad rest e Hok Hbad 1 w2 [] Hr2)
    as (w3 & blocks & Hrun & Hr3 & Hlen & Hblocks).
  exists w3, blocks. split; [|split; [exact Hr3|split; [exact Hlen|exact Hblocks]]].
  unfold save_transcript.
  rewrite (bool_decide_eq_false_2 (py "srt" = py "txt")) by discriminate.
  rewrite (bool_decide_eq_true_2 (py "srt" = py "srt")) by reflexivity.
  unfold bind at 1, lift at 1. rewrite Hws.
  unfold bind at 1, write_srt_file, bind at 1, open_w at 1.
  rewrite fs_open_w_ok by (rewrite ?Hps; assumption).
  rewrite Hsegs. cbn [default from_option id].
  match goal with
  | |- context [write_segments ?f ?i ?s ?ww] =>
      replace (write_segments f i s ww) with (w3, @Raise unit e)
        by (symmetry; exact Hrun)
  end.
  reflexivity.
Qed.

Lemma save_transcript_srt_partial_witness :
  exists (w' : world unit) (blocks : list pystr),
    save_transcript
      (Transcription (py "a b") (py "en")
         (Some ([Segment (PyInt 0) (PyInt 1) (py " a ")]
                ++ Segment (PyFloat S754_nan) (PyInt 2) (py " b ") :: [])))
      [py "out"; py "video"] (py "srt")
      (World (FS [([py "out"], Inode true [] 0)] 0) [] [] tt)
    = (w', Raise (Exn ValueError (py "cannot convert float NaN to integer")))
    /\ fs_read (w_fs w') [py "out"; py "video.srt"] = Some (concat blocks)
    /\ length blocks = 1%nat.
Proof.
  destruct (save_transcript_srt_partial
              (Transcription (py "a b") (py "en")
                 (Some ([Segment (PyInt 0) (PyInt 1) (py " a ")]
                        ++ Segment (PyFloat S754_nan) (PyInt 2) (py " b ") :: [])))
              [py "out"; py "video"]
              (World (FS [([py "out"], Inode true [] 0)] 0) [] [] tt)
              [Segment (PyInt 0) (PyInt 1) (py " a ")]
              (Segment (PyFloat S754_nan) (PyInt 2) (py " b ")) []
              (Exn ValueError (py "cannot convert float NaN to integer")))
    as (w' & blocks & Hrun & Hread & Hlen & _).
  - discriminate.
  - reflexivity.
  - reflexivity.
  - reflexivity.
  - repeat constructor; eexists; vm_compute; reflexivity.
  - left. vm_compute. reflexivity.
  - exists w', blocks. repeat split; assumption.
Defined.

Section TextRuns.
Context {ext : Type}.

(** The run of [save_transcript] with the tag txt on a writable target:
    the file is truncated, the trimmed text appended, one line printed. *)
Lemma save_transcript_txt_run (res : transcription) (output_path : Path) (w : world ext) :
  let txt_file := path_div (path_parent output_path) (kept_name output_path ++ py ".txt") in
  path_name output_path <> [] ->
  is_dir (w_fs w) (path_parent output_path) = true ->
  is_dir (w_fs w) txt_file = false ->
  save_transcript res output_path (py "txt") w
  = (World (fs_append (fs_put (w_fs w) txt_file []) txt_file (strip (text res)))
       (w_stdout w ++ [py "📄 文本文件已保存: " ++ path_str txt_file])
       (w_calls w) (w_ext w), Ok txt_file).
Proof.
  intros txt_file Hname Hpar Htxt.
  assert (Hws := with_suffix_ok output_path (py ".txt") Hname). fold txt_file in Hws.
  assert (Hpt : path_parent txt_file = path_parent output_path) by apply path_parent_div.
  unfold save_transcript.
  rewrite (bool_decide_eq_true_2 (py "txt" = py "txt")) by reflexivity.
  unfold bind at 1, lift at 1. rewrite Hws.
  unfold bind at 1, write_txt_file, bind at 1, open_w at 1.
  rewrite fs_open_w_ok by (rewrite ?Hpt; assumption).
  reflexivity.
Qed.

Lemma fs_read_fresh_append (fs : file_system) (p : Path) (s : pystr) :
  fs_read (fs_append (fs_put fs p []) p s) p = Some s.
Proof.
  apply (fs_read_append _ _ []). unfold fs_read. rewrite fs_stat_put_eq. reflexivity.
Qed.

End TextRuns.

(** X7. With the tag txt and a writable target, [save_transcript]
    returns the .txt path, the file holds exactly the trimmed text, one
    progress line is printed, and no .srt file is created or changed. *)
Theorem save_transcript_txt {ext : Type}
    (res : transcription) (output_path : Path) (w : world ext) :
  let txt_file := path_div (path_parent output_path) (kept_name output_path ++ py ".txt") in
  let srt_file := path_div (path_parent output_path) (kept_name output_path ++ py ".srt") in
  path_name output_path <> [] ->
  is_dir (w_fs w) (path_parent output_path) = true ->
  is_dir (w_fs w) txt_file = false ->
  exists w' : world ext,
    save_transcript res output_path (py "txt") w = (w', Ok txt_file)
    /\ fs_read (w_fs w') txt_file = Some (strip (text res))
    /\ w_stdout w' = w_stdout w ++ [py "📄 文本文件已保存: " ++ path_str txt_file]
    /\ fs_stat (w_fs w') srt_file = fs_stat (w_fs w) srt_file.
Proof.
  intros txt_file srt_file Hname Hpar Htxt.
  eexists. split; [apply save_transcript_txt_run; assumption|]. cbn [w_fs w_stdout].
  split; [apply fs_read_fresh_append|].
  split; [reflexivity|].
  rewrite fs_stat_append_ne, fs_stat_put_ne by apply txt_srt_distinct. reflexivity.
Qed.

Lemma save_transcript_txt_witness :
  exists w' : world unit,
    save_transcript (Transcription (py " hi there ") (py "en") None)
      [py "out"; py "video"] (py "txt")
      (World (FS [([py "out"], Inode true [] 0)] 0) [] [] tt)
    = (w', Ok [py "out"; py "video.txt"])
    /\ fs_read (w_fs w') [py "out"; py "video.txt"] = Some (py "hi there")
    /\ fs_stat (w_fs w') [py "out"; py "video.srt"] = None.
Proof.
  destruct (save_transcript_txt (Transcription (py " hi there ") (py "en") None)
              [py "out"; py "video"]
              (World (FS [([py "out"], Inode true [] 0)] 0) [] [] tt))
    as (w' & Hrun & Hread & _ & Hsrt).
  - discriminate.
  - reflexivity.
  - reflexivity.
  - exists w'. split; [exact Hrun|]. split; [exact Hread|exact Hsrt].
Defined.

(** X8. With the tag srt, a writable target and renderable times,
    [save_transcript] returns the .srt path; the file is the
    concatenation of one block per segment, numbered from 1 (an absent
    [segments] key gives an empty file); no .txt file is created or
    changed. *)
Theorem save_transcript_srt {ext : Type}
    (res : transcription) (output_path : Path) (w : world ext) :
  let txt_file := path_div (path_parent output_path) (kept_name output_path ++ py ".txt") in
  let srt_file := path_div (path_parent output_path) (kept_name output_path ++ py ".srt") in
  let segs := default [] (segments res) in
  path_name output_path <> [] ->
  is_dir (w_fs w) (path_parent output_path) = true ->
  is_dir (w_fs w) srt_file = false ->
  Forall timestamps_ok segs ->
  exists (w' : world ext) (blocks : list pystr),
    save_transcript res output_path (py "srt") w = (w', Ok srt_file)
    /\ fs_read (w_fs w') srt_file = Some (concat blocks)
    /\ length blocks = length segs
    /\ (forall (k : nat) (seg : segment), segs !! k = Some seg ->
          exists b, blocks !! k = Some b /\ block_of (1 + Z.of_nat k) seg b)
    /\ fs_stat (w_fs w') txt_file = fs_stat (w_fs w) txt_file.
Proof.
  intros txt_file srt_file segs Hname Hpar Hsrt Hts.
  assert (Hws := with_suffix_ok output_path (py ".srt") Hname). fold srt_file in Hws.
  assert (Hps : path_parent srt_file = path_parent output_path) by apply path_parent_div.
  set (w2 := World (fs_put (w_fs w) srt_file []) (w_stdout w) (w_calls w) (w_ext w)).
  assert (Hr2 : fs_read (w_fs w2) srt_file = Some []).
  { unfold w2, fs_read. cbn [w_fs]. rewrite fs_stat_put_eq. reflexivity. }
  destruct (write_segments_ok srt_file segs 1 w2 [] Hts Hr2)
    as (w3 & blocks & Hrun & Hr3 & Hlen & Hblocks & Hother & _).
  exists (World (w_fs w3) (w_stdout w3 ++ [py "📄 字幕文件已保存: " ++ path_str srt_file])
                (w_calls w3) (w_ext w3)), blocks.
  split.
  { unfold save_transcript.
    rewrite (bool_decide_eq_false_2 (py "srt" = py "txt")) by discriminate.
    rewrite (bool_decide_eq_true_2 (py "srt" = py "srt")) by reflexivity.
    unfold bind at 1, lift at 1. rewrite Hws.
    unfold bind at 1, write_srt_file, bind at 1, open_w at 1.
    rewrite fs_open_w_ok by (rewrite ?Hps; assumption).
    match goal with
    | |- context [write_segments ?f ?i ?s ?ww] =>
        replace (write_segments f i s ww) with (w3, @Ok unit tt)
          by (symmetry; exact Hrun)
    end.
    reflexivity. }
  cbn [w_fs]. split; [exact Hr3|]. split; [exact Hlen|]. split; [exact Hblocks|].
  assert (Hdiff : txt_file <> srt_file) by apply txt_srt_distinct.
  rewrite Hother by exact Hdiff.
  unfold w2. cbn [w_fs]. apply fs_stat_put_ne. congruence.
Qed.

Lemma save_transcript_srt_witness :
  exists (w' : world unit) (blocks : list pystr),
    save_transcript
      (Transcription (py "a") (py "en")
         (Some [Segment (PyInt 0) (PyFloat (float_lit 15 1)) (py " a ")]))
      [py "out"; py "video"] (py "srt")
      (World (FS [([py "out"], Inode true [] 0)] 0) [] [] tt)
    = (w', Ok [py "out"; py "video.srt"])
    /\ fs_read (w_fs w') [py "out"; py "video.srt"] = Some (concat blocks)
    /\ length blocks = 1%nat.
Proof.
  destruct (save_transcript_srt
              (Transcription (py "a") (py "en")
                 (Some [Segment (PyInt 0) (PyFloat (float_lit 15 1)) (py " a ")]))
              [py "out"; py "video"]
              (World (FS [([py "out"], Inode true [] 0)] 0) [] [] tt))
    as (w' & blocks & Hrun & Hread & Hlen & _).
  - discriminate.
  - reflexivity.
  - reflexivity.
  - repeat constructor; eexists; vm_compute; reflexivity.
  - exists w', blocks. repeat split; assumption.
Defined.

Section DottedNames.

Lemma rfind_absent (c : char) (s : pystr) : c ∉ s -> rfind c s = None.
Proof.
  induction s as [|x s IH]; intros Hnot; [reflexivity|].
  simpl. rewrite IH by (intros Hin; apply Hnot; apply list_elem_of_further; exact Hin).
  destruct (N.eqb_spec x c) as [->|Hne]; [|reflexivity].
  exfalso. apply Hnot. apply list_elem_of_here.
Qed.

Lemma rfind_last_dot (a b : pystr) :
  46%N ∉ b -> rfind 46%N (a ++ 46%N :: b) = Some (length a).
Proof.
  intros Hb. induction a as [|x a IH]; simpl.
  - rewrite rfind_absent by exact Hb. reflexivity.
  - rewrite IH. reflexivity.
Qed.

(** The name kept by [with_suffix] stops at the last dot that is
    neither first nor last in the name. *)
Lemma kept_name_dotted (dir : Path) (a b : pystr) :
  a <> [] -> b <> [] -> 46%N ∉ b ->
  kept_name (path_div dir (a ++ 46%N :: b)) = a.
Proof.
  intros Ha Hb Hdot. unfold kept_name. rewrite path_name_div. cbv zeta.
  unfold name_suffix. rewrite rfind_last_dot by exact Hdot.
  assert (Hla : (0 < length a)%nat) by (destruct a; [congruence|simpl; lia]).
  assert (Hlb : (0 < length b)%nat) by (destruct b; [congruence|simpl; lia]).
  assert (Hcond : ((0 <? length a) && (length a <? length (a ++ 46%N :: b) - 1))%nat = true).
  { rewrite length_app. simpl length.
    apply andb_true_intro. split; apply Nat.ltb_lt; lia. }
  rewrite Hcond. rewrite drop_app_length.
  rewrite bool_decide_eq_false_2 by discriminate.
  rewrite length_app. simpl length.
  replace (length a + S (length b) - S (length b))%nat with (length a) by lia.
  apply take_app_length.
Qed.

End DottedNames.

(** X9. The transcript is named after the title only up to its last
    interior dot: for a base path whose name is [a.b] ([a] and [b]
    non-empty, no dot in [b]) the text file written is [a.txt], so what
    follows the last dot of the title is lost from the file name. *)
Theorem save_transcript_dotted_title {ext : Type}
    (res : transcription) (dir : Path) (a b : pystr) (w : world ext) :
  a <> [] -> b <> [] -> 46%N ∉ b ->
  is_dir (w_fs w) dir = true ->
  is_dir (w_fs w) (path_div dir (a ++ py ".txt")) = false ->
  exists w' : world ext,
    save_transcript res (path_div dir (a ++ py "." ++ b)) (py "txt") w
    = (w', Ok (path_div dir (a ++ py ".txt")))
    /\ fs_read (w_fs w') (path_div dir (a ++ py ".txt")) = Some (strip (text res)).
Proof.
  intros Ha Hb Hdot Hdir Htxt.
  change (a ++ py "." ++ b) with (a ++ 46%N :: b).
  pose proof (save_transcript_txt_run res (path_div dir (a ++ 46%N :: b)) w) as Hrun.
  cbv zeta in Hrun.
  rewrite path_parent_div, kept_name_dotted in Hrun by assumption.
  eexists. split.
  - apply Hrun; [rewrite path_name_div; destruct a; [congruence|discriminate]| |];
      assumption.
  - cbn [w_fs]. apply fs_read_fresh_append.
Qed.

Lemma save_transcript_dotted_title_witness :
  exists w' : world unit,
    save_transcript (Transcription (py "x") (py "en") None)
      [py "out"; py "Dr. Strange"] (py "txt")
      (World (FS [([py "out"], Inode true [] 0)] 0) [] [] tt)
    = (w', Ok [py "out"; py "Dr.txt"]).
Proof.
  destruct (save_transcript_dotted_title (Transcription (py "x") (py "en") None)
              [py "out"] (py "Dr") (py " Strange")
              (World (FS [([py "out"], Inode true [] 0)] 0) [] [] tt))
    as (w' & Hrun & _).
  - discriminate.
  - discriminate.
  - intros Hin. vm_compute in Hin.
    repeat (apply elem_of_cons in Hin as [Hin|Hin]; [discriminate|]).
    apply elem_of_nil in Hin. exact Hin.
  - reflexivity.
  - reflexivity.
  - exists w'. exact Hrun.
Defined.

(** ** Runtime and component resolver *)

Example split_ex :
  split 44%N (py "a,b,,c") = [py "a"; py "b"; []; py "c"]
  /\ split 44%N [] = [[]] /\ split 44%N (py ",") = [[]; []].
Proof. repeat split; reflexivity. Qed.

Example parse_js_runtimes_ex :
  parse_js_runtimes (Some (py "node:C:\node.exe, deno , :x, deno:"))
  = Some [(py "node", VDict {[ py "path" := VStr (py "C:\node.exe") ]});
          (py "deno", VDict ∅)]
  /\ parse_js_runtimes (Some (py " , :/usr/bin/x ,")) = None
  /\ parse_js_runtimes None = None.
Proof. repeat split; reflexivity. Qed.

Section SplitLemmas.

Lemma split_nonempty (sep : char) (s : pystr) : split sep s <> [].
Proof.
  destruct s as [|c s]; simpl; [discriminate|].
  destruct (c =? sep)%N; [discriminate|].
  destruct (split sep s); discriminate.
Qed.

Lemma split_no_sep (sep : char) (s p : pystr) : p ∈ split sep s -> sep ∉ p.
Proof.
  revert p. induction s as [|c s IH]; intros p; simpl.
  - intros Hin. apply list_elem_of_singleton in Hin. subst p. apply not_elem_of_nil.
  - destruct (N.eqb_spec c sep) as [->|Hne].
    + intros Hin. apply elem_of_cons in Hin. destruct Hin as [->|Hin];
        [apply not_elem_of_nil|apply IH; exact Hin].
    + pose proof (split_nonempty sep s) as Hne'.
      destruct (split sep s) as [|q qs]; [congruence|].
      intros Hin. apply elem_of_cons in Hin. destruct Hin as [->|Hin].
      * intros Hc. apply elem_of_cons in Hc. destruct Hc as [Hc|Hc]; [congruence|].
        revert Hc. apply IH. apply list_elem_of_here.
      * apply IH. apply list_elem_of_further. exact Hin.
Qed.

Lemma split_elem (sep c : char) (s p : pystr) : p ∈ split sep s -> c ∈ p -> c ∈ s.
Proof.
  revert p. induction s as [|x s IH]; intros p; simpl.
  - intros Hin. apply list_elem_of_singleton in Hin. subst p. intros Hc. exact Hc.
  - destruct (N.eqb_spec x sep) as [->|Hne].
    + intros Hin Hc. apply list_elem_of_further.
      apply elem_of_cons in Hin. destruct Hin as [->|Hin].
      * apply elem_of_nil in Hc. contradiction.
      * eapply IH; eassumption.
    + pose proof (split_nonempty sep s) as Hne'.
      destruct (split sep s) as [|q qs]; [congruence|].
      intros Hin Hc. apply elem_of_cons in Hin. destruct Hin as [->|Hin].
      * apply elem_of_cons in Hc. destruct Hc as [->|Hc]; [apply list_elem_of_here|].
        apply list_elem_of_further. apply (IH q); [apply list_elem_of_here|exact Hc].
      * apply list_elem_of_further. apply (IH p); [|exact Hc].
        apply list_elem_of_further. exact Hin.
Qed.

Lemma split1_elem (sep c : char) (s : pystr) :
  c ∈ fst (split1 sep s) \/ c ∈ snd (split1 sep s) -> c ∈ s.
Proof.
  induction s as [|x s IH]; simpl.
  - intros [Hc|Hc]; exact Hc.
  - destruct (x =? sep)%N; simpl.
    + intros [Hc|Hc]; [apply elem_of_nil in Hc; contradiction|].
      apply list_elem_of_further. exact Hc.
    + destruct (split1 sep s) as [a b]. simpl in *. intros [Hc|Hc].
      * apply elem_of_cons in Hc. destruct Hc as [->|Hc]; [apply list_elem_of_here|].
        apply list_elem_of_further. apply IH. left. exact Hc.
      * apply list_elem_of_further. apply IH. right. exact Hc.
Qed.

(** The parts kept by the comprehension are trimmed and comma-free. *)
Lemma stripped_parts_spec (spec x : pystr) :
  x ∈ stripped_parts spec
  <-> x <> [] /\ exists part, part ∈ split 44%N spec /\ x = strip part.
Proof.
  unfold stripped_parts. rewrite list_elem_of_filter. split.
  - intros [Hne Hin]. split; [exact Hne|].
    apply list_elem_of_fmap in Hin. destruct Hin as (part & -> & Hin). eauto.
  - intros [Hne (part & Hin & ->)]. split; [exact Hne|].
    apply list_elem_of_fmap. eauto.
Qed.

Lemma stripped_parts_good (spec x : pystr) :
  x ∈ stripped_parts spec -> trimmed x /\ 44%N ∉ x.
Proof.
  intros Hin. apply stripped_parts_spec in Hin. destruct Hin as [Hne (part & Hin & ->)].
  split; [split; [exact Hne|apply strip_idempotent]|].
  intros Hc. apply strip_elem in Hc. revert Hc. apply (split_no_sep _ _ _ Hin).
Qed.

End SplitLemmas.

Section OdictLemmas.

Lemma odict_set_nonempty (k : pystr) (v : pyval) (d : odict) : odict_set k v d <> [].
Proof. destruct d as [|[k' v'] d]; simpl; [|destruct (bool_decide (k' = k))]; discriminate. Qed.

Lemma odict_set_Forall (Q : pystr * pyval -> Prop) (k : pystr) (v : pyval) (d : odict) :
  Q (k, v) -> Forall Q d -> Forall Q (odict_set k v d).
Proof.
  intros Hq. induction 1 as [|[k' v'] d Hx Hd IH]; simpl.
  - constructor; [exact Hq|constructor].
  - destruct (bool_decide (k' = k)); constructor; assumption.
Qed.

Lemma odict_set_key_elem (k k0 : pystr) (v : pyval) (d : odict) :
  k0 ∈ map fst (odict_set k v d) -> k0 = k \/ k0 ∈ map fst d.
Proof.
  induction d as [|[k' v'] d IH]; simpl.
  - intros Hin. apply list_elem_of_singleton in Hin. left. exact Hin.
  - destruct (decide (k' = k)) as [->|Hne].
    + rewrite bool_decide_eq_true_2 by reflexivity. simpl. intros Hin. right. exact Hin.
    + rewrite bool_decide_eq_false_2 by assumption. simpl. intros Hin.
      apply elem_of_cons in Hin. destruct Hin as [->|Hin].
      * right. apply list_elem_of_here.
      * destruct (IH Hin) as [->|Hd]; [left; reflexivity|].
        right. apply list_elem_of_further. exact Hd.
Qed.

Lemma odict_set_NoDup (k : pystr) (v : pyval) (d : odict) :
  NoDup (map fst d) -> NoDup (map fst (odict_set k v d)).
Proof.
  induction d as [|[k' v'] d IH]; simpl; intros Hnd.
  - constructor; [apply not_elem_of_nil|constructor].
  - apply NoDup_cons in Hnd. destruct Hnd as [Hnot Hnd].
    destruct (decide (k' = k)) as [->|Hne].
    + rewrite bool_decide_eq_true_2 by reflexivity. simpl.
      apply NoDup_cons. split; assumption.
    + rewrite bool_decide_eq_false_2 by assumption. simpl.
      apply NoDup_cons. split; [|apply IH; exact Hnd].
      intros Hin. apply odict_set_key_elem in Hin. destruct Hin as [->|Hin]; congruence.
Qed.

End OdictLemmas.

Section RuntimeLemmas.

Lemma contains_char_false (c : char) (s : pystr) : contains_char c s = false -> c ∉ s.
Proof.
  unfold contains_char. intros Hno Hin. apply list_elem_of_In in Hin.
  assert (existsb (N.eqb c) s = true)
    by (apply existsb_exists; exists c; split; [exact Hin|apply N.eqb_refl]).
  congruence.
Qed.

Lemma add_runtime_keeps (runtimes : odict) (part : pystr) :
  trimmed part -> 44%N ∉ part ->
  NoDup (map fst runtimes) /\ Forall runtime_entry runtimes ->
  NoDup (map fst (add_runtime runtimes part))
  /\ Forall runtime_entry (add_runtime runtimes part).
Proof.
  intros Htrim Hcomma [Hnd Hall]. unfold add_runtime.
  destruct (contains_char 58%N part) eqn:Hcolon.
  - pose proof (split1_before 58%N part) as Hbefore.
    pose proof (split1_elem 58%N 44%N part) as Helem.
    destruct (split1 58%N part) as [name path]. cbn [fst snd] in *.
    destruct (decide (strip name = [])) as [Hn|Hn].
    { rewrite (bool_decide_eq_true_2 _ Hn). simpl. split; assumption. }
    rewrite (bool_decide_eq_false_2 _ Hn). simpl.
    split; [apply odict_set_NoDup; exact Hnd|].
    apply odict_set_Forall; [|exact Hall].
    split; [split; [exact Hn|apply strip_idempotent]|]. cbn [fst snd].
    split; [intros Hc; apply strip_elem in Hc; apply Hcomma, Helem; left; exact Hc|].
    split; [intros Hc; apply strip_elem in Hc; apply Hbefore; exact Hc|].
    destruct (decide (strip path = [])) as [Hp|Hp].
    + rewrite (bool_decide_eq_true_2 _ Hp). left. reflexivity.
    + rewrite (bool_decide_eq_false_2 _ Hp). right. exists (strip path).
      split; [split; [exact Hp|apply strip_idempotent]|].
      split; [|reflexivity].
      intros Hc. apply strip_elem in Hc. apply Hcomma, Helem. right. exact Hc.
  - split; [apply odict_set_NoDup; exact Hnd|].
    apply odict_set_Forall; [|exact Hall].
    split; [exact Htrim|]. cbn [fst snd].
    split; [exact Hcomma|]. split; [apply contains_char_false; exact Hcolon|].
    left. reflexivity.
Qed.

Lemma fold_add_runtime_keeps (parts : list pystr) :
  forall runtimes : odict,
    Forall (fun p => trimmed p /\ 44%N ∉ p) parts ->
    NoDup (map fst runtimes) /\ Forall runtime_entry runtimes ->
    NoDup (map fst (fold_left add_runtime parts runtimes))
    /\ Forall runtime_entry (fold_left add_runtime parts runtimes).
Proof.
  induction parts as [|p parts IH]; intros runtimes Hparts Hinv; [exact Hinv|].
  inversion Hparts as [|? ? [Htrim Hc] Hrest]; subst. simpl.
  apply IH; [exact Hrest|]. apply add_runtime_keeps; assumption.
Qed.

End RuntimeLemmas.

(** X10. [parse_js_runtimes] never returns an empty dictionary (it
    returns None instead, also for a missing or blank spec); in a
    returned dictionary the runtime names are distinct, trimmed and
    free of commas and colons, and every value is the empty dictionary
    or holds one trimmed, comma-free [path]. *)
Theorem parse_js_runtimes_shape (spec : option pystr) :
  (forall d : odict,
      parse_js_runtimes spec = Some d ->
      d <> [] /\ NoDup (map fst d) /\ Forall runtime_entry d)
  /\ (opt_truthy spec = false -> parse_js_runtimes spec = None)
  /\ (stripped_parts (default [] spec) = [] -> parse_js_runtimes spec = None).
Proof.
  unfold parse_js_runtimes. split; [|split].
  - destruct (opt_truthy spec); cbn [negb]; [|discriminate]. cbv zeta.
    destruct (bool_decide (stripped_parts (default [] spec) = [])); [discriminate|].
    destruct (decide (fold_left add_runtime (stripped_parts (default [] spec)) [] = []))
      as [Hnil|Hne].
    + rewrite (bool_decide_eq_true_2 _ Hnil). discriminate.
    + rewrite (bool_decide_eq_false_2 _ Hne). intros d Heq. injection Heq as <-.
      split; [exact Hne|].
      apply fold_add_runtime_keeps.
      * apply Forall_forall. intros p Hp. eapply stripped_parts_good. exact Hp.
      * split; constructor.
  - intros ->. reflexivity.
  - intros Hnil. destruct (opt_truthy spec); cbn [negb]; [|reflexivity]. cbv zeta.
    rewrite (bool_decide_eq_true_2 _ Hnil). reflexivity.
Qed.

Lemma parse_js_runtimes_shape_witness :
  Forall runtime_entry
    [(py "node", VDict {[ py "path" := VStr (py "C:\node.exe") ]}); (py "deno", VDict ∅)]
  /\ parse_js_runtimes (Some (py " , ")) = None.
Proof.
  split.
  - apply (proj1 (parse_js_runtimes_shape (Some (py "node:C:\node.exe, deno , :x, deno:")))
             [(py "node", VDict {[ py "path" := VStr (py "C:\node.exe") ]});
              (py "deno", VDict ∅)]).
    reflexivity.
  - apply (proj2 (proj2 (parse_js_runtimes_shape (Some (py " , "))))). reflexivity.
Defined.

(** X11. [parse_remote_components] returns None for a missing or empty
    spec and when every comma-separated part is blank; otherwise it
    returns a non-empty set whose members are exactly the non-empty
    trimmed parts (so each is trimmed and contains no comma). *)
Theorem parse_remote_components_spec (spec : pystr) :
  (forall s : gset pystr,
      parse_remote_components (Some spec) = Some s ->
      s <> ∅
      /\ forall x : pystr,
           x ∈ s <-> x <> [] /\ exists part, part ∈ split 44%N spec /\ x = strip part)
  /\ (parse_remote_components (Some spec) = None
      <-> forall part, part ∈ split 44%N spec -> strip part = [])
  /\ parse_remote_components None = None.
Proof.
  unfold parse_remote_components. split; [|split; [|reflexivity]].
  - intros s. destruct (opt_truthy (Some spec)); cbn [negb]; [|discriminate]. cbv zeta.
    cbn [default from_option id].
    destruct (decide (stripped_parts spec = [])) as [Hnil|Hne].
    { rewrite (bool_decide_eq_true_2 _ Hnil). discriminate. }
    rewrite (bool_decide_eq_false_2 _ Hne). intros Heq. injection Heq as <-.
    split.
    + destruct (stripped_parts spec) as [|p ps] eqn:E; [congruence|].
      intros Hempty.
      assert (Hin : p ∈ (list_to_set (p :: ps) : gset pystr))
        by (apply elem_of_list_to_set; apply list_elem_of_here).
      rewrite Hempty in Hin. revert Hin. apply not_elem_of_empty.
    + intros x. rewrite elem_of_list_to_set. apply stripped_parts_spec.
  - destruct spec as [|c spec].
    + cbn [opt_truthy negb]. split; [|reflexivity].
      intros _ part Hin. simpl in Hin. apply list_elem_of_singleton in Hin.
      subst part. reflexivity.
    + cbn [opt_truthy negb default from_option id]. cbv zeta.
      destruct (decide (stripped_parts (c :: spec) = [])) as [Hnil|Hne].
      * rewrite (bool_decide_eq_true_2 _ Hnil). split; [|reflexivity].
        intros _ part Hin.
        destruct (decide (strip part = [])) as [He|Hn]; [exact He|].
        assert (Hx : strip part ∈ stripped_parts (c :: spec))
          by (apply stripped_parts_spec; eauto).
        rewrite Hnil in Hx. apply elem_of_nil in Hx. contradiction.
      * rewrite (bool_decide_eq_false_2 _ Hne). split; [discriminate|].
        intros Hall. exfalso. apply Hne.
        destruct (stripped_parts (c :: spec)) as [|p ps] eqn:E; [reflexivity|].
        assert (Hp : p ∈ stripped_parts (c :: spec)) by (rewrite E; apply list_elem_of_here).
        apply stripped_parts_spec in Hp. destruct Hp as [Hpne (part & Hin & ->)].
        rewrite (Hall part Hin) in Hpne. congruence.
Qed.

Lemma parse_remote_components_spec_witness :
  py "ejs:npm" ∈ (list_to_set [py "ejs:github"; py "ejs:npm"] : gset pystr)
  /\ parse_remote_components (Some (py " ejs:github ,, ejs:npm"))
     = Some (list_to_set [py "ejs:github"; py "ejs:npm"]).
Proof.
  assert (Hrun : parse_remote_components (Some (py " ejs:github ,, ejs:npm"))
                 = Some (list_to_set [py "ejs:github"; py "ejs:npm"]))
    by reflexivity.
  split; [|exact Hrun].
  apply (proj2 (proj1 (parse_remote_components_spec (py " ejs:github ,, ejs:npm")) _ Hrun)).
  split; [discriminate|].
  exists (py " ejs:npm"). split; [|reflexivity].
  apply list_elem_of_further, list_elem_of_further, list_elem_of_here.
Defined.

Ltac found_at E pre name bin post :=
  let p := fresh "p" in
  destruct (shutil_which bin) as [p|] eqn:?; [|discriminate E];
  destruct p; [discriminate E|];
  exists pre, name, bin, post; eexists;
  split; [reflexivity|];
  split; [repeat constructor; assumption|];
  split; [eassumption|]; split; [discriminate|reflexivity].

(** X12. [detect_js_runtime] asks for the executables deno, bun, node,
    qjs and quickjs in that order and answers with the first one the
    search path has (a non-empty path), filed under its runtime name
    (qjs and quickjs both under quickjs); it returns None exactly when
    none of the five is found. *)
Theorem detect_js_runtime_first `{Host} :
  match detect_js_runtime with
  | Some d =>
      exists pre name bin post path,
        runtime_probes = pre ++ (name, bin) :: post
        /\ Forall (fun nb => opt_truthy (shutil_which (snd nb)) = false) pre
        /\ shutil_which bin = Some path /\ path <> []
        /\ d = [(name, VDict {[ py "path" := VStr path ]})]
  | None =>
      Forall (fun nb => opt_truthy (shutil_which (snd nb)) = false) runtime_probes
  end.
Proof.
  unfold detect_js_runtime, runtime_bins, runtime_probes.
  cbn [detect_in first_bin].
  destruct (opt_truthy (shutil_which (py "deno"))) eqn:E1.
  { found_at E1 (@nil (pystr * pystr)) (py "deno") (py "deno")
      [(py "bun", py "bun"); (py "node", py "node");
       (py "quickjs", py "qjs"); (py "quickjs", py "quickjs")]. }
  destruct (opt_truthy (shutil_which (py "bun"))) eqn:E2.
  { found_at E2 [(py "deno", py "deno")] (py "bun") (py "bun")
      [(py "node", py "node"); (py "quickjs", py "qjs"); (py "quickjs", py "quickjs")]. }
  destruct (opt_truthy (shutil_which (py "node"))) eqn:E3.
  { found_at E3 [(py "deno", py "deno"); (py "bun", py "bun")] (py "node") (py "node")
      [(py "quickjs", py "qjs"); (py "quickjs", py "quickjs")]. }
  destruct (opt_truthy (shutil_which (py "qjs"))) eqn:E4.
  { found_at E4 [(py "deno", py "deno"); (py "bun", py "bun"); (py "node", py "node")]
      (py "quickjs") (py "qjs") [(py "quickjs", py "quickjs")]. }
  destruct (opt_truthy (shutil_which (py "quickjs"))) eqn:E5.
  { found_at E5 [(py "deno", py "deno"); (py "bun", py "bun"); (py "node", py "node");
              (py "quickjs", py "qjs")]
      (py "quickjs") (py "quickjs") (@nil (pystr * pystr)). }
  repeat constructor; assumption.
Qed.

(** ** Durations *)

Example format_duration_ex :
  format_duration (PyFloat (float_lit 455 1)) = Ok (py "45.5秒")
  /\ format_duration (PyFloat (float_lit 5996 2)) = Ok (py "60.0秒")
  /\ format_duration (PyFloat (float_lit (-25) 2)) = Ok (py "-0.2秒")
  /\ format_duration (PyFloat (float_lit 1255 1)) = Ok (py "2分5秒")
  /\ format_duration (PyFloat (float_lit 73259 1)) = Ok (py "2小时2分")
  /\ format_duration (PyInt 45) = Ok (py "45.0秒").
Proof. repeat split; vm_compute; reflexivity. Qed.

Section DurationLemmas.

(** The seconds form on the whole numbers below sixty. *)
Lemma format_duration_below_60 (n : Z) :
  0 <= n < 60 -> format_duration (PyInt n) = Ok (str_int n ++ py ".0秒").
Proof.
  intros Hn.
  assert (Hall :
    forallb (fun k : nat =>
               match format_duration (PyInt (Z.of_nat k)) with
               | Ok s => bool_decide (s = str_int (Z.of_nat k) ++ py ".0秒")
               | Raise _ => false
               end) (seq 0 60) = true) by (vm_compute; reflexivity).
  rewrite forallb_forall in Hall.
  specialize (Hall (Z.to_nat n)).
  rewrite Z2Nat.id in Hall by lia.
  assert (Hin : In (Z.to_nat n) (seq 0 60)) by (apply in_seq; lia).
  specialize (Hall Hin).
  cbv beta in Hall.
  destruct (format_duration (PyInt n)) as [s|e]; [|discriminate Hall].
  apply bool_decide_eq_true_1 in Hall. rewrite Hall. reflexivity.
Qed.

Lemma round_half_even_up (n d q : Z) :
  0 < d -> Z.odd q = true ->
  (2 * q + 1) * d <= 2 * n < (2 * q + 2) * d ->
  round_half_even n d = q + 1.
Proof.
  intros Hd Hodd Hn. unfold round_half_even.
  assert (Hq : n / d = q) by (symmetry; apply (Z.div_unique n d q (n - d * q)); lia).
  assert (Hr : n mod d = n - d * q) by (rewrite Z.mod_eq by lia; rewrite Hq; lia).
  rewrite Hq, Hr, Hodd.
  destruct (Z.ltb_spec d (2 * (n - d * q))) as [Hlt|Hge]; [reflexivity|].
  assert (Heq : 2 * (n - d * q) = d) by lia.
  rewrite (proj2 (Z.eqb_eq _ _) Heq). reflexivity.
Qed.

End DurationLemmas.

(** X13. On a whole number of seconds [n >= 0], [format_duration] gives
    the seconds form [n.0秒] below 60, the form [m分s秒] with
    [n = 60 m + s], [1 <= m < 60] and [0 <= s < 60] below 3600, and
    from 3600 on the form [h小时m分] with [h >= 1], [0 <= m < 60] and
    [n] within the minute that starts at [3600 h + 60 m]: the seconds
    are dropped. *)
Theorem format_duration_whole (n : Z) :
  0 <= n ->
  (n < 60 -> format_duration (PyInt n) = Ok (str_int n ++ py ".0秒"))
  /\ (60 <= n < 3600 ->
      exists mins secs : Z,
        1 <= mins < 60 /\ 0 <= secs < 60 /\ n = 60 * mins + secs
        /\ format_duration (PyInt n)
           = Ok (str_int mins ++ py "分" ++ str_int secs ++ py "秒"))
  /\ (3600 <= n ->
      exists hours mins : Z,
        1 <= hours /\ 0 <= mins < 60
        /\ 3600 * hours + 60 * mins <= n < 3600 * hours + 60 * mins + 60
        /\ format_duration (PyInt n)
           = Ok (str_int hours ++ py "小时" ++ str_int mins ++ py "分")).
Proof.
  intros Hn. split; [|split].
  - intros Hlt. apply format_duration_below_60. lia.
  - intros [Hlo Hhi]. exists (n / 60), (n mod 60).
    pose proof (Z.div_mod n 60 ltac:(lia)) as Hdm.
    pose proof (Z.mod_pos_bound n 60 ltac:(lia)) as Hmod.
    split; [split; [apply Z.div_le_lower_bound; lia|apply Z.div_lt_upper_bound; lia]|].
    split; [exact Hmod|]. split; [exact Hdm|].
    unfold format_duration, py_lt.
    rewrite (proj2 (Z.ltb_ge n 60)) by lia.
    rewrite (proj2 (Z.ltb_lt n 3600)) by lia.
    reflexivity.
  - intros Hlo. exists (n / 3600), (n mod 3600 / 60).
    pose proof (Z.div_mod n 3600 ltac:(lia)) as Hdm.
    pose proof (Z.mod_pos_bound n 3600 ltac:(lia)) as Hmod.
    pose proof (Z.div_mod (n mod 3600) 60 ltac:(lia)) as Hdm2.
    pose proof (Z.mod_pos_bound (n mod 3600) 60 ltac:(lia)) as Hmod2.
    split; [apply Z.div_le_lower_bound; lia|].
    split; [split; [apply Z.div_pos; lia|apply Z.div_lt_upper_bound; lia]|].
    split; [lia|].
    unfold format_duration, py_lt.
    rewrite (proj2 (Z.ltb_ge n 60)) by lia.
    rewrite (proj2 (Z.ltb_ge n 3600)) by lia.
    reflexivity.
Qed.

Lemma format_duration_whole_witness :
  format_duration (PyInt 45) = Ok (py "45.0秒")
  /\ (exists mins secs : Z,
        1 <= mins < 60 /\ 0 <= secs < 60 /\ 125 = 60 * mins + secs
        /\ format_duration (PyInt 125)
           = Ok (str_int mins ++ py "分" ++ str_int secs ++ py "秒"))
  /\ (exists hours mins : Z,
        1 <= hours /\ 0 <= mins < 60
        /\ 3600 * hours + 60 * mins <= 7325 < 3600 * hours + 60 * mins + 60
        /\ format_duration (PyInt 7325)
           = Ok (str_int hours ++ py "小时" ++ str_int mins ++ py "分")).
Proof.
  split; [|split].
  - apply (proj1 (format_duration_whole 45 ltac:(lia))). lia.
  - apply (proj1 (proj2 (format_duration_whole 125 ltac:(lia)))). lia.
  - apply (proj2 (proj2 (format_duration_whole 7325 ltac:(lia)))). lia.
Defined.

(** X14. The seconds form rounds to one decimal after the choice of
    the form: every float duration [d] with [59.95 <= d < 60] is shown
    as [60.0秒]. *)
Theorem format_duration_rounds_to_sixty (m : positive) (e : Z) :
  e < 0 ->
  1199 * 2 ^ (- e) <= 20 * Zpos m < 1200 * 2 ^ (- e) ->
  format_duration (PyFloat (S754_finite false m e)) = Ok (py "60.0秒").
Proof.
  intros He Hm.
  assert (Hd : 0 < 2 ^ (- e)) by (apply Z.pow_pos_nonneg; lia).
  unfold format_duration, py_lt, float_lt_int.
  rewrite (proj2 (Z.leb_gt 0 e)) by lia.
  rewrite (proj2 (Z.ltb_lt (Zpos m) (60 * 2 ^ (- e)))) by lia.
  unfold py_format_f, as_float, rbind, format_f, scaled.
  rewrite (proj2 (Z.leb_gt 0 e)) by lia.
  change (10 ^ Z.of_nat 1) with 10.
  rewrite (round_half_even_up (Zpos m * 10) (2 ^ (- e)) 599) by (try reflexivity; lia).
  vm_compute. reflexivity.
Qed.

Lemma format_duration_rounds_to_sixty_witness :
  format_duration (PyFloat (float_lit 5996 2)) = Ok (py "60.0秒").
Proof.
  change (float_lit 5996 2) with (S754_finite false 8438619801785467 (-47)).
  apply format_duration_rounds_to_sixty.
  - lia.
  - vm_compute. split; [discriminate|reflexivity].
Defined.

(** ** Preflight reporter *)

Example preflight_check_ex :
  w_stdout (fst (preflight_check (H := Sample3.node_host) (H0 := Sample.posix)
                   None (Some (py ":Profile 1"))
                   (detect_js_runtime (H := Sample3.node_host))
                   (parse_remote_components (Some (py "ejs:npm, ejs:github")))
                   Sample.start))
  = [ py "🔍 环境自检...";
      py "   yt-dlp: 2025.01.15";
      py "   JS runtime: node";
      py "   EJS: 将通过远程组件获取 (ejs:github, ejs:npm)";
      py "   Cookies: 浏览器 :Profile 1" ].
Proof. vm_compute. reflexivity. Qed.

Section PrintLemmas.
Context {ext : Type}.

Lemma prints_print (s : pystr) (w : world ext) : prints (print s) w [s].
Proof. reflexivity. Qed.

Lemma prints_seq (m k : M (ext := ext) unit) (w : world ext) (l1 l2 : list pystr) :
  prints m w l1 ->
  prints k (World (w_fs w) (w_stdout w ++ l1) (w_calls w) (w_ext w)) l2 ->
  prints (m ;;; k) w (l1 ++ l2).
Proof.
  unfold prints. intros Hm Hk. unfold bind. rewrite Hm, Hk.
  cbn [w_fs w_stdout w_calls w_ext]. rewrite app_assoc. reflexivity.
Qed.

Lemma prints_then {A : Type} (m : M (ext := ext) unit) (k : M A) (w : world ext)
    (l : list pystr) :
  prints m w l ->
  (m ;;; k) w = k (World (w_fs w) (w_stdout w ++ l) (w_calls w) (w_ext w)).
Proof. unfold prints, bind. intros ->. reflexivity. Qed.

End PrintLemmas.

Section PreflightLemmas.
Context {ext : Type} `{Host} `{Platform}.

(** The last step of the report, on the cookie source. *)
Let cookies_step (cookies_path cookies_from_browser : option pystr) : M (ext := ext) unit :=
  if opt_truthy cookies_path then
    let cookiefile := expanduser_resolve (default [] cookies_path) in
    ex <- path_exists cookiefile ;;
    let exists_text := if ex then py "存在" else py "不存在" in
    print (py "   Cookies: 文件 " ++ path_str cookiefile ++ py "（" ++ exists_text
           ++ py "）")
  else if opt_truthy cookies_from_browser then
    print (py "   Cookies: 浏览器 " ++ default [] cookies_from_browser)
  else
    let default_dir := path_div script_dir (py "cookies") in
    fs <- get_fs ;;
    auto_cookie <- lift (find_cookie_file fs default_dir) ;;
    match auto_cookie with
    | Some p => print (py "   Cookies: 自动发现 " ++ path_str p)
    | None => print (py "   Cookies: 未配置（可放在 ./cookies 下）")
    end.

(** The step prints the cookie line when the search of the default
    directory, if it is made, returns. *)
Lemma cookies_step_prints (cookies_path cookies_from_browser : option pystr)
    (w : world ext) :
  (opt_truthy cookies_path = false -> opt_truthy cookies_from_browser = false ->
   exists found, find_cookie_file (w_fs w) (path_div script_dir (py "cookies")) = Ok found) ->
  prints (cookies_step cookies_path cookies_from_browser) w
    [cookies_line cookies_path cookies_from_browser (w_fs w)].
Proof.
  unfold prints, cookies_line, cookies_step. intros Hsearch.
  destruct (opt_truthy cookies_path).
  - cbv zeta. unfold bind at 1, path_exists at 1. cbn [w_fs].
    destruct (fs_exists (w_fs w) _); reflexivity.
  - destruct (opt_truthy cookies_from_browser); [reflexivity|].
    cbv zeta. unfold bind at 1, get_fs at 1. unfold bind at 1, lift at 1.
    destruct (Hsearch eq_refl eq_refl) as (found & Hfind).
    rewrite Hfind. destruct found; reflexivity.
Qed.

(** Whatever its outcome, the step changes nothing but the output, to
    which it adds one line when it returns and nothing when it raises. *)
Lemma cookies_step_frame (cookies_path cookies_from_browser : option pystr)
    (w w' : world ext) (r : result unit) :
  cookies_step cookies_path cookies_from_browser w = (w', r) ->
  w_fs w' = w_fs w /\ w_calls w' = w_calls w /\ w_ext w' = w_ext w
  /\ exists tail : list pystr,
       w_stdout w' = w_stdout w ++ tail
       /\ length tail = (if r is Ok _ then 1 else 0)%nat.
Proof.
  destruct (find_cookie_file (w_fs w) (path_div script_dir (py "cookies")))
    as [found|e] eqn:Hfind.
  - rewrite (cookies_step_prints cookies_path cookies_from_browser w)
      by (intros _ _; exists found; exact Hfind).
    intros Heq. injection Heq as <- <-. cbn [w_fs w_stdout w_calls w_ext].
    repeat split. eexists. split; reflexivity.
  - destruct (opt_truthy cookies_path) eqn:Hcp;
      [|destruct (opt_truthy cookies_from_browser) eqn:Hcb].
    + rewrite (cookies_step_prints cookies_path cookies_from_browser w)
        by (intros Hf; congruence).
      intros Heq. injection Heq as <- <-. cbn [w_fs w_stdout w_calls w_ext].
      repeat split. eexists. split; reflexivity.
    + rewrite (cookies_step_prints cookies_path cookies_from_browser w)
        by (intros _ Hf; congruence).
      intros Heq. injection Heq as <- <-. cbn [w_fs w_stdout w_calls w_ext].
      repeat split. eexists. split; reflexivity.
    + unfold cookies_step. rewrite Hcp, Hcb. cbv zeta.
      unfold bind at 1, get_fs at 1. unfold bind at 1, lift at 1. rewrite Hfind.
      intros Heq. injection Heq as <- <-.
      repeat split. exists []. rewrite app_nil_r. split; reflexivity.
Qed.

(** The report up to its last step: the heading and three to five
    lines on the library, the runtime and the solver. *)
Lemma preflight_check_steps (cookies_path cookies_from_browser : option pystr)
    (js_runtimes : option odict) (remote_components : option (gset pystr))
    (w : world ext) :
  exists mid : list pystr,
    (3 <= length mid <= 5)%nat
    /\ preflight_check cookies_path cookies_from_browser js_runtimes remote_components w
       = cookies_step cookies_path cookies_from_browser
           (World (w_fs w) (w_stdout w ++ [py "🔍 环境自检..."] ++ mid)
              (w_calls w) (w_ext w)).
Proof.
  unfold preflight_check. fold (cookies_step cookies_path cookies_from_browser).
  assert (Hv : forall w1 : world ext, exists l,
             prints (match ydl_version with
                     | Some version => print (py "   yt-dlp: " ++ version)
                     | None => print (py "   yt-dlp: unknown")
                     end) w1 l /\ length l = 1%nat).
  { intros w1. destruct ydl_version; eexists; (split; [apply prints_print|reflexivity]). }
  assert (Hjs : forall w1 : world ext, exists l,
             prints (if dict_truthy js_runtimes then
                       print (py "   JS runtime: "
                              ++ join (py ", ") (map fst (default [] js_runtimes)))
                     else
                       print (py "   JS runtime: 未检测到") ;;;
                       print (py "     建议安装 Deno/Node/Bun，或传 --js-runtimes")) w1 l
             /\ (1 <= length l <= 2)%nat).
  { intros w1. destruct (dict_truthy js_runtimes).
    - eexists. split; [apply prints_print|simpl; lia].
    - eexists. split; [eapply prints_seq; apply prints_print|simpl; lia]. }
  cbv zeta.
  set (ejs_local := if find_spec (py "yt_dlp_ejs") then true
                    else if find_spec (py "ytdlp_ejs") then true else false).
  set (ejs_remote := if set_truthy remote_components
                     then existsb (startswith (py "ejs"))
                            (elements (default ∅ remote_components))
                     else false).
  match goal with
  | |- context [(if ejs_local then ?a else ?b) ;;; ?rest] =>
      assert (Hejs : forall w1 : world ext, exists l,
                 prints (if ejs_local then a else b) w1 l /\ (1 <= length l <= 2)%nat)
  end.
  { intros w1. destruct ejs_local; [|destruct ejs_remote].
    - eexists. split; [apply prints_print|simpl; lia].
    - eexists. split; [apply prints_print|simpl; lia].
    - eexists. split; [eapply prints_seq; apply prints_print|simpl; lia]. }
  destruct (Hv (World (w_fs w) (w_stdout w ++ [py "🔍 环境自检..."]) (w_calls w) (w_ext w)))
    as (l2 & Hl2 & Hn2).
  destruct (Hjs (World (w_fs w) ((w_stdout w ++ [py "🔍 环境自检..."]) ++ l2)
                   (w_calls w) (w_ext w))) as (l3 & Hl3 & Hn3).
  destruct (Hejs (World (w_fs w) (((w_stdout w ++ [py "🔍 环境自检..."]) ++ l2) ++ l3)
                    (w_calls w) (w_ext w))) as (l4 & Hl4 & Hn4).
  exists (l2 ++ l3 ++ l4). split; [rewrite !length_app; lia|].
  rewrite (prints_then _ _ _ _ (prints_print (py "🔍 环境自检...") w)).
  rewrite (prints_then _ _ _ _ Hl2). cbn [w_fs w_stdout w_calls w_ext].
  rewrite (prints_then _ _ _ _ Hl3). cbn [w_fs w_stdout w_calls w_ext].
  rewrite (prints_then _ _ _ _ Hl4). cbn [w_fs w_stdout w_calls w_ext].
  rewrite <- !app_assoc. reflexivity.
Qed.

(** The whole report when the search of the default directory, if it
    is made, returns: the heading, three to five lines, and the cookie
    line. *)
Lemma preflight_check_run (cookies_path cookies_from_browser : option pystr)
    (js_runtimes : option odict) (remote_components : option (gset pystr))
    (w : world ext) :
  (opt_truthy cookies_path = false -> opt_truthy cookies_from_browser = false ->
   exists found, find_cookie_file (w_fs w) (path_div script_dir (py "cookies")) = Ok found) ->
  exists mid : list pystr,
    prints (preflight_check cookies_path cookies_from_browser js_runtimes remote_components)
      w ([py "🔍 环境自检..."] ++ mid
         ++ [cookies_line cookies_path cookies_from_browser (w_fs w)])
    /\ (3 <= length mid <= 5)%nat.
Proof.
  intros Hsearch.
  destruct (preflight_check_steps cookies_path cookies_from_browser js_runtimes
              remote_components w) as (mid & Hlen & Hrun).
  exists mid. split; [|exact Hlen].
  unfold prints. rewrite Hrun.
  rewrite (cookies_step_prints cookies_path cookies_from_browser
             (World (w_fs w) (w_stdout w ++ [py "🔍 环境自检..."] ++ mid) (w_calls w) (w_ext w))
             Hsearch).
  cbn [w_fs w_stdout w_calls w_ext]. rewrite <- !app_assoc. reflexivity.
Qed.

(** Whatever its outcome, the report changes nothing but the output. *)
Lemma preflight_check_frame (cookies_path cookies_from_browser : option pystr)
    (js_runtimes : option odict) (remote_components : option (gset pystr))
    (w w' : world ext) (r : result unit) :
  preflight_check cookies_path cookies_from_browser js_runtimes remote_components w
  = (w', r) ->
  w_fs w' = w_fs w /\ w_calls w' = w_calls w /\ w_ext w' = w_ext w
  /\ exists report : list pystr,
       w_stdout w' = w_stdout w ++ report
       /\ head report = Some (py "🔍 环境自检...")
       /\ (4 <= length report <= 6 + (if r is Ok _ then 1 else 0))%nat
       /\ (r = Ok tt -> (5 <= length report)%nat).
Proof.
  intros Hrun.
  destruct (preflight_check_steps cookies_path cookies_from_browser js_runtimes
              remote_components w) as (mid & Hlen & Hsteps).
  rewrite Hsteps in Hrun.
  destruct (cookies_step_frame _ _ _ _ _ Hrun) as (Hfs & Hcalls & Hext & tail & Hout & Ht).
  cbn [w_fs w_stdout w_calls w_ext] in *.
  split; [exact Hfs|]. split; [exact Hcalls|]. split; [exact Hext|].
  exists ([py "🔍 环境自检..."] ++ mid ++ tail).
  split; [rewrite Hout, <- !app_assoc; reflexivity|].
  split; [reflexivity|].
  rewrite !length_app. simpl length. split.
  - destruct r as [[]|e]; lia.
  - intros ->. lia.
Qed.

End PreflightLemmas.

(** X15. [preflight_check] only prints: whatever its arguments and the
    state, and whether it returns or raises, it leaves the file system,
    the library calls and the outside world as they were and has
    printed the heading first, between four and seven lines in all and
    at least five when it returns. *)
Theorem preflight_check_only_prints {ext : Type} `{Host} `{Platform}
    (cookies_path cookies_from_browser : option pystr)
    (js_runtimes : option odict) (remote_components : option (gset pystr))
    (w w' : world ext) (r : result unit) :
  preflight_check cookies_path cookies_from_browser js_runtimes remote_components w
  = (w', r) ->
  w_fs w' = w_fs w /\ w_calls w' = w_calls w /\ w_ext w' = w_ext w
  /\ exists report : list pystr,
       w_stdout w' = w_stdout w ++ report
       /\ head report = Some (py "🔍 环境自检...")
       /\ (4 <= length report <= 7)%nat
       /\ (r = Ok tt -> (5 <= length report)%nat).
Proof.
  intros Hrun.
  destruct (preflight_check_frame _ _ _ _ _ _ _ Hrun)
    as (Hfs & Hcalls & Hext & report & Hout & Hhead & Hlen & Hok).
  split; [exact Hfs|]. split; [exact Hcalls|]. split; [exact Hext|].
  exists report. split; [exact Hout|]. split; [exact Hhead|].
  split; [|exact Hok]. destruct r; lia.
Qed.

Lemma preflight_check_only_prints_witness :
  let run := preflight_check (H := Sample3.node_host) (H0 := Sample.posix)
               None None None None (World Sample.stale_disk [] [] 0%nat) in
  w_fs (fst run) = Sample.stale_disk
  /\ exists report : list pystr,
       w_stdout (fst run) = [] ++ report
       /\ head report = Some (py "🔍 环境自检...").
Proof.
  destruct (preflight_check_only_prints (H := Sample3.node_host) (H0 := Sample.posix)
              None None None None (World Sample.stale_disk [] [] 0%nat)
              (fst (preflight_check (H := Sample3.node_host) (H0 := Sample.posix)
                      None None None None (World Sample.stale_disk [] [] 0%nat)))
              (snd (preflight_check (H := Sample3.node_host) (H0 := Sample.posix)
                      None None None None (World Sample.stale_disk [] [] 0%nat))))
    as (Hfs & _ & _ & report & Hout & Hhead & _).
  - apply surjective_pairing.
  - split; [exact Hfs|]. exists report. split; [exact Hout|exact Hhead].
Defined.

(** X16. The report names the cookie file the download will use: when
    [cookies_opts], run on the same file system, selects a cookie file,
    the last line of the report is the line for that file, as an
    explicit file that exists or as an auto-discovered one. *)
Theorem preflight_names_cookie_file {ext : Type} `{Host} `{Platform}
    (cookies_path cookies_from_browser : option pystr)
    (js_runtimes : option odict) (remote_components : option (gset pystr))
    (w w1 w2 : world ext) (copts : dict) (f : pystr) :
  w_fs w1 = w_fs w ->
  cookies_opts cookies_path cookies_from_browser w1 = (w2, Ok copts) ->
  copts !! py "cookiefile" = Some (VStr f) ->
  exists (report : list pystr) (line : pystr),
    prints (preflight_check cookies_path cookies_from_browser js_runtimes remote_components)
      w report
    /\ last report = Some line
    /\ (line = py "   Cookies: 文件 " ++ f ++ py "（存在）"
        \/ line = py "   Cookies: 自动发现 " ++ f).
Proof.
  intros Hfs Hopts Hfile.
  destruct (preflight_check_run cookies_path cookies_from_browser js_runtimes
              remote_components w) as (mid & Hrun & _).
  { intros Hcp Hcb. rewrite <- Hfs.
    destruct (find_cookie_file (w_fs w1) (path_div script_dir (py "cookies")))
      as [found|e] eqn:Hfind; [exists found; reflexivity|].
    rewrite (cookies_opts_auto_raise _ _ _ _ Hcp Hcb Hfind) in Hopts. discriminate. }
  eexists. eexists. split; [exact Hrun|].
  split; [rewrite !app_assoc; apply last_snoc|].
  unfold cookies_line. rewrite <- Hfs.
  destruct (opt_truthy cookies_path) eqn:Hcp.
  - destruct cookies_path as [[|c path]|]; try discriminate Hcp.
    rewrite cookies_opts_file in Hopts by discriminate.
    cbn [default from_option id].
    destruct (fs_exists (w_fs w1) (expanduser_resolve (c :: path))); [|discriminate Hopts].
    injection Hopts as _ <-. rewrite lookup_insert_eq in Hfile. injection Hfile as <-.
    left. do 2 f_equal.
  - destruct (opt_truthy cookies_from_browser) eqn:Hcb.
    + destruct cookies_from_browser as [[|c spec]|]; try discriminate Hcb.
      rewrite cookies_opts_browser in Hopts by (assumption || discriminate).
      destruct (parse_cookies_from_browser (c :: spec)).
      * injection Hopts as _ <-.
        rewrite lookup_insert_ne in Hfile by discriminate.
        rewrite lookup_empty in Hfile. discriminate.
      * injection Hopts as _ <-. rewrite lookup_empty in Hfile. discriminate.
    + destruct (find_cookie_file (w_fs w1) (path_div script_dir (py "cookies")))
        as [found|e] eqn:Hfind.
      2:{ rewrite (cookies_opts_auto_raise _ _ _ _ Hcp Hcb Hfind) in Hopts. discriminate. }
      rewrite (cookies_opts_auto _ _ _ found Hcp Hcb Hfind) in Hopts.
      destruct found as [p|].
      * injection Hopts as _ <-. rewrite lookup_insert_eq in Hfile. injection Hfile as <-.
        right. reflexivity.
      * injection Hopts as _ <-. rewrite lookup_empty in Hfile. discriminate.
Qed.

Lemma preflight_names_cookie_file_witness :
  exists (report : list pystr) (line : pystr),
    prints (preflight_check (H := Sample3.node_host) (H0 := Sample.posix)
              None None None None) Sample.start report
    /\ last report = Some line
    /\ (line = py "   Cookies: 文件 " ++ py "/app/cookies/new.txt" ++ py "（存在）"
        \/ line = py "   Cookies: 自动发现 " ++ py "/app/cookies/new.txt").
Proof.
  apply (preflight_names_cookie_file (H := Sample3.node_host) (H0 := Sample.posix)
           None None None None Sample.start Sample.start
           (fst (cookies_opts (H0 := Sample.posix) None None Sample.start))
           (<[py "cookiefile" := VStr (py "/app/cookies/new.txt")]> (∅ : dict))
           (py "/app/cookies/new.txt")).
  - reflexivity.
  - vm_compute. reflexivity.
  - apply lookup_insert_eq.
Defined.

(** X17. A browser spec with nothing but whitespace before its first
    colon is reported as the cookie source although the download will
    use no cookies at all: the last line of the report names the spec,
    and [cookies_opts] returns the empty dictionary without a word. *)
Theorem preflight_reports_unusable_browser {ext : Type} `{Host} `{Platform}
    (cookies_path : option pystr) (spec : pystr)
    (js_runtimes : option odict) (remote_components : option (gset pystr))
    (w w1 : world ext) :
  opt_truthy cookies_path = false ->
  spec <> [] ->
  parse_cookies_from_browser spec = None ->
  (exists report : list pystr,
      prints (preflight_check cookies_path (Some spec) js_runtimes remote_components)
        w report
      /\ last report = Some (py "   Cookies: 浏览器 " ++ spec))
  /\ cookies_opts cookies_path (Some spec) w1 = (w1, Ok (∅ : dict)).
Proof.
  intros Hcp Hne Hparse. split.
  - destruct (preflight_check_run cookies_path (Some spec) js_runtimes
                remote_components w) as (mid & Hrun & _).
    { intros _ Hcb. destruct spec; [congruence|discriminate Hcb]. }
    eexists. split; [exact Hrun|].
    rewrite !app_assoc, last_snoc. unfold cookies_line. rewrite Hcp.
    destruct spec; [congruence|]. reflexivity.
  - rewrite cookies_opts_browser by assumption. rewrite Hparse. reflexivity.
Qed.

Lemma preflight_reports_unusable_browser_witness :
  (exists report : list pystr,
      prints (preflight_check (H := Sample3.node_host) (H0 := Sample.posix)
                None (Some (py ":Profile 1")) None None) Sample.start report
      /\ last report = Some (py "   Cookies: 浏览器 " ++ py ":Profile 1"))
  /\ cookies_opts (H0 := Sample.posix) None (Some (py ":Profile 1")) Sample.start
     = (Sample.start, Ok (∅ : dict)).
Proof.
  apply (preflight_reports_unusable_browser (H := Sample3.node_host) (H0 := Sample.posix)).
  - reflexivity.
  - discriminate.
  - vm_compute. reflexivity.
Defined.

(** ** Transcriber *)

Example transcribe_audio_ex :
  let run := transcribe_audio (H := Sample4.bare_engine)
               [py "/"; py "tmp"; py "a.mp3"] (py "tiny") (Some (py "en"))
               (World Sample.disk [] [] 0%nat) in
  snd run = Ok (Transcription (py " hello ") (py "en") None)
  /\ w_stdout (fst run)
     = [ py "🔄 正在加载 Whisper 模型 (tiny)...";
         py "🎙️ 正在转录音频...";
         nl ++ py "✅ 转录完成！检测到语言: en";
         py "⏱️  处理耗时: 1分30秒" ].
Proof. vm_compute. split; reflexivity. Qed.

Section TranscriberLemmas.
Context {ext : Type} `{Engine ext}.

(** The probe: its result when the prober and the conversion succeed,
    and [0.0] when either raises an exception of class [Exception]. *)
Lemma get_audio_duration_run (audio_path : Path) (w : world ext)
    (fs' : file_system) (x' : ext) (r : result pystr) :
  eng_run (ffprobe_argv audio_path) (w_fs w) (w_ext w) = (fs', x', r) ->
  get_audio_duration audio_path w
  = (World fs' (w_stdout w) (w_calls w) x',
     match r with
     | Ok out =>
         match py_float (strip out) with
         | Ok d => Ok d
         | Raise e => if is_Exception e then Ok (S754_zero false) else Raise e
         end
     | Raise e => if is_Exception e then Ok (S754_zero false) else Raise e
     end).
Proof.
  intros Hrun. unfold get_audio_duration, try_except, bind, subprocess_run, lift, ret.
  rewrite Hrun. destruct r as [out|e].
  - destruct (py_float (strip out)) as [d|e]; [reflexivity|].
    destruct (is_Exception e); reflexivity.
  - destruct (is_Exception e); reflexivity.
Qed.

Lemma format_duration_zero (z : float) :
  nonzero z = false -> exists shown, format_duration (PyFloat z) = Ok shown.
Proof.
  destruct z as [s| | |]; try discriminate. intros _.
  eexists. unfold format_duration. cbn [py_lt float_lt_int]. reflexivity.
Qed.

End TranscriberLemmas.

Ltac run_with H :=
  cbn [w_fs w_stdout w_calls w_ext]; rewrite H; cbn [w_fs w_stdout w_calls w_ext].

(** X18. When the clock reads the same before and after a successful
    transcription of audio of known positive duration, computing the
    speed divides by zero: [transcribe_audio] raises ZeroDivisionError
    and the result of the engine is lost. *)
Theorem transcribe_audio_still_clock {ext : Type} `{Engine ext}
    (audio_path : Path) (model_name : pystr) (language : option pystr) (w : world ext)
    (m : model) (fs1 fs2 fs3 : file_system) (x1 x2 x3 x4 x5 : ext)
    (out shown : pystr) (duration t0 t1 : float) (res : transcription) :
  eng_load_model model_name (w_fs w) (w_ext w) = (fs1, x1, Ok m) ->
  eng_run (ffprobe_argv audio_path) fs1 x1 = (fs2, x2, Ok out) ->
  py_float (strip out) = Ok duration ->
  int_lt_float 0 duration = true ->
  format_duration (PyFloat duration) = Ok shown ->
  eng_time x2 = (x3, t0) ->
  eng_transcribe m (path_str audio_path) (transcribe_options language) fs2 x3
  = (fs3, x4, Ok res) ->
  eng_time x4 = (x5, t1) ->
  nonzero (fsub t1 t0) = false ->
  exists w' : world ext,
    transcribe_audio audio_path model_name language w
    = (w', Raise (Exn ZeroDivisionError (py "float division by zero")))
    /\ w_fs w' = fs3.
Proof.
  intros Hload Hprobe Hfloat Hpos Hshown Ht0 Htr Ht1 Hzero.
  destruct (format_duration_zero _ Hzero) as (shown' & Hshown').
  eexists. split.
  - unfold transcribe_audio.
    unfold bind at 1, print at 1. cbn [w_fs w_stdout w_calls w_ext].
    unfold bind at 1, load_model at 1. run_with Hload.
    unfold bind at 1.
    erewrite get_audio_duration_run by (cbn [w_fs w_ext]; exact Hprobe).
    cbv iota beta. rewrite Hfloat. cbv iota beta. rewrite Hpos.
    unfold bind at 1, bind at 1, lift at 1. rewrite Hshown.
    unfold print at 1. cbn [w_fs w_stdout w_calls w_ext].
    unfold bind at 1, print at 1. cbn [w_fs w_stdout w_calls w_ext].
    unfold bind at 1, time_time at 1. run_with Ht0.
    unfold bind at 1, model_transcribe at 1. run_with Htr.
    unfold bind at 1, time_time at 1. run_with Ht1.
    cbv zeta.
    unfold bind at 1, print at 1. cbn [w_fs w_stdout w_calls w_ext].
    unfold bind at 1, lift at 1. rewrite Hshown'.
    unfold bind at 1, print at 1. cbn [w_fs w_stdout w_calls w_ext].
    unfold bind at 1, bind at 1, lift at 1, py_truediv. rewrite Hzero.
    reflexivity.
  - reflexivity.
Qed.

Lemma transcribe_audio_still_clock_witness :
  exists w' : world nat,
    transcribe_audio (H := Sample4.still_engine)
      [py "/"; py "tmp"; py "a.mp3"] (py "tiny") None (World Sample.disk [] [] 0%nat)
    = (w', Raise (Exn ZeroDivisionError (py "float division by zero")))
    /\ w_fs w' = Sample.disk.
Proof.
  apply (transcribe_audio_still_clock (H := Sample4.still_engine)
           [py "/"; py "tmp"; py "a.mp3"] (py "tiny") None (World Sample.disk [] [] 0%nat)
           tt Sample.disk Sample.disk Sample.disk 0%nat 0%nat 0%nat 0%nat 0%nat
           (py "12.5" ++ nl) (py "12.5秒") (float_lit 125 1)
           (float_of_Z 1700000000) (float_of_Z 1700000000)
           (Transcription (py " hello ") (py "en") None));
    vm_compute; reflexivity.
Defined.

(** X19. The prober is optional: when it cannot be run or its output
    is not a number, [transcribe_audio] still returns the result of the
    engine unchanged, and prints neither the duration nor the speed:
    the four lines printed are the loading, transcribing, completion
    and elapsed-time lines. *)
Theorem transcribe_audio_without_probe {ext : Type} `{Engine ext}
    (audio_path : Path) (model_name : pystr) (language : option pystr) (w : world ext)
    (m : model) (fs1 fs2 fs3 : file_system) (x1 x2 x3 x4 x5 : ext)
    (probe : result pystr) (shown : pystr) (t0 t1 : float) (res : transcription) :
  eng_load_model model_name (w_fs w) (w_ext w) = (fs1, x1, Ok m) ->
  eng_run (ffprobe_argv audio_path) fs1 x1 = (fs2, x2, probe) ->
  (exists e, is_Exception e = true
             /\ (probe = Raise e
                 \/ exists out, probe = Ok out /\ py_float (strip out) = Raise e)) ->
  eng_time x2 = (x3, t0) ->
  eng_transcribe m (path_str audio_path) (transcribe_options language) fs2 x3
  = (fs3, x4, Ok res) ->
  eng_time x4 = (x5, t1) ->
  format_duration (PyFloat (fsub t1 t0)) = Ok shown ->
  transcribe_audio audio_path model_name language w
  = (World fs3
       (w_stdout w
        ++ [ py "🔄 正在加载 Whisper 模型 (" ++ model_name ++ py ")...";
             py "🎙️ 正在转录音频...";
             nl ++ py "✅ 转录完成！检测到语言: " ++ result_language res;
             py "⏱️  处理耗时: " ++ shown ])
       (w_calls w) x5,
     Ok res).
Proof.
  intros Hload Hprobe (e & Hexc & Hfail) Ht0 Htr Ht1 Hshown.
  unfold transcribe_audio.
  unfold bind at 1, print at 1. cbn [w_fs w_stdout w_calls w_ext].
  unfold bind at 1, load_model at 1. run_with Hload.
  unfold bind at 1.
  erewrite get_audio_duration_run by (cbn [w_fs w_ext]; exact Hprobe).
  assert (Hd : match probe with
               | Ok out =>
                   match py_float (strip out) with
                   | Ok d => Ok d
                   | Raise e => if is_Exception e then Ok (S754_zero false) else Raise e
                   end
               | Raise e => if is_Exception e then Ok (S754_zero false) else Raise e
               end = Ok (S754_zero false)).
  { destruct Hfail as [->|(out & -> & ->)]; rewrite Hexc; reflexivity. }
  rewrite Hd. cbn [int_lt_float Z.ltb Z.compare].
  unfold bind at 1, ret at 1.
  unfold bind at 1, print at 1. cbn [w_fs w_stdout w_calls w_ext].
  unfold bind at 1, time_time at 1. run_with Ht0.
  unfold bind at 1, model_transcribe at 1. run_with Htr.
  unfold bind at 1, time_time at 1. run_with Ht1.
  cbv zeta.
  unfold bind at 1, print at 1. cbn [w_fs w_stdout w_calls w_ext].
  unfold bind at 1, lift at 1. rewrite Hshown.
  unfold bind at 1, print at 1. cbn [w_fs w_stdout w_calls w_ext].
  unfold bind at 1, ret at 1, ret.
  rewrite <- !app_assoc. reflexivity.
Qed.

Lemma transcribe_audio_without_probe_witness :
  transcribe_audio (H := Sample4.bare_engine)
    [py "/"; py "tmp"; py "a.mp3"] (py "tiny") (Some (py "en"))
    (World Sample.disk [] [] 0%nat)
  = (World Sample.disk
       ([] ++ [ py "🔄 正在加载 Whisper 模型 (" ++ py "tiny" ++ py ")...";
                py "🎙️ 正在转录音频...";
                nl ++ py "✅ 转录完成！检测到语言: " ++ py "en";
                py "⏱️  处理耗时: " ++ py "1分30秒" ])
       [] 1%nat,
     Ok (Transcription (py " hello ") (py "en") None)).
Proof.
  apply (transcribe_audio_without_probe (H := Sample4.bare_engine)
           [py "/"; py "tmp"; py "a.mp3"] (py "tiny") (Some (py "en"))
           (World Sample.disk [] [] 0%nat)
           tt Sample.disk Sample.disk Sample.disk 0%nat 0%nat 0%nat 1%nat 1%nat
           (Raise (Exn FileNotFoundError
                     (py "[Errno 2] No such file or directory: 'ffprobe'")))
           (py "1分30秒") (float_of_Z 1700000000) (float_of_Z 1700000090)
           (Transcription (py " hello ") (py "en") None)).
  - reflexivity.
  - reflexivity.
  - eexists. split; [|left; reflexivity]. reflexivity.
  - reflexivity.
  - reflexivity.
  - reflexivity.
  - vm_compute. reflexivity.
Defined.

(** ** Command-line driver *)

Section DriverLemmas.

Lemma parse_youtube_url_no_shape (url : pystr) :
  (forall core : pystr, core ∈ cores -> ~ has_shape core url) ->
  parse_youtube_url url = None.
Proof.
  intros Hall. unfold parse_youtube_url. rewrite patterns_specs.
  apply (first_match_None _ _ pattern_specs_optional).
  intros sc Hin. apply Hall. rewrite cores_specs.
  apply list_elem_of_fmap. exists sc. split; [reflexivity|exact Hin].
Qed.

Lemma parse_youtube_url_truthy (url v : pystr) :
  parse_youtube_url url = Some v -> opt_truthy (Some v) = true.
Proof.
  unfold parse_youtube_url. rewrite patterns_specs. intros Hv.
  destruct (first_match_Some _ _ _ pattern_specs_optional Hv)
    as (k & sc & _ & (pre & post & _ & Hlen & _) & _).
  destruct v; [discriminate Hlen|reflexivity].
Qed.


Context {ext : Type} `{OS ext}.

(** The [finally] clause raises nothing; when the scratch directory
    exists it hands it to [rmtree] and prints its line. *)
Lemma cleanup_run (temp_dir : Path) (w : world ext) :
  cleanup temp_dir w
  = (if fs_exists (w_fs w) temp_dir
     then World (fst (os_rmtree temp_dir (w_fs w) (w_ext w)))
            (w_stdout w ++ [py "🧹 临时文件已清理"]) (w_calls w)
            (snd (os_rmtree temp_dir (w_fs w) (w_ext w)))
     else w,
     Ok tt).
Proof.
  unfold cleanup, bind, path_exists, rmtree, print, ret.
  destruct (fs_exists (w_fs w) temp_dir); [|reflexivity].
  cbn [w_fs w_stdout w_calls w_ext].
  destruct (os_rmtree temp_dir (w_fs w) (w_ext w)) as [fs' x']. reflexivity.
Qed.

(** The two handlers of the driver turn what they catch into exit
    status 1 after one line of output. *)
Lemma handlers_run (body : M (ext := ext) unit) (w w1 : world ext) (r : result unit) :
  body w = (w1, r) ->
  try_except2 body
    (print (nl ++ py "⚠️ 用户中断") ;;; sys_exit 1)
    (fun e => print (nl ++ py "❌ 错误: " ++ exc_str e) ;;; sys_exit 1) w
  = match r with
    | Ok _ => (w1, r)
    | Raise e =>
        match exc_type e with
        | SystemExit => (w1, r)
        | KeyboardInterrupt =>
            (World (w_fs w1) (w_stdout w1 ++ [nl ++ py "⚠️ 用户中断"]) (w_calls w1) (w_ext w1),
             Raise (Exn SystemExit (py "1")))
        | _ =>
            (World (w_fs w1) (w_stdout w1 ++ [nl ++ py "❌ 错误: " ++ exc_str e])
               (w_calls w1) (w_ext w1),
             Raise (Exn SystemExit (py "1")))
        end
    end.
Proof.
  intros Hbody. unfold try_except2. rewrite Hbody.
  destruct r as [[]|e]; [reflexivity|].
  unfold is_Exception. destruct (exc_type e); reflexivity.
Qed.


End DriverLemmas.

Section MainLemmas.
Context {ext : Type} `{YoutubeDL ext} `{Platform} `{Host} `{Engine ext} `{OS ext}.

(** [main] up to the [try] statement, for an accepted URL and an
    operating system that creates both directories. *)
Lemma main_enters_try (args : Args) (w : world ext) (video_id : pystr)
    (fs1 fs2 : file_system) (x1 x2 : ext) (temp_dir : Path) :
  parse_youtube_url (args_url args) = Some video_id ->
  os_mkdir (os_resolve (args_output_dir args)) (w_fs w) (w_ext w) = (fs1, x1, Ok tt) ->
  os_mkdtemp fs1 x1 = (fs2, x2, Ok temp_dir) ->
  main args w
  = try_finally
      (try_except2 (main_body args (os_resolve (args_output_dir args)) temp_dir)
         (print (nl ++ py "⚠️ 用户中断") ;;; sys_exit 1)
         (fun e => print (nl ++ py "❌ 错误: " ++ exc_str e) ;;; sys_exit 1))
      (cleanup temp_dir)
      (World fs2 (w_stdout w ++ [py "🎬 Video ID: " ++ video_id]) (w_calls w) x2).
Proof.
  intros Hurl Hmkdir Hmkdtemp. unfold main.
  rewrite Hurl. rewrite (parse_youtube_url_truthy _ _ Hurl). cbn [negb].
  cbn [default from_option id]. cbv zeta.
  unfold bind at 1, print at 1.
  unfold bind at 1, mkdir at 1. run_with Hmkdir.
  unfold bind at 1, mkdtemp at 1. run_with Hmkdtemp.
  reflexivity.
Qed.

End MainLemmas.

(** X20. A URL in which none of the four accepted shapes occurs stops
    the program at once: [main] prints one line and exits with status
    1; no directory is created, no library is called and nothing else
    changes. *)
Theorem main_invalid_url {ext : Type}
    `{YoutubeDL ext} `{Platform} `{Host} `{Engine ext} `{OS ext}
    (args : Args) (w : world ext) :
  (forall core : pystr, core ∈ cores -> ~ has_shape core (args_url args)) ->
  main args w
  = (World (w_fs w) (w_stdout w ++ [py "❌ 无效的 YouTube URL"]) (w_calls w) (w_ext w),
     Raise (Exn SystemExit (py "1"))).
Proof.
  intros Hno. unfold main. rewrite (parse_youtube_url_no_shape _ Hno). reflexivity.
Qed.

Lemma main_invalid_url_witness :
  main (H := Sample.silent_ydl) (H0 := Sample.posix) (H1 := Sample3.node_host)
    (H2 := Sample4.bare_engine) (H3 := Sample4.os)
    (Sample4.args (py "not a url") None) Sample.start
  = (World (w_fs Sample.start) (w_stdout Sample.start ++ [py "❌ 无效的 YouTube URL"])
       (w_calls Sample.start) (w_ext Sample.start),
     Raise (Exn SystemExit (py "1"))).
Proof.
  apply (main_invalid_url (H := Sample.silent_ydl) (H0 := Sample.posix)
           (H1 := Sample3.node_host) (H2 := Sample4.bare_engine) (H3 := Sample4.os)).
  intros core Hin (v & pre & post & Heq & Hlen & _).
  apply (f_equal (@length char)) in Heq.
  rewrite !length_app, Hlen in Heq. simpl in Heq. lia.
Defined.



(** X22. An error inside the [try] statement is reported in one line
    and mapped to exit status 1: when the body raises an exception
    other than SystemExit, [main] prints the interrupt line for a
    KeyboardInterrupt and the error line with the text of the exception
    otherwise, then, if the scratch directory exists, hands it to
    [rmtree] and prints the cleanup line, and ends with SystemExit 1;
    no library call is added. *)
Theorem main_reports_error {ext : Type}
    `{YoutubeDL ext} `{Platform} `{Host} `{Engine ext} `{OS ext}
    (args : Args) (w w3 : world ext) (e : exn) (video_id : pystr)
    (fs1 fs2 : file_system) (x1 x2 : ext) (temp_dir : Path) :
  parse_youtube_url (args_url args) = Some video_id ->
  os_mkdir (os_resolve (args_output_dir args)) (w_fs w) (w_ext w) = (fs1, x1, Ok tt) ->
  os_mkdtemp fs1 x1 = (fs2, x2, Ok temp_dir) ->
  main_body args (os_resolve (args_output_dir args)) temp_dir
    (World fs2 (w_stdout w ++ [py "🎬 Video ID: " ++ video_id]) (w_calls w) x2)
  = (w3, Raise e) ->
  exc_type e <> SystemExit ->
  exists w' : world ext,
    main args w = (w', Raise (Exn SystemExit (py "1")))
    /\ w_stdout w'
       = w_stdout w3
         ++ [match exc_type e with
             | KeyboardInterrupt => nl ++ py "⚠️ 用户中断"
             | _ => nl ++ py "❌ 错误: " ++ exc_str e
             end]
         ++ (if fs_exists (w_fs w3) temp_dir then [py "🧹 临时文件已清理"] else [])
    /\ (w_fs w', w_ext w')
       = (if fs_exists (w_fs w3) temp_dir
          then os_rmtree temp_dir (w_fs w3) (w_ext w3)
          else (w_fs w3, w_ext w3))
    /\ w_calls w' = w_calls w3.
Proof.
  intros Hurl Hmkdir Hmkdtemp Hbody He.
  rewrite (main_enters_try args w video_id fs1 fs2 x1 x2 temp_dir Hurl Hmkdir Hmkdtemp).
  unfold try_finally.
  rewrite (handlers_run _ _ _ _ Hbody).
  destruct (exc_type e) eqn:Het; try congruence;
    rewrite cleanup_run; cbn [w_fs w_stdout w_calls w_ext];
    (eexists; split; [reflexivity|]);
    destruct (fs_exists (w_fs w3) temp_dir); cbn [w_fs w_stdout w_calls w_ext];
    first [ split; [rewrite <- app_assoc; reflexivity|];
            split; [|reflexivity];
            destruct (os_rmtree temp_dir (w_fs w3) (w_ext w3)); reflexivity
          | split; [rewrite app_nil_r; reflexivity|]; split; reflexivity ].
Qed.

Lemma main_reports_error_witness :
  exists w' : world nat,
    main (H := Sample.silent_ydl) (H0 := Sample.posix) (H1 := Sample3.node_host)
      (H2 := Sample4.bare_engine) (H3 := Sample4.sticky_os)
      (Sample4.args (py "https://youtu.be/dQw4w9WgXcQ") (Some (py "nope.txt")))
      Sample.start
    = (w', Raise (Exn SystemExit (py "1")))
    /\ last (w_stdout w') = Some (py "🧹 临时文件已清理")
    /\ fs_exists (w_fs w') Sample4.scratch = true
    /\ w_calls w' = [].
Proof.
  destruct (main_reports_error (H := Sample.silent_ydl) (H0 := Sample.posix)
              (H1 := Sample3.node_host) (H2 := Sample4.bare_engine)
              (H3 := Sample4.sticky_os)
              (Sample4.args (py "https://youtu.be/dQw4w9WgXcQ") (Some (py "nope.txt")))
              Sample.start
              (fst (main_body (H := Sample.silent_ydl) (H0 := Sample.posix)
                      (H1 := Sample3.node_host) (H2 := Sample4.bare_engine)
                      (H3 := Sample4.sticky_os)
                      (Sample4.args (py "https://youtu.be/dQw4w9WgXcQ")
                         (Some (py "nope.txt")))
                      [py "/"; py "out"] Sample4.scratch
                      (World
                         (FS (replace_entry Sample4.scratch (Inode true [] 100)
                                (replace_entry [py "/"; py "out"] (Inode true [] 100)
                                   (fs_entries Sample.disk))) 100)
                         [py "🎬 Video ID: dQw4w9WgXcQ"] [] 0%nat)))
              (Exn FileNotFoundError (py "Cookies 文件不存在: /nope.txt"))
              (py "dQw4w9WgXcQ")
              (FS (replace_entry [py "/"; py "out"] (Inode true [] 100)
                     (fs_entries Sample.disk)) 100)
              (FS (replace_entry Sample4.scratch (Inode true [] 100)
                     (replace_entry [py "/"; py "out"] (Inode true [] 100)
                        (fs_entries Sample.disk))) 100)
              0%nat 0%nat Sample4.scratch)
    as (w' & Hmain & Hout & Hfs & Hcalls).
  - vm_compute. reflexivity.
  - vm_compute. reflexivity.
  - vm_compute. reflexivity.
  - vm_compute. reflexivity.
  - discriminate.
  - exists w'. split; [exact Hmain|]. split.
    + rewrite Hout. vm_compute. reflexivity.
    + split.
      * apply (f_equal fst) in Hfs. cbn [fst] in Hfs. rewrite Hfs.
        vm_compute. reflexivity.
      * rewrite Hcalls. vm_compute. reflexivity.
Defined.

(** X23. A failure before the [try] statement is not handled: when the
    output directory or the scratch directory cannot be created, the
    exception leaves [main] as it is, with no error line, no exit
    status 1 and no cleanup, after the line with the video identifier. *)
Theorem main_setup_failure {ext : Type}
    `{YoutubeDL ext} `{Platform} `{Host} `{Engine ext} `{OS ext}
    (args : Args) (w : world ext) (video_id : pystr)
    (fs1 : file_system) (x1 : ext) (r1 : result unit) :
  parse_youtube_url (args_url args) = Some video_id ->
  os_mkdir (os_resolve (args_output_dir args)) (w_fs w) (w_ext w) = (fs1, x1, r1) ->
  match r1 with
  | Raise e =>
      main args w
      = (World fs1 (w_stdout w ++ [py "🎬 Video ID: " ++ video_id]) (w_calls w) x1, Raise e)
  | Ok _ =>
      forall (fs2 : file_system) (x2 : ext) (e : exn),
        os_mkdtemp fs1 x1 = (fs2, x2, Raise e) ->
        main args w
        = (World fs2 (w_stdout w ++ [py "🎬 Video ID: " ++ video_id]) (w_calls w) x2,
           Raise e)
  end.
Proof.
  intros Hurl Hmkdir.
  destruct r1 as [[]|e]; [intros fs2 x2 e Hmkdtemp|]; unfold main;
    rewrite Hurl; rewrite (parse_youtube_url_truthy _ _ Hurl); cbn [negb];
    cbn [default from_option id]; cbv zeta;
    unfold bind at 1, print at 1;
    unfold bind at 1, mkdir at 1; run_with Hmkdir; [|reflexivity].
  unfold bind at 1, mkdtemp at 1. run_with Hmkdtemp. reflexivity.
Qed.

Lemma main_setup_failure_witness :
  main (H := Sample.silent_ydl) (H0 := Sample.posix) (H1 := Sample3.node_host)
    (H2 := Sample4.bare_engine) (H3 := Sample4.sealed_os)
    (Sample4.args (py "https://youtu.be/dQw4w9WgXcQ") None) Sample.start
  = (World Sample.disk ([] ++ [py "🎬 Video ID: " ++ py "dQw4w9WgXcQ"]) [] 0%nat,
     Raise (Exn NotADirectoryError (py "[Errno 20] Not a directory: '/out'"))).
Proof.
  apply (main_setup_failure (H := Sample.silent_ydl) (H0 := Sample.posix)
           (H1 := Sample3.node_host) (H2 := Sample4.bare_engine) (H3 := Sample4.sealed_os)
           (Sample4.args (py "https://youtu.be/dQw4w9WgXcQ") None) Sample.start
           (py "dQw4w9WgXcQ") Sample.disk 0%nat
           (Raise (Exn NotADirectoryError (py "[Errno 20] Not a directory: '/out'")))).
  - vm_compute. reflexivity.
  - vm_compute. reflexivity.
Defined.

(** ** Search path set-up *)

Section SetupLemmas.

Lemma startswith_app (p s : pystr) : startswith p (p ++ s) = true.
Proof.
  induction p as [|c p IH]; [destruct s; reflexivity|].
  simpl. rewrite N.eqb_refl, IH. reflexivity.
Qed.

Lemma contains_prefix (p s : pystr) : contains p (p ++ s) = true.
Proof.
  destruct (p ++ s) as [|c t] eqn:E; simpl; rewrite <- E, startswith_app; reflexivity.
Qed.

End SetupLemmas.

(** X24. [setup_ffmpeg_path] extends the search path at most once: it
    returns True only when it has put the WinGet directory in front of
    PATH, leaving every other variable alone, and a second call then
    returns False and changes nothing; when it returns False the
    environment is unchanged. *)
Theorem setup_ffmpeg_path_once `{Shell} (env : environ) (fs : file_system) :
  let '(env', added) := setup_ffmpeg_path env fs in
  setup_ffmpeg_path env' fs = (env', false)
  /\ (added = false -> env' = env)
  /\ (added = true ->
      env' !! py "PATH"
      = Some (path_str (winget_links env) ++ pathsep ++ default [] (env !! py "PATH"))
      /\ forall k : pystr, k <> py "PATH" -> env' !! k = env !! k).
Proof.
  unfold setup_ffmpeg_path. cbv zeta.
  destruct (fs_exists fs (winget_links env)
            && fs_exists fs (path_div (winget_links env) (py "ffmpeg.exe"))) eqn:Hex.
  - destruct (contains (path_str (winget_links env)) (default [] (env !! py "PATH")))
      eqn:Hin; cbn [negb].
    + rewrite Hex, Hin. cbn [negb].
      split; [reflexivity|]. split; [reflexivity|discriminate].
    + assert (Hsame : winget_links
                        (<[py "PATH" := path_str (winget_links env) ++ pathsep
                                        ++ default [] (env !! py "PATH")]> env)
                      = winget_links env).
      { unfold winget_links. rewrite lookup_insert_ne by discriminate. reflexivity. }
      rewrite Hsame, Hex, lookup_insert_eq. cbn [default from_option id].
      rewrite contains_prefix. cbn [negb].
      split; [reflexivity|]. split; [discriminate|]. intros _.
      split; [reflexivity|]. intros k Hk. apply lookup_insert_ne. congruence.
  - rewrite Hex. split; [reflexivity|]. split; [reflexivity|discriminate].
Qed.

Lemma setup_ffmpeg_path_once_witness :
  snd (setup_ffmpeg_path (H := Sample5.windows) Sample5.env Sample5.winget_disk) = true
  /\ fst (setup_ffmpeg_path (H := Sample5.windows) Sample5.env Sample5.winget_disk)
     !! py "PATH"
     = Some (py "C:/Users/me/AppData/Local/Microsoft/WinGet/Links;C:/Windows").
Proof.
  assert (Hadded : snd (setup_ffmpeg_path (H := Sample5.windows) Sample5.env
                          Sample5.winget_disk) = true) by (vm_compute; reflexivity).
  split; [exact Hadded|].
  pose proof (setup_ffmpeg_path_once (H := Sample5.windows) Sample5.env Sample5.winget_disk)
    as Hw.
  destruct (setup_ffmpeg_path (H := Sample5.windows) Sample5.env Sample5.winget_disk)
    as [env' added].
  cbn [fst snd] in *. destruct Hw as (_ & _ & Hpath).
  destruct (Hpath Hadded) as [Hp _]. etransitivity; [exact Hp|]. vm_compute. reflexivity.
Defined.
